(** * AI-Blog-Editor: the generation facade, the usage ledger and the
      request governor, embedded from the JavaScript sources.

    Sources embedded here:
    - the GenAI service (class [AIService] with [_callModel], found after the
      limiter in [backend/middleware/rateLimiter.js]),
    - the OpenAI service ([backend/services/aiService.js]),
    - the AI router ([backend/routes/ai.js]),
    - the limiter wiring ([backend/middleware/rateLimiter.js]),
    - the authentication middleware ([backend/middleware/auth.js]),
    - the interceptors of the HTTP client ([frontend/src/services/api.js]),
    - the AI toolbar ([frontend/src/components/AIToolbar.jsx]) and the title
      picker of the editor page.

    JavaScript values are dynamically typed, so the embedding starts with a
    small universe of values and the runtime operations the sources use
    (truthiness, [??], [||], property lookup through [Object.prototype],
    [String.prototype.trim], [split], [slice], [parseInt]). *)

From Stdlib Require Import ZArith QArith List Ascii String Lia Bool.
From stdpp Require Import base option list gmap numbers pretty.

#[local] Set Warnings "-register-all".

Local Open Scope Z_scope.
Local Open Scope list_scope.

(** ** JavaScript strings

    A string is a sequence of UTF-16 code units.  [u] turns an ASCII literal
    of the sources into its code units. *)

Module JS.

Abbreviation jschar := N.
Abbreviation jsstring := (list N).

Fixpoint u (s : string) : jsstring :=
  match s with
  | EmptyString => []
  | String c rest => N_of_ascii c :: u rest
  end.

Arguments u : simpl never.

Definition LF : jschar := 10%N.
Definition QUOTE : jschar := 34%N.

(** WhiteSpace and LineTerminator of ECMAScript: what [trim] strips. *)
Definition is_space (c : jschar) : bool :=
  ((9 <=? c) && (c <=? 13) || (c =? 32) || (c =? 160) || (c =? 5760)
   || (8192 <=? c) && (c <=? 8202) || (c =? 8232) || (c =? 8233)
   || (c =? 8239) || (c =? 8287) || (c =? 12288) || (c =? 65279))%N.

Fixpoint trimStart (s : jsstring) : jsstring :=
  match s with
  | c :: rest => if is_space c then trimStart rest else s
  | [] => []
  end.

(** [trimEnd] walks the string once: a run of spaces is dropped only when
    nothing but spaces follows it. *)
Fixpoint trimEnd (s : jsstring) : jsstring :=
  match s with
  | [] => []
  | c :: rest =>
      match trimEnd rest with
      | [] => if is_space c then [] else [c]
      | kept => c :: kept
      end
  end.

Definition trim (s : jsstring) : jsstring := trimEnd (trimStart s).

(** [s.split(sep)] for a one-unit separator: never empty, [''.split] is
    [['']]. *)
Fixpoint split (sep : jschar) (s : jsstring) : list jsstring :=
  match s with
  | [] => [[]]
  | c :: rest =>
      if (c =? sep)%N then [] :: split sep rest
      else match split sep rest with
           | line :: lines => (c :: line) :: lines
           | [] => [[c]]
           end
  end.

(** [lines.join(sep)]. *)
Fixpoint join (sep : jschar) (lines : list jsstring) : jsstring :=
  match lines with
  | [] => []
  | [l] => l
  | l :: rest => l ++ sep :: join sep rest
  end.

(** [a.slice(0, n)] for an integer [n]: a negative end counts from the
    back. *)
Definition slice0 {A} (a : list A) (n : Z) : list A :=
  if n <? 0 then take (Z.to_nat (Z.max (Z.of_nat (length a) + n) 0)) a
  else take (Z.to_nat n) a.

(** [s.includes(t)]. *)
Fixpoint is_prefix (t s : jsstring) : bool :=
  match t, s with
  | [], _ => true
  | a :: t', b :: s' => (a =? b)%N && is_prefix t' s'
  | _ :: _, [] => false
  end.

Fixpoint includes (s t : jsstring) : bool :=
  is_prefix t s || match s with [] => false | _ :: s' => includes s' t end.

(** ** Numbers and values

    A number is NaN, an infinity or a finite rational (the doubles the
    program meets are token counts, temperatures and ceilings; negative zero
    is not told apart from zero). *)

Inductive number := NaN | Inf (negative : bool) | Fin (q : Q).

Definition int (z : Z) : number := Fin (inject_Z z).

Inductive value :=
| VUndefined
| VNull
| VBool (b : bool)
| VNum (n : number)
| VStr (s : jsstring)
| VObj (props : list (jsstring * value))
| VArr (items : list value)
| VBuiltin (name : jsstring).

Definition vint (z : Z) : value := VNum (int z).
Definition vstr (s : string) : value := VStr (u s).

Definition number_truthy (n : number) : bool :=
  match n with
  | NaN => false
  | Inf _ => true
  | Fin q => negb (Qnum q =? 0)
  end.

(** ToBoolean. *)
Definition truthy (v : value) : bool :=
  match v with
  | VUndefined | VNull => false
  | VBool b => b
  | VNum n => number_truthy n
  | VStr s => match s with [] => false | _ => true end
  | VObj _ | VArr _ | VBuiltin _ => true
  end.

Definition nullish (v : value) : bool :=
  match v with VUndefined | VNull => true | _ => false end.

(** [a || b] and [a ?? b] on already evaluated operands (every right
    operand in the sources is free of effects). *)
Definition or (a b : value) : value := if truthy a then a else b.
Definition coalesce (a b : value) : value := if nullish a then b else a.

(** A non-negative integer, as a token count should be. *)
Definition is_nonneg_integer (v : value) : bool :=
  match v with
  | VNum (Fin q) => (0 <=? Qnum q) && (Z.pos (Qden (Qred q)) =? 1)
  | _ => false
  end.

(** *** Property lookup

    An object literal inherits from [Object.prototype]: a key that is not an
    own property is looked up there before the lookup gives [undefined]. *)
Definition object_prototype_keys : list jsstring :=
  map u ["constructor"; "__proto__"; "hasOwnProperty"; "isPrototypeOf";
         "propertyIsEnumerable"; "toLocaleString"; "toString"; "valueOf";
         "__defineGetter__"; "__defineSetter__"; "__lookupGetter__";
         "__lookupSetter__"]%string.

Definition key_eqb (a b : jsstring) : bool := bool_decide (a = b).

Fixpoint own (props : list (jsstring * value)) (k : jsstring) : option value :=
  match props with
  | [] => None
  | (k', v) :: rest => if key_eqb k' k then Some v else own rest k
  end.

Definition inherited (k : jsstring) : value :=
  if existsb (key_eqb k) object_prototype_keys then VBuiltin k else VUndefined.

(** [o[k]] for a value that is neither [null] nor [undefined].  Objects carry
    the properties the program reads; strings and arrays have their
    [length]; the other names the program reads are absent from primitives,
    arrays and built-ins. *)
Definition prop (o : value) (k : jsstring) : value :=
  match o with
  | VObj props => match own props k with Some v => v | None => inherited k end
  | VStr s => if key_eqb k (u "length") then vint (Z.of_nat (length s)) else VUndefined
  | VArr items =>
      if key_eqb k (u "length") then vint (Z.of_nat (length items)) else VUndefined
  | _ => VUndefined
  end.

(** [o?.k]. *)
Definition oprop (o : value) (k : string) : value :=
  if nullish o then VUndefined else prop o (u k).

(** [Boolean(s)] for a string. *)
Definition nonempty (s : jsstring) : bool :=
  match s with [] => false | _ => true end.

(** A destructuring or parameter default: it applies to [undefined] only. *)
Definition default_to (v d : value) : value :=
  match v with VUndefined => d | _ => v end.

Definition TypeError (message : string) : value :=
  VObj [(u "name", vstr "TypeError"); (u "message", vstr message)].

(** [v === z] for an integer literal [z]. *)
Definition is_int (v : value) (z : Z) : bool :=
  match v with
  | VNum (Fin q) => Qeq_bool q (inject_Z z)
  | _ => false
  end.

(** *** parseInt

    Leading white space is skipped, a sign is read, then the longest run of
    digits; no digit at all gives NaN ([None]).  Without a radix a [0x]
    prefix switches to base 16.  The result is the integer the digits
    denote; JavaScript hands it over as a double, which is that same integer
    as long as its magnitude is at most 2^53; beyond that the double is the
    nearest representable one (an infinity from 2^1024 on), which this
    function does not compute. *)
Definition digit (radix : Z) (c : jschar) : option Z :=
  let d := if ((48 <=? c) && (c <=? 57))%N then Z.of_N c - 48
           else if ((97 <=? c) && (c <=? 122))%N then Z.of_N c - 87
           else if ((65 <=? c) && (c <=? 90))%N then Z.of_N c - 55
           else 36 in
  if d <? radix then Some d else None.

Fixpoint digits (radix : Z) (s : jsstring) (acc : option Z) : option Z :=
  match s with
  | [] => acc
  | c :: rest =>
      match digit radix c with
      | Some d => digits radix rest (Some (radix * default 0 acc + d))
      | None => acc
      end
  end.

Definition parseInt (s : jsstring) (radix : option Z) : option Z :=
  let s := trimStart s in
  let '(negative, s) :=
    match s with
    | 45%N :: rest => (true, rest)
    | 43%N :: rest => (false, rest)
    | _ => (false, s)
    end in
  let '(radix, s) :=
    match radix, s with
    | None, 48%N :: 120%N :: rest | None, 48%N :: 88%N :: rest => (16, rest)
    | None, _ => (10, s)
    | Some r, _ => (r, s)
    end in
  (fun n => if negative then - n else n) <$> digits radix s None.

End JS.

Import JS.

(** ** The host: everything the program calls but does not define *)

Module Host.

(** One call of [client.models.generateContent({model, contents, temperature,
    maxOutputTokens})]. *)
Record call := Call {
  model : jsstring;
  contents : value;
  temperature : value;
  maxOutputTokens : value
}.

(** How an awaited call ends: the promise resolves, or it rejects and the
    [await] throws. *)
Inductive completion (A : Type) :=
| Return (a : A)
| Throw (err : value).
Arguments Return {A} a.
Arguments Throw {A} err.

(** A row of [ai_usage_logs]; [timestamp] in milliseconds since the epoch. *)
Record usage_row := Row {
  user_id : Z;
  post_id : option Z;
  feature_type : jsstring;
  tokens_used : Z;
  timestamp : Z
}.

(** One call of [client.chat.completions.create({model, messages: [system,
    user], temperature, max_tokens})] of the OpenAI service. *)
Record chat_call := Chat {
  chat_model : jsstring;
  system : value;
  user : value;
  chat_temperature : value;
  max_tokens : value
}.

Record host := {
  (** number and object conversions of the runtime that the model leaves
      open: [Number(s)] on a string, [String(n)] on a number, and both on
      objects *)
  StringToNumber : jsstring -> number;
  ObjectToNumber : value -> number;
  NumberToString : number -> jsstring;
  ObjectToString : value -> jsstring;
  JSON_parse : jsstring -> completion value;
  (** the provider SDKs: given the calls made so far, how the next one ends *)
  upstream : list call -> call -> completion value;
  chat_upstream : list chat_call -> chat_call -> completion value;
  (** the database driver: [Some err] when a statement is refused for a
      reason of the server's own (connection lost, table missing) *)
  query_fault : list usage_row -> option value;
  (** the tables that the routes embedded here only refer to: which ids are
      rows of [users] and of [blog_posts], the two tables [ai_usage_logs]
      has foreign keys to *)
  user_exists : Z -> bool;
  post_exists : Z -> bool;
  (** [validationResult(req).array()] of express-validator for a body *)
  validationResult : value -> list value
}.

Inductive log_level := Info | Warn | Error.

Record log_entry := Log {
  level : log_level;
  text : jsstring;
  detail : list value
}.

(** The state a request handler can touch. *)
Record world := World {
  now : Z;
  client_calls : list call;
  model_calls : list call;
  chat_calls : list chat_call;
  logs : list log_entry;
  ledger : list usage_row
}.

Definition M (A : Type) : Type := world -> completion A * world.

Definition ret {A} (a : A) : M A := fun w => (Return a, w).
Definition throw {A} (e : value) : M A := fun w => (Throw e, w).
Definition bind {A B} (m : M A) (k : A -> M B) : M B :=
  fun w => match m w with
           | (Return a, w') => k a w'
           | (Throw e, w') => (Throw e, w')
           end.
(** [try { m } catch (e) { handler e }]. *)
Definition try_catch {A} (m : M A) (handler : value -> M A) : M A :=
  fun w => match m w with
           | (Return a, w') => (Return a, w')
           | (Throw e, w') => handler e w'
           end.
(** A pure step that may throw, run inside the [async] function. *)
Definition lift {A} (c : completion A) : M A := fun w => (c, w).

Definition andThen {A B} (c : completion A) (k : A -> completion B) : completion B :=
  match c with Return a => k a | Throw e => Throw e end.

(** [o.k]: reading a property of [null] or [undefined] throws. *)
Definition get (o : value) (k : string) : completion value :=
  if nullish o then Throw (TypeError "Cannot read properties of undefined")
  else Return (prop o (u k)).

(** [a[0]] *)
Definition first (a : value) : completion value :=
  match a with
  | VUndefined | VNull => Throw (TypeError "Cannot read properties of undefined")
  | VArr (x :: _) => Return x
  | VStr (c :: _) => Return (VStr [c])
  | VObj _ => Return (prop a (u "0"))
  | _ => Return VUndefined
  end.

(** [v.length] *)
Definition length_of (v : value) : completion value := get v "length".

(** [v?.length] *)
Definition olength (v : value) : value :=
  match length_of v with Return n => n | Throw _ => VUndefined end.

Definition set_logs (l : list log_entry) (w : world) : world :=
  World (now w) (client_calls w) (model_calls w) (chat_calls w) l (ledger w).
Definition set_client_calls (c : list call) (w : world) : world :=
  World (now w) c (model_calls w) (chat_calls w) (logs w) (ledger w).
Definition set_model_calls (c : list call) (w : world) : world :=
  World (now w) (client_calls w) c (chat_calls w) (logs w) (ledger w).
Definition set_chat_calls (c : list chat_call) (w : world) : world :=
  World (now w) (client_calls w) (model_calls w) c (logs w) (ledger w).
Definition set_ledger (l : list usage_row) (w : world) : world :=
  World (now w) (client_calls w) (model_calls w) (chat_calls w) (logs w) l.
Definition set_now (t : Z) (w : world) : world :=
  World t (client_calls w) (model_calls w) (chat_calls w) (logs w) (ledger w).

Definition logger (l : log_level) (t : string) (d : list value) : M unit :=
  fun w => (Return tt, set_logs (logs w ++ [Log l (u t) d]) w).

Definition clock : M Z := fun w => (Return (now w), w).

End Host.

Import Host.

Notation "'await' x <- m 'in' k" := (bind m (fun x => k))
  (at level 10, x name, m at level 100, k at level 200).
Notation "'wait' m 'in' k" := (bind m (fun _ => k))
  (at level 10, m at level 100, k at level 200).

(** ** Conversions that need the host *)

Section Conversions.
Context (h : host).

Definition ToNumber (v : value) : number :=
  match v with
  | VUndefined => NaN
  | VNull => int 0
  | VBool b => if b then int 1 else int 0
  | VNum n => n
  | VStr s => StringToNumber h s
  | _ => ObjectToNumber h v
  end.

Definition ToString (v : value) : jsstring :=
  match v with
  | VUndefined => u "undefined"
  | VNull => u "null"
  | VBool b => if b then u "true" else u "false"
  | VNum n => NumberToString h n
  | VStr s => s
  | _ => ObjectToString h v
  end.

(** [new Error(message)] with extra fields set afterwards. *)
Definition new_Error (message : value) (fields : list (jsstring * value)) : value :=
  VObj ((u "message",
         VStr (match message with VUndefined => [] | _ => ToString message end))
          :: fields).

(** The end of [a.slice(0, count)]: [count] goes through ToNumber and is
    truncated towards zero; NaN counts as 0. *)
Definition slice_to {A} (a : list A) (count : value) : list A :=
  match ToNumber count with
  | NaN => slice0 a 0
  | Inf negative => if negative then [] else a
  | Fin q => slice0 a (Z.quot (Qnum q) (Z.pos (Qden q)))
  end.

End Conversions.

(** ** Results of the generation facade *)

(** The option bag of [generateContent] and the objects the four operations
    resolve to (shared by both services; the OpenAI service sets no [model]).
    [timestamp] holds the clock reading that the source formats with
    [toISOString]. *)
Module Options.
Record t := { tone : value; length : value; creativity : value }.
End Options.

Module Content.
Record t := { content : value; tokensUsed : value; model : value; timestamp : Z }.
End Content.

Module Grammar.
Record t := { correctedText : value; changes : value; tokensUsed : value; timestamp : Z }.
End Grammar.

Module Enhanced.
Record t := { enhancedText : value; tokensUsed : value; timestamp : Z }.
End Enhanced.

Module Titles.
Record t := { titles : list jsstring; tokensUsed : value; timestamp : Z }.
End Titles.

(** What the router needs of [require('../services/aiService')]. *)
Record AIService := {
  generateContent : value -> Options.t -> M Content.t;
  correctGrammar : value -> M Grammar.t;
  enhanceContent : value -> value -> M Enhanced.t;
  generateTitles : value -> value -> M Titles.t
}.

(** ** The GenAI service *)

Module GenAI.

(** What the constructor leaves in [this]: whether the client could be built,
    and the two model names. *)
Record service := {
  client : bool;
  defaultModel : jsstring;
  fallbackModel : jsstring
}.

(** [process.env.A || process.env.B || fallback]. *)
Definition env_or (a b : option jsstring) (fallback : string) : jsstring :=
  match a with
  | Some (c :: s) => c :: s
  | _ => match b with
         | Some (c :: s) => c :: s
         | _ => u fallback
         end
  end.

Definition constructor (sdk_ok : bool)
    (GENAI_MODEL GEMINI_MODEL GENAI_FALLBACK_MODEL GEMINI_FALLBACK_MODEL : option jsstring)
    : service :=
  {| client := sdk_ok;
     defaultModel := env_or GENAI_MODEL GEMINI_MODEL "gemini-flash-latest";
     fallbackModel := env_or GENAI_FALLBACK_MODEL GEMINI_FALLBACK_MODEL "text-bison-001" |}.

Module Response.
Record t := { text : jsstring; tokensUsed : value; raw : value }.
End Response.

Section Service.
Context (h : host) (this : service).

(** [res?.text ?? res?.response?.text ?? (Array.isArray(res?.output) ?
    res.output[0]?.content : undefined) ?? ''] *)
Definition response_text (res : value) : value :=
  coalesce
    (coalesce
       (coalesce (oprop res "text") (oprop (oprop res "response") "text"))
       (match oprop res "output" with
        | VArr (first :: _) => oprop first "content"
        | _ => VUndefined
        end))
    (VStr []).

(** [Number(res?.metadata?.tokenCount ?? res?.usage?.totalTokens ??
    res?.usage?.total_tokens ?? 0) || 0] *)
Definition reported_tokens (res : value) : value :=
  coalesce
    (coalesce
       (coalesce (oprop (oprop res "metadata") "tokenCount")
                 (oprop (oprop res "usage") "totalTokens"))
       (oprop (oprop res "usage") "total_tokens"))
    (vint 0).

Definition response_tokens (res : value) : value :=
  or (VNum (ToNumber h (reported_tokens res))) (vint 0).

(** [err.message.includes('quota')] once [err.message] is truthy: strings and
    arrays have [includes]; on anything else the call itself throws. *)
Definition message_includes_quota (message : value) : completion bool :=
  match message with
  | VStr s => Return (includes s (u "quota"))
  | VArr items =>
      Return (existsb (fun v => match v with
                                | VStr s => key_eqb s (u "quota")
                                | _ => false
                                end) items)
  | _ => Throw (TypeError "err.message.includes is not a function")
  end.

(** The [catch] block of [_callModel]. *)
Definition normalize_error (err : value) : value :=
  let quota :=
    if truthy (oprop err "message") then
      match message_includes_quota (oprop err "message") with
      | Return b => Return (if b then vint 429 else VUndefined)
      | Throw e => Throw e
      end
    else Return VUndefined in
  let status :=
    if truthy (oprop err "status") then Return (oprop err "status")
    else if truthy (oprop err "code") then Return (oprop err "code")
    else quota in
  match status with
  | Throw e => e
  | Return status =>
      new_Error h (or (oprop err "message") (vstr "Generative API error"))
        [(u "status", or status (vint 500)); (u "raw", err)]
  end.

Definition _callModel (model : jsstring) (contents : value)
    (temperature maxOutputTokens : value) : M Response.t :=
  fun w =>
    let c := Call model contents
                  (default_to temperature (VNum (Fin (7 # 10))))
                  (default_to maxOutputTokens (vint 600)) in
    let entered := set_model_calls (model_calls w ++ [c]) w in
    if negb (client this) then
      (Throw (new_Error h
                (vstr "Generative client not configured (set GENAI_API_KEY or GEMINI_API_KEY)")
                [(u "status", vint 503)]), entered)
    else
      let called := set_client_calls (client_calls w ++ [c]) entered in
      match upstream h (client_calls w) c with
      | Return res =>
          (Return {| Response.text := ToString h (response_text res);
                     Response.tokensUsed := response_tokens res;
                     Response.raw := res |}, called)
      | Throw err => (Throw (normalize_error err), called)
      end.

(** *** Prompt and token helpers *)

Definition toneMap : value :=
  VObj [(u "professional", vstr "Write in a formal, informative tone.");
        (u "casual", vstr "Write in a friendly, conversational tone.");
        (u "technical", vstr "Write in a precise, technical tone with clear explanations.");
        (u "creative", vstr "Write in an imaginative, expressive tone.")].

Definition lengthMap : value :=
  VObj [(u "short", vstr "Keep it concise (~100 words).");
        (u "medium", vstr "Balanced detail (~300 words).");
        (u "long", vstr "Comprehensive (~600-1000 words).")].

Definition getSystemPrompt (tone length : value) : jsstring :=
  u "You are an expert content writer. "
    ++ ToString h (or (prop toneMap (ToString h tone)) (VStr []))
    ++ u " "
    ++ ToString h (or (prop lengthMap (ToString h length)) (VStr [])).

Definition limits : value :=
  VObj [(u "short", vint 300); (u "medium", vint 600); (u "long", vint 1200)].

Definition getMaxTokens (length : value) : value :=
  or (prop limits (ToString h length)) (vint 600).


(** *** generateContent(prompt, options) *)

Definition finalPrompt (prompt : value) (options : Options.t) : jsstring :=
  let length := default_to (Options.length options) (vstr "medium") in
  let tone := default_to (Options.tone options) (vstr "professional") in
  getSystemPrompt tone length ++ [LF; LF] ++ ToString h prompt.

Definition generateContent (prompt : value) (options : Options.t)
    : M Content.t :=
  let creativity := default_to (Options.creativity options) (VNum (Fin (7 # 10))) in
  let length := default_to (Options.length options) (vstr "medium") in
  let finalPrompt := VStr (finalPrompt prompt options) in
  let maxOutputTokens := getMaxTokens length in
  (* Try primary model then fallback *)
  try_catch
    (await resp <- _callModel (defaultModel this) finalPrompt creativity maxOutputTokens in
     wait logger Info "Content generated"
                 [VStr (defaultModel this); Response.tokensUsed resp] in
     await t <- clock in
     ret {| Content.content := VStr (Response.text resp);
            Content.tokensUsed := Response.tokensUsed resp;
            Content.model := VStr (defaultModel this);
            Content.timestamp := t |})
    (fun err =>
       wait logger Warn "Primary model failed"
                   [VStr (defaultModel this); prop err (u "message")] in
       try_catch
         (await resp2 <- _callModel (fallbackModel this) finalPrompt creativity maxOutputTokens in
          wait logger Info "Content generated (fallback)"
                      [VStr (fallbackModel this); Response.tokensUsed resp2] in
          await t <- clock in
          ret {| Content.content := VStr (Response.text resp2);
                 Content.tokensUsed := Response.tokensUsed resp2;
                 Content.model := VStr (fallbackModel this);
                 Content.timestamp := t |})
         (fun err2 =>
            wait logger Error "Generative content error (fallback):" [err2] in
            throw (new_Error h (vstr "Failed to generate content (Gemini/GenAI)")
                     [(u "status", or (prop err2 (u "status")) (vint 500))]))).

(** *** correctGrammar(text) *)

Definition grammarPrompt (text : jsstring) : jsstring :=
  u "You are a professional grammar and style editor. Correct grammar, spelling, punctuation and minor stylistic issues while preserving the original meaning and tone. RETURN ONLY THE CORRECTED TEXT AND NOTHING ELSE (no explanations, no JSON, no metadata)."
    ++ [LF; LF] ++ u "Text:" ++ [LF] ++ text.

(** [Math.min(1200, Math.max(300, Math.ceil(text.length / 2)))] *)
Definition grammarMaxTokens (text : jsstring) : Z :=
  Z.min 1200 (Z.max 300 ((Z.of_nat (List.length text) + 1) / 2)).

Definition emptyGrammar : M Grammar.t :=
  await t <- clock in
  ret {| Grammar.correctedText := VStr [];
         Grammar.changes := VArr [];
         Grammar.tokensUsed := vint 0;
         Grammar.timestamp := t |}.

(** [!text || !text.trim()] guards the call; a truthy value that is not a
    string has no [trim], and the guard itself throws. *)
Definition correctGrammar (text : value) : M Grammar.t :=
  match text with
  | VStr s =>
      if negb (truthy text) || negb (truthy (VStr (trim s))) then emptyGrammar
      else
        try_catch
          (await resp <- _callModel (defaultModel this) (VStr (grammarPrompt s))
                                    (vint 0) (vint (grammarMaxTokens s)) in
           let correctedText := trim (ToString h (or (VStr (Response.text resp)) (VStr []))) in
           await t <- clock in
           ret {| Grammar.correctedText := VStr correctedText;
                  Grammar.changes := VArr [];
                  Grammar.tokensUsed := or (Response.tokensUsed resp) (vint 0);
                  Grammar.timestamp := t |})
          (fun err =>
             wait logger Error "Grammar correction error:" [err] in
             throw err)
  | _ =>
      if negb (truthy text) then emptyGrammar
      else throw (TypeError "text.trim is not a function")
  end.

(** *** enhanceContent(text, type) *)

Definition is_str (v : value) (s : string) : bool :=
  match v with VStr k => key_eqb k (u s) | _ => false end.

Definition enhancePrompt (text : value) (type : value) : value :=
  if is_str type "expand" then
    VStr (u "Expand the following text with more detail and examples while preserving meaning:"
            ++ [LF; LF] ++ ToString h text)
  else if is_str type "simplify" then
    VStr (u "Simplify the following text for a general audience while preserving the key points:"
            ++ [LF; LF] ++ ToString h text)
  else if is_str type "improve" then
    VStr (u "Improve clarity, flow, and impact of the following text:"
            ++ [LF; LF] ++ ToString h text)
  else if is_str type "summarize" then
    VStr (u "Summarize the following text concisely:" ++ [LF; LF] ++ ToString h text)
  else text.

Definition enhanceContent (text : value) (type : value) : M Enhanced.t :=
  let prompt := enhancePrompt text type in
  try_catch
    (await resp <- _callModel (defaultModel this) prompt (VNum (Fin (6 # 10))) (vint 900) in
     await t <- clock in
     ret {| Enhanced.enhancedText := VStr (Response.text resp);
            Enhanced.tokensUsed := Response.tokensUsed resp;
            Enhanced.timestamp := t |})
    (fun err =>
       (* try fallback *)
       try_catch
         (await resp2 <- _callModel (fallbackModel this) prompt (VNum (Fin (6 # 10))) (vint 900) in
          await t <- clock in
          ret {| Enhanced.enhancedText := VStr (Response.text resp2);
                 Enhanced.tokensUsed := Response.tokensUsed resp2;
                 Enhanced.timestamp := t |})
         (fun err2 =>
            wait logger Error "Enhance content error:" [err2] in
            throw err2)).

(** *** generateTitles(content, count = 5) *)

Definition titlesPrompt (content : value) (count : value) : jsstring :=
  u "Generate " ++ ToString h count
    ++ u " SEO-friendly titles (one per line) for the content below. Return plain text, one title per line."
    ++ [LF; LF] ++ ToString h content.

(** [text.split('\n').map(l => l.trim()).filter(Boolean).slice(0, count)] *)
Definition title_lines (text : jsstring) (count : value) : list jsstring :=
  slice_to h (List.filter nonempty (map trim (split LF text))) count.

Definition generateTitles (content : value) (count : value) : M Titles.t :=
  let count := default_to count (vint 5) in
  let prompt := VStr (titlesPrompt content count) in
  try_catch
    (await resp <- _callModel (defaultModel this) prompt (VNum (Fin (8 # 10))) (vint 300) in
     let lines := title_lines (Response.text resp) count in
     await t <- clock in
     ret {| Titles.titles := lines;
            Titles.tokensUsed := Response.tokensUsed resp;
            Titles.timestamp := t |})
    (fun err =>
       try_catch
         (await resp2 <- _callModel (fallbackModel this) prompt (VNum (Fin (8 # 10))) (vint 300) in
          let lines2 := title_lines (Response.text resp2) count in
          await t <- clock in
          ret {| Titles.titles := lines2;
                 Titles.tokensUsed := Response.tokensUsed resp2;
                 Titles.timestamp := t |})
         (fun err2 =>
            wait logger Error "Title generation error:" [err2] in
            throw err2)).

(** [module.exports = new AIService()] *)
Definition exports : AIService :=
  Build_AIService generateContent correctGrammar enhanceContent generateTitles.

End Service.
End GenAI.

(** ** The OpenAI service *)

Module OpenAI.

Record service := { client : bool }.

(** [if (!process.env.OPENAI_API_KEY) this.client = null] *)
Definition constructor (OPENAI_API_KEY : option jsstring) : service :=
  {| client := match OPENAI_API_KEY with Some (_ :: _) => true | _ => false end |}.

(** [response.choices[0].message.content] *)
Definition message_content (response : value) : completion value :=
  andThen (get response "choices") (fun choices =>
  andThen (first choices) (fun choice =>
  andThen (get choice "message") (fun message =>
  get message "content"))).

(** [response.usage.total_tokens] *)
Definition total_tokens (response : value) : completion value :=
  andThen (get response "usage") (fun usage => get usage "total_tokens").

Section Service.
Context (h : host) (this : service).

Definition not_configured : value :=
  new_Error h (vstr "OpenAI API key not configured. Please add OPENAI_API_KEY to your .env file.") [].

Definition create (system user temperature max_tokens : value) : M value :=
  fun w =>
    let c := Chat (u "gpt-4") system user temperature max_tokens in
    (chat_upstream h (chat_calls w) c, set_chat_calls (chat_calls w ++ [c]) w).

Definition toneInstructions : value :=
  VObj [(u "professional", vstr "Write in a professional, formal tone suitable for business and academic contexts.");
        (u "casual", vstr "Write in a friendly, conversational tone that feels approachable and engaging.");
        (u "technical", vstr "Write in a precise, technical tone with clear explanations and terminology.");
        (u "creative", vstr "Write in an imaginative, expressive tone that captivates and inspires readers.")].

Definition lengthInstructions : value :=
  VObj [(u "short", vstr "Keep the response concise and to the point (100-200 words).");
        (u "medium", vstr "Provide a balanced response with good detail (300-500 words).");
        (u "long", vstr "Create a comprehensive, detailed response (600-1000 words).")].

Definition getSystemPrompt (tone length : value) : jsstring :=
  u "You are an expert content writer. "
    ++ ToString h (prop toneInstructions (ToString h tone))
    ++ u " "
    ++ ToString h (prop lengthInstructions (ToString h length))
    ++ u " Focus on creating high-quality, engaging content that provides value to readers.".

Definition tokenLimits : value :=
  VObj [(u "short", vint 300); (u "medium", vint 600); (u "long", vint 1200)].

Definition getMaxTokens (length : value) : value :=
  or (prop tokenLimits (ToString h length)) (vint 600).

Definition generateContent (prompt : value) (options : Options.t) : M Content.t :=
  if negb (client this) then throw not_configured
  else
    try_catch
      (let tone := default_to (Options.tone options) (vstr "professional") in
       let length := default_to (Options.length options) (vstr "medium") in
       let creativity := default_to (Options.creativity options) (VNum (Fin (7 # 10))) in
       let systemPrompt := getSystemPrompt tone length in
       let maxTokens := getMaxTokens length in
       await response <- create (VStr systemPrompt) prompt creativity maxTokens in
       await content <- lift (message_content response) in
       await tokensUsed <- lift (total_tokens response) in
       await promptLength <- lift (length_of prompt) in
       await contentLength <- lift (length_of content) in
       wait logger Info "Content generated" [promptLength; tokensUsed; contentLength] in
       await t <- clock in
       ret {| Content.content := content;
              Content.tokensUsed := tokensUsed;
              Content.model := VUndefined;
              Content.timestamp := t |})
      (fun error =>
         wait logger Error "Content generation error:" [error] in
         throw (new_Error h (vstr "Failed to generate content") [])).

Definition grammarSystem : jsstring :=
  u "You are a professional grammar and style editor. Correct any grammar, spelling, punctuation, and style issues in the provided text. Return the corrected text and a list of changes made. Format your response as JSON with "
    ++ [QUOTE] ++ u "correctedText" ++ [QUOTE] ++ u " and " ++ [QUOTE] ++ u "changes" ++ [QUOTE]
    ++ u " fields. The changes should include the original text, corrected text, position, and reason for each change.".

Definition correctGrammar (text : value) : M Grammar.t :=
  if negb (client this) then throw not_configured
  else
    try_catch
      (await response <-
         create (VStr grammarSystem)
                (VStr (u "Please correct the grammar and style in this text:"
                         ++ [LF; LF] ++ ToString h text))
                (VNum (Fin (3 # 10))) (vint 1000) in
       await content <- lift (message_content response) in
       await result <- lift (JSON_parse h (ToString h content)) in
       await tokensUsed <- lift (total_tokens response) in
       await textLength <- lift (length_of text) in
       await changes <- lift (get result "changes") in
       wait logger Info "Grammar corrected"
                   [textLength; tokensUsed; or (olength changes) (vint 0)] in
       await correctedText <- lift (get result "correctedText") in
       await t <- clock in
       ret {| Grammar.correctedText := correctedText;
              Grammar.changes := or changes (VArr []);
              Grammar.tokensUsed := tokensUsed;
              Grammar.timestamp := t |})
      (fun error =>
         wait logger Error "Grammar correction error:" [error] in
         throw (new_Error h (vstr "Failed to correct grammar") [])).

Definition prompts (text : value) : value :=
  VObj [(u "expand", VStr (u "Expand the following text to provide more detail, examples, and context while maintaining the original meaning and tone:" ++ [LF; LF] ++ ToString h text));
        (u "simplify", VStr (u "Simplify the following text to make it more accessible and easier to understand while keeping the key information:" ++ [LF; LF] ++ ToString h text));
        (u "improve", VStr (u "Improve the following text by enhancing clarity, flow, and impact while maintaining the original meaning:" ++ [LF; LF] ++ ToString h text));
        (u "summarize", VStr (u "Summarize the following text into a concise version that captures the main points:" ++ [LF; LF] ++ ToString h text))].

Definition systemPrompts : value :=
  VObj [(u "expand", vstr "You are a content writer who excels at expanding ideas with relevant details and examples.");
        (u "simplify", vstr "You are a technical writer who specializes in making complex content accessible to all audiences.");
        (u "improve", vstr "You are a professional editor who enhances content for better readability and impact.");
        (u "summarize", vstr "You are a skilled summarizer who can distill content to its essential points.")].

Definition enhanceContent (text : value) (type : value) : M Enhanced.t :=
  if negb (client this) then throw not_configured
  else
    try_catch
      (await response <-
         create (prop systemPrompts (ToString h type))
                (prop (prompts text) (ToString h type))
                (VNum (Fin (7 # 10))) (vint 1500) in
       await enhancedText <- lift (message_content response) in
       await tokensUsed <- lift (total_tokens response) in
       await textLength <- lift (length_of text) in
       await enhancedLength <- lift (length_of enhancedText) in
       wait logger Info "Content enhanced" [type; textLength; tokensUsed; enhancedLength] in
       await t <- clock in
       ret {| Enhanced.enhancedText := enhancedText;
              Enhanced.tokensUsed := tokensUsed;
              Enhanced.timestamp := t |})
      (fun error =>
         wait logger Error "Content enhancement error:" [error] in
         throw (new_Error h (vstr "Failed to enhance content") [])).

(** [content.split('\\n').map(title => title.trim()).filter(title =>
    title.length > 0).slice(0, count)]; only a string has [split]. *)
Definition title_lines (content : value) (count : value) : completion (list jsstring) :=
  match content with
  | VStr s =>
      Return (slice_to h
                (List.filter (fun title => (0 <? Z.of_nat (List.length title)))
                             (map trim (split LF s)))
                count)
  | VUndefined | VNull => Throw (TypeError "Cannot read properties of undefined")
  | _ => Throw (TypeError "content.split is not a function")
  end.

Definition generateTitles (content : value) (count : value) : M Titles.t :=
  let count := default_to count (vint 5) in
  if negb (client this) then throw not_configured
  else
    try_catch
      (await response <-
         create (VStr (u "You are a professional content strategist who creates compelling, SEO-friendly titles. Generate "
                         ++ ToString h count
                         ++ u " different title options for the given content. Return only the titles, one per line, without numbering or bullet points."))
                (VStr (u "Generate " ++ ToString h count
                         ++ u " title suggestions for this content:"
                         ++ [LF; LF] ++ ToString h content))
                (VNum (Fin (8 # 10))) (vint 500) in
       await answer <- lift (message_content response) in
       await titles <- lift (title_lines answer count) in
       await tokensUsed <- lift (total_tokens response) in
       await contentLength <- lift (length_of content) in
       wait logger Info "Titles generated"
                   [contentLength; tokensUsed; vint (Z.of_nat (List.length titles))] in
       await t <- clock in
       ret {| Titles.titles := titles;
              Titles.tokensUsed := tokensUsed;
              Titles.timestamp := t |})
      (fun error =>
         wait logger Error "Title generation error:" [error] in
         throw (new_Error h (vstr "Failed to generate titles") [])).

(** [module.exports = new AIService()] *)
Definition exports : AIService :=
  Build_AIService generateContent correctGrammar enhanceContent generateTitles.

End Service.
End OpenAI.

(** ** The usage ledger: table [ai_usage_logs] and its three queries *)

Module Ledger.

Definition DAY : Z := 86400000.

(** A statement parameter as the server reads it for an [INTEGER] column:
    [null] and [undefined] are sent as NULL, a number as its decimal text,
    a string as it is.  The server reads a text in decimal notation: blanks,
    an optional sign, digits, blanks; anything else, and a number outside 32
    bits, is refused. *)
Inductive sql_param := SqlNull | SqlInt (z : Z) | SqlBad.

(** [isspace] of the server. *)
Definition sql_space (c : jschar) : bool := ((c =? 32) || (9 <=? c) && (c <=? 13))%N.

Definition sql_digit (c : jschar) : bool := ((48 <=? c) && (c <=? 57))%N.

Fixpoint skip (p : jschar -> bool) (s : jsstring) : jsstring :=
  match s with
  | c :: rest => if p c then skip p rest else s
  | [] => []
  end.

Fixpoint run (p : jschar -> bool) (s : jsstring) : jsstring :=
  match s with
  | c :: rest => if p c then c :: run p rest else []
  | [] => []
  end.

(** The integer a text denotes for the server, if it denotes one. *)
Definition int4in (s : jsstring) : option Z :=
  let s := skip sql_space s in
  let '(negative, s) :=
    match s with
    | 45%N :: rest => (true, rest)
    | 43%N :: rest => (false, rest)
    | _ => (false, s)
    end in
  match run sql_digit s, skip sql_space (skip sql_digit s) with
  | (_ :: _) as ds, [] =>
      (fun n => if negative then - n else n) <$> digits 10 ds None
  | _, _ => None
  end.

Definition in_int4 (z : Z) : bool := (- 2147483648 <=? z) && (z <=? 2147483647).

Definition sql_integer (v : value) : sql_param :=
  match v with
  | VUndefined | VNull => SqlNull
  | VNum (Fin q) =>
      if (Z.pos (Qden (Qred q)) =? 1) && in_int4 (Qnum (Qred q))
      then SqlInt (Qnum (Qred q)) else SqlBad
  | VStr s =>
      match int4in s with
      | Some z => if in_int4 z then SqlInt z else SqlBad
      | None => SqlBad
      end
  | _ => SqlBad
  end.

Definition sql_error (message : string) : value :=
  VObj [(u "name", vstr "error"); (u "message", vstr message)].

(** [INSERT INTO ai_usage_logs (user_id, post_id, feature_type, tokens_used,
    timestamp) VALUES ($1, $2, $3, $4, NOW())]: [user_id] is [INTEGER NOT
    NULL REFERENCES users(user_id)], [post_id] is [INTEGER REFERENCES
    blog_posts(post_id)], [feature_type] is [VARCHAR(50) NOT NULL] and
    [tokens_used] is [INTEGER NOT NULL]. *)
Definition insert (h : host) (userId postId : value) (featureType : jsstring)
    (tokensUsed : value) : M unit :=
  fun w =>
    match query_fault h (ledger w) with
    | Some err => (Throw err, w)
    | None =>
        match sql_integer userId, sql_integer postId, sql_integer tokensUsed with
        | SqlInt uid, SqlNull, SqlInt tokens =>
            if negb (Z.of_nat (length featureType) <=? 50) then
              (Throw (sql_error "value too long for type character varying(50)"), w)
            else if negb (user_exists h uid) then
              (Throw (sql_error "violates foreign key constraint"), w)
            else
              (Return tt,
               set_ledger (ledger w ++ [Row uid None featureType tokens (now w)]) w)
        | SqlInt uid, SqlInt pid, SqlInt tokens =>
            if negb (Z.of_nat (length featureType) <=? 50) then
              (Throw (sql_error "value too long for type character varying(50)"), w)
            else if negb (user_exists h uid && post_exists h pid) then
              (Throw (sql_error "violates foreign key constraint"), w)
            else
              (Return tt,
               set_ledger (ledger w ++ [Row uid (Some pid) featureType tokens (now w)]) w)
        | _, _, _ => (Throw (sql_error "insert refused"), w)
        end
    end.

(** [WHERE user_id = $1 AND timestamp >= NOW() - INTERVAL 'days days'] (the
    session runs in UTC, so a day is 24 hours). *)
Definition of_user (uid : Z) (rows : list usage_row) : list usage_row :=
  List.filter (fun r => user_id r =? uid) rows.

Definition in_window (now days : Z) (rows : list usage_row) : list usage_row :=
  List.filter (fun r => now - days * DAY <=? timestamp r) rows.

Definition sum_tokens (rows : list usage_row) : Z :=
  fold_right (fun r acc => tokens_used r + acc) 0 rows.

(** [GROUP BY]: the distinct keys in order of first appearance, each with
    its rows. *)
Fixpoint add_to_group {K} (eqb : K -> K -> bool) (k : K) (r : usage_row)
    (groups : list (K * list usage_row)) : list (K * list usage_row) :=
  match groups with
  | [] => [(k, [r])]
  | (k', rs) :: rest =>
      if eqb k' k then (k', rs ++ [r]) :: rest
      else (k', rs) :: add_to_group eqb k r rest
  end.

Definition group_by {K} (eqb : K -> K -> bool) (key : usage_row -> K)
    (rows : list usage_row) : list (K * list usage_row) :=
  fold_left (fun groups r => add_to_group eqb (key r) r groups) rows [].

(** [ORDER BY rank DESC]: a stable insertion sort (the order among equal
    ranks is the server's choice). *)
Fixpoint insert_desc {A} (rank : A -> Z) (x : A) (sorted : list A) : list A :=
  match sorted with
  | [] => [x]
  | y :: rest => if rank y <? rank x then x :: y :: rest
                 else y :: insert_desc rank x rest
  end.

Definition order_desc {A} (rank : A -> Z) (l : list A) : list A :=
  fold_right (insert_desc rank) [] l.

Record feature_usage := {
  feature : jsstring;
  request_count : Z;
  total_tokens : Z;
  avg_tokens_per_request : Q
}.

Record daily_usage := {
  date : Z;   (* days since the epoch: DATE(timestamp) *)
  requests : Z;
  tokens : Z
}.

Definition usage_query (now days uid : Z) (rows : list usage_row) : list feature_usage :=
  order_desc request_count
    (map (fun g : jsstring * list usage_row =>
            {| feature := fst g;
               request_count := Z.of_nat (length (snd g));
               total_tokens := sum_tokens (snd g);
               avg_tokens_per_request :=
                 sum_tokens (snd g) # Pos.of_nat (length (snd g)) |})
         (group_by key_eqb feature_type (in_window now days (of_user uid rows)))).

Definition daily_query (now days uid : Z) (rows : list usage_row) : list daily_usage :=
  order_desc date
    (map (fun g : Z * list usage_row =>
            {| date := fst g;
               requests := Z.of_nat (length (snd g));
               tokens := sum_tokens (snd g) |})
         (group_by Z.eqb (fun r => timestamp r / DAY)
                   (in_window now days (of_user uid rows)))).

(** [SELECT COUNT( * ), SUM(tokens_used) FROM ai_usage_logs WHERE user_id =
    $1]: one row always; the sum of no rows is NULL. *)
Definition total_query (uid : Z) (rows : list usage_row) : Z * option Z :=
  let mine := of_user uid rows in
  (Z.of_nat (length mine),
   match mine with [] => None | _ => Some (sum_tokens mine) end).

End Ledger.

(** ** The AI router ([routes/ai.js]) *)

Module Req.
(** [user] is what the authentication middleware left in [req.user]; [body]
    is [req.body] as the handlers see it, that is after the validation chain
    of the route has run and its [trim()] sanitizers have rewritten the
    fields they name. *)
Record t := { user : value; ip : jsstring; url : jsstring; body : value; query : value }.
End Req.

Module Usage.
(** The body of a usage answer; the counts and sums are kept as integers
    (the driver hands them over as decimal strings, which [parseInt] reads
    back). *)
Record t := {
  period : jsstring;
  total_requests : Z;
  total_tokens : Z;
  byFeature : list Ledger.feature_usage;
  dailyUsage : list Ledger.daily_usage;
  timestamp : Z
}.
End Usage.

Module Res.
Inductive body := Json (v : value) | Report (r : Usage.t).
Record t := { status : Z; sent : body }.
End Res.

Module Router.

Definition error_body (code message : value) (statusCode : Z)
    (more : list (jsstring * value)) : Res.body :=
  Res.Json (VObj [(u "error",
                   VObj ([(u "code", code); (u "message", message)] ++ more
                           ++ [(u "statusCode", vint statusCode)]))]).

Definition validation_error (errors : list value) : Res.t :=
  {| Res.status := 400;
     Res.sent := error_body (vstr "VALIDATION_ERROR") (vstr "Validation failed") 400
                            [(u "details", VArr errors)] |}.

Definition failure (status : Z) (code : string) (message : value) : Res.t :=
  {| Res.status := status;
     Res.sent := error_body (vstr code) message status [] |}.

Definition ok (fields : list (jsstring * value)) : Res.t :=
  {| Res.status := 200; Res.sent := Res.Json (VObj fields) |}.

Section Routes.
Context (h : host) (aiService : AIService).

(** Helper function to log AI usage *)
Definition logAIUsage (userId postId : value) (featureType : jsstring)
    (tokensUsed : value) : M unit :=
  try_catch
    (Ledger.insert h userId postId featureType tokensUsed)
    (fun error => logger Error "Failed to log AI usage:" [error]).

(** [const { ... } = req.body]: destructuring [null] or [undefined] throws. *)
Definition destructure (v : value) : completion value :=
  if nullish v then Throw (TypeError "Cannot destructure") else Return v.

Definition generate (req : Req.t) : M Res.t :=
  try_catch
    (match validationResult h (Req.body req) with
     | (_ :: _) as errors => ret (validation_error errors)
     | [] =>
         await body <- lift (destructure (Req.body req)) in
         let prompt := prop body (u "prompt") in
         let options := {| Options.tone := prop body (u "tone");
                           Options.length := prop body (u "length");
                           Options.creativity := prop body (u "creativity") |} in
         await result <- generateContent aiService prompt options in
         (* use req.user.user_id (your middleware maps DB column) *)
         await user_id <- lift (get (Req.user req) "user_id") in
         wait logAIUsage user_id VNull (u "generate")
                         (or (Content.tokensUsed result) (vint 0)) in
         ret (ok [(u "content", Content.content result);
                  (u "tokensUsed", or (Content.tokensUsed result) (vint 0));
                  (u "timestamp", vint (Content.timestamp result))])
     end)
    (fun error =>
       wait logger Error "AI generate error:" [error] in
       let status := or (oprop error "status") (vint 500) in
       if is_int status 429 then
         ret (failure 429 "AI_QUOTA_EXCEEDED"
                      (or (oprop error "message") (vstr "AI quota exceeded")))
       else if is_int status 503 then
         ret (failure 503 "AI_SERVICE_UNAVAILABLE"
                      (or (oprop error "message") (vstr "AI service unavailable")))
       else ret (failure 500 "AI_GENERATE_ERROR" (vstr "Failed to generate content"))).

Definition grammar (req : Req.t) : M Res.t :=
  try_catch
    (match validationResult h (Req.body req) with
     | (_ :: _) as errors => ret (validation_error errors)
     | [] =>
         await text <- lift (get (Req.body req) "text") in
         await result <- correctGrammar aiService text in
         await user_id <- lift (get (Req.user req) "user_id") in
         wait logAIUsage user_id VNull (u "grammar")
                         (or (Grammar.tokensUsed result) (vint 0)) in
         ret (ok [(u "correctedText", Grammar.correctedText result);
                  (u "changes", Grammar.changes result);
                  (u "tokensUsed", or (Grammar.tokensUsed result) (vint 0));
                  (u "timestamp", vint (Grammar.timestamp result))])
     end)
    (fun error =>
       wait logger Error "AI grammar error:" [error] in
       let status := or (oprop error "status") (vint 500) in
       if is_int status 429 then
         ret (failure 429 "AI_QUOTA_EXCEEDED" (oprop error "message"))
       else ret (failure 500 "AI_GRAMMAR_ERROR" (vstr "Failed to correct grammar"))).

Definition enhance (req : Req.t) : M Res.t :=
  try_catch
    (match validationResult h (Req.body req) with
     | (_ :: _) as errors => ret (validation_error errors)
     | [] =>
         await text <- lift (get (Req.body req) "text") in
         let type := prop (Req.body req) (u "type") in
         await result <- enhanceContent aiService text type in
         await user_id <- lift (get (Req.user req) "user_id") in
         wait logAIUsage user_id VNull (u "enhance_" ++ ToString h type)
                         (or (Enhanced.tokensUsed result) (vint 0)) in
         ret (ok [(u "enhancedText", Enhanced.enhancedText result);
                  (u "tokensUsed", or (Enhanced.tokensUsed result) (vint 0));
                  (u "timestamp", vint (Enhanced.timestamp result))])
     end)
    (fun error =>
       wait logger Error "AI enhance error:" [error] in
       let status := or (oprop error "status") (vint 500) in
       if is_int status 429 then
         ret (failure 429 "AI_QUOTA_EXCEEDED" (oprop error "message"))
       else ret (failure 500 "AI_ENHANCE_ERROR" (vstr "Failed to enhance content"))).

Definition titles (req : Req.t) : M Res.t :=
  try_catch
    (match validationResult h (Req.body req) with
     | (_ :: _) as errors => ret (validation_error errors)
     | [] =>
         await body <- lift (destructure (Req.body req)) in
         let content := prop body (u "content") in
         let count := default_to (prop body (u "count")) (vint 5) in
         await result <- generateTitles aiService content count in
         await user_id <- lift (get (Req.user req) "user_id") in
         wait logAIUsage user_id VNull (u "titles")
                         (or (Titles.tokensUsed result) (vint 0)) in
         ret (ok [(u "titles", VArr (map VStr (Titles.titles result)));
                  (u "tokensUsed", or (Titles.tokensUsed result) (vint 0));
                  (u "timestamp", vint (Titles.timestamp result))])
     end)
    (fun error =>
       wait logger Error "AI titles error:" [error] in
       let status := or (oprop error "status") (vint 500) in
       if is_int status 429 then
         ret (failure 429 "AI_QUOTA_EXCEEDED" (oprop error "message"))
       else ret (failure 500 "AI_TITLES_ERROR" (vstr "Failed to generate titles"))).

(** *** Get AI usage analytics *)

(** One [await query(sql, [req.user.user_id])]: the rows the statement
    selects from the table, or the driver's rejection.  A NULL parameter
    compares equal to no [user_id]. *)
Definition query {A} (user_id : value) (select : Z -> list usage_row -> A)
    (none : A) : M A :=
  fun w =>
    match query_fault h (ledger w) with
    | Some err => (Throw err, w)
    | None =>
        match Ledger.sql_integer user_id with
        | Ledger.SqlInt uid => (Return (select uid (ledger w)), w)
        | Ledger.SqlNull => (Return none, w)
        | Ledger.SqlBad => (Throw (Ledger.sql_error "invalid input syntax for type integer"), w)
        end
    end.

Definition invalid_period : Res.t :=
  failure 400 "INVALID_PERIOD" (vstr "Period must be between 1 and 365 days").

Definition usage (req : Req.t) : M Res.t :=
  try_catch
    (await query_string <- lift (destructure (Req.query req)) in
     let period := default_to (prop query_string (u "period")) (vstr "30") in
     match parseInt (ToString h period) (Some 10) with
     | None => ret invalid_period
     | Some days =>
         if (days <? 1) || (365 <? days) then ret invalid_period
         else
           await user_id <- lift (get (Req.user req) "user_id") in
           await t <- clock in
           await usageResult <- query user_id (Ledger.usage_query t days) [] in
           await user_id <- lift (get (Req.user req) "user_id") in
           await dailyResult <- query user_id (Ledger.daily_query t days) [] in
           await user_id <- lift (get (Req.user req) "user_id") in
           await total <- query user_id Ledger.total_query (0, None) in
           await t <- clock in
           ret {| Res.status := 200;
                  Res.sent := Res.Report
                    {| Usage.period := u (pretty days) ++ u " days";
                       Usage.total_requests := fst total;
                       Usage.total_tokens := default 0 (snd total);
                       Usage.byFeature := usageResult;
                       Usage.dailyUsage := dailyResult;
                       Usage.timestamp := t |} |}
     end)
    (fun error =>
       wait logger Error "AI usage error:" [error] in
       ret (failure 500 "AI_USAGE_ERROR" (vstr "Failed to fetch AI usage data"))).

End Routes.
End Router.

(** ** The request governor ([middleware/rateLimiter.js]) *)

Module Limiter.

(** The counter state of one key. *)
Record bucket := { windowStart : Z; count : Z }.

(** The options object handed to [rateLimit]: [handler] is what answers a
    request over the ceiling. *)
Record options := {
  windowMs : Z;
  max : Z;
  keyGenerator : Req.t -> jsstring;
  handler : Req.t -> M Res.t
}.

(** Modelled from the spec: the counting done by the middleware that
    [rateLimit(options)] of the express-rate-limit package returns (the
    package is not among the sources).  The spec's QuotaBucket has a key, a
    window start, the count within the window and a ceiling, and its count
    resets when the window elapses: a hit on a key without a live window
    opens one at the time of the hit. *)
Definition hit (windowMs t : Z) (b : option bucket) : bucket :=
  match b with
  | Some b =>
      if windowStart b + windowMs <=? t then {| windowStart := t; count := 1 |}
      else {| windowStart := windowStart b; count := count b + 1 |}
  | None => {| windowStart := t; count := 1 |}
  end.

(** Modelled from the spec: the middleware of [rateLimit(options)], with its
    store passed in and out.  Every request counts; within the ceiling the
    request goes on ([None], the [next()] of the source), over it the handler
    answers and the route is not run. *)
Definition rateLimit (o : options) (req : Req.t) (store : gmap jsstring bucket)
    (w : world) : completion (option Res.t) * (gmap jsstring bucket * world) :=
  let key := keyGenerator o req in
  let b := hit (windowMs o) (now w) (store !! key) in
  if count b <=? max o then (Return None, (<[key := b]> store, w))
  else
    let '(answer, w') := handler o req w in
    (match answer with
     | Return res => Return (Some res)
     | Throw err => Throw err
     end, (<[key := b]> store, w')).

(** [process.env] as the limiter module reads it. *)
Record env := {
  RATE_LIMIT_WINDOW_MS : option jsstring;
  RATE_LIMIT_MAX_REQUESTS : option jsstring;
  AI_RATE_LIMIT_FREE_TIER : option jsstring;
  AI_RATE_LIMIT_PREMIUM_TIER : option jsstring
}.

(** [parseInt(process.env.X) || fallback] *)
Definition env_int (x : option jsstring) (fallback : Z) : Z :=
  match x with
  | Some s => match parseInt s None with
              | Some 0 | None => fallback
              | Some z => z
              end
  | None => fallback
  end.

Section Governor.
Context (h : host) (e : env).

Definition too_many (code message : string) : Res.t :=
  Router.failure 429 code (vstr message).

(** General API rate limiter *)
Definition generalLimiter : options :=
  {| windowMs := env_int (RATE_LIMIT_WINDOW_MS e) (15 * 60 * 1000);
     max := env_int (RATE_LIMIT_MAX_REQUESTS e) 100;
     keyGenerator := Req.ip;
     handler := fun req =>
       wait logger Warn "Rate limit exceeded" [VStr (Req.ip req); VStr (Req.url req)] in
       ret (too_many "RATE_LIMIT_EXCEEDED"
                     "Too many requests from this IP, please try again later") |}.

(** AI-specific rate limiter *)
Definition createAIRateLimiter (maxRequests : Z) : options :=
  {| windowMs := 24 * 60 * 60 * 1000;
     max := maxRequests;
     keyGenerator := fun req =>
       (* Use user ID if authenticated, otherwise IP *)
       if truthy (Req.user req)
       then u "user:" ++ ToString h (prop (Req.user req) (u "user_id"))
       else u "ip:" ++ Req.ip req;
     handler := fun req =>
       wait logger Warn "AI rate limit exceeded"
                   [oprop (Req.user req) "user_id"; VStr (Req.ip req); VStr (Req.url req)] in
       ret (too_many "AI_RATE_LIMIT_EXCEEDED"
                     "AI request limit exceeded. Upgrade your plan for more requests.") |}.

(** Create rate limiters for different tiers *)
Definition freeTierLimiter : options :=
  createAIRateLimiter (env_int (AI_RATE_LIMIT_FREE_TIER e) 50).
Definition premiumTierLimiter : options :=
  createAIRateLimiter (env_int (AI_RATE_LIMIT_PREMIUM_TIER e) 500).

(** The process: one store per limiter, and the state the routes touch. *)
Record server := {
  generalStore : gmap jsstring bucket;
  freeTierStore : gmap jsstring bucket;
  premiumTierStore : gmap jsstring bucket;
  app : world
}.

(** Dynamic AI rate limiter based on user tier: the answer of the limiter
    that ran ([None] when [next()] was called) and the process after it.  An
    error thrown by the limiter is logged and the request goes on. *)
Definition aiRateLimiter (req : Req.t) (s : server) : option Res.t * server :=
  let '(answer, (general, freeTier, w)) :=
    if negb (truthy (Req.user req)) then
      (* For unauthenticated users, use IP-based limiting *)
      let '(answer, (store, w)) := rateLimit generalLimiter req (generalStore s) (app s) in
      (answer, (store, freeTierStore s, w))
    else
      (* For now, we'll use free tier for all users *)
      let '(answer, (store, w)) := rateLimit freeTierLimiter req (freeTierStore s) (app s) in
      (answer, (generalStore s, store, w)) in
  match answer with
  | Return answer =>
      (answer,
       {| generalStore := general; freeTierStore := freeTier;
          premiumTierStore := premiumTierStore s; app := w |})
  | Throw error =>
      (None,
       {| generalStore := general; freeTierStore := freeTier;
          premiumTierStore := premiumTierStore s;
          app := snd (logger Error "Rate limiter error:" [error] w) |})
  end.

(** Express's answer to an error that no route caught. *)
Definition uncaught (err : value) : Res.t :=
  {| Res.status := 500; Res.sent := Res.Json err |}.

(** [router.use(aiRateLimiter)] followed by a route of the router, for a
    request that arrives at time [t]. *)
Definition serve (route : Req.t -> M Res.t) (t : Z) (req : Req.t) (s : server)
    : Res.t * server :=
  let s := {| generalStore := generalStore s;
              freeTierStore := freeTierStore s;
              premiumTierStore := premiumTierStore s;
              app := set_now t (app s) |} in
  match aiRateLimiter req s with
  | (Some rejection, s') => (rejection, s')
  | (None, s') =>
      let '(answer, w) := route req (app s') in
      (match answer with Return res => res | Throw err => uncaught err end,
       {| generalStore := generalStore s';
          freeTierStore := freeTierStore s';
          premiumTierStore := premiumTierStore s';
          app := w |})
  end.

(** Requests one after the other: when each arrives and which route of the
    router it is for. *)
Record arrival := {
  time : Z;
  route : Req.t -> M Res.t;
  request : Req.t
}.

Fixpoint serve_all (arrivals : list arrival) (s : server) : list Res.t * server :=
  match arrivals with
  | [] => ([], s)
  | a :: rest =>
      let '(res, s') := serve (route a) (time a) (request a) s in
      let '(more, s'') := serve_all rest s' in
      (res :: more, s'')
  end.

End Governor.
End Limiter.

(** ** The authentication middleware ([middleware/auth.js]) *)

Module Auth.

(** What the middleware calls beyond the host: [jwt.verify(token, secret,
    callback)], which hands its callback an error or the decoded payload,
    and the statement [SELECT user_id, username, email, created_at FROM users
    WHERE user_id = $1], which resolves to its rows or rejects. *)
Record keys := {
  jwt_verify : value -> completion value;
  select_user : value -> completion (list value)
}.

(** How a middleware ends: it answers the request itself, or it calls
    [next()] with [req.user] as it left it. *)
Inductive outcome :=
| Answered (res : Res.t)
| Next (user : value).

(** [authHeader && authHeader.split(' ')[1]]: only a string has [split]. *)
Definition token_of (authHeader : value) : completion value :=
  if negb (truthy authHeader) then Return authHeader
  else match authHeader with
       | VStr s =>
           Return (match split 32 s with
                   | _ :: token :: _ => VStr token
                   | _ => VUndefined
                   end)
       | _ => Throw (TypeError "authHeader.split is not a function")
       end.

Definition rejected (status : Z) (code message : string) : outcome :=
  Answered (Router.failure status code (vstr message)).

(** Middleware to verify JWT token; [authorization] is
    [req.headers['authorization']]. *)
Definition authenticateToken (k : keys) (authorization : value) : M outcome :=
  try_catch
    (await token <- lift (token_of authorization) in
     if negb (truthy token) then
       ret (rejected 401 "NO_TOKEN" "Access token is required")
     else
       (* Verify token *)
       match jwt_verify k token with
       | Throw err =>
           if GenAI.is_str (prop err (u "name")) "TokenExpiredError" then
             ret (rejected 401 "TOKEN_EXPIRED" "Token has expired")
           else ret (rejected 403 "INVALID_TOKEN" "Invalid token")
       | Return decoded =>
           (* Get user from database *)
           try_catch
             (await id <- lift (get decoded "id") in
              await rows <- lift (select_user k id) in
              match rows with
              | [] => ret (rejected 404 "USER_NOT_FOUND" "User not found")
              | user :: _ =>
                  (* Map user_id to id for consistency in req.user *)
                  await user_id <- lift (get user "user_id") in
                  await username <- lift (get user "username") in
                  await email <- lift (get user "email") in
                  await created_at <- lift (get user "created_at") in
                  ret (Next (VObj [(u "id", user_id);
                                   (u "username", username);
                                   (u "email", email);
                                   (u "created_at", created_at)]))
              end)
             (fun dbError =>
                wait logger Error "Database error in auth middleware:" [dbError] in
                ret (rejected 500 "DATABASE_ERROR" "Error fetching user"))
       end)
    (fun error =>
       wait logger Error "Auth middleware error:" [error] in
       ret (rejected 500 "AUTH_ERROR" "Authentication failed")).

(** Middleware to check if user is admin; [user] is [req.user]. *)
Definition isAdmin (user : value) : outcome :=
  if truthy user && GenAI.is_str (prop user (u "role")) "admin" then Next user
  else rejected 403 "FORBIDDEN" "Admin access required".

End Auth.

(** ** The router as it is mounted ([routes/ai.js], lines 10 to 13) *)

(** A request as the routes see it once [authenticateToken] has let it
    through with [user]. *)
Definition as_user (user : value) (req : Req.t) : Req.t :=
  {| Req.user := user; Req.ip := Req.ip req; Req.url := Req.url req;
     Req.body := Req.body req; Req.query := Req.query req |}.

Module App.

(** One request on its way in: when it arrives, its [Authorization] header,
    the route it is for and the rest of it. *)
Record arrival := {
  time : Z;
  authorization : value;
  route : Req.t -> M Res.t;
  request : Req.t
}.

Section Mounted.
Context (k : Auth.keys) (h : host) (e : Limiter.env).

Definition after (w : world) (s : Limiter.server) : Limiter.server :=
  {| Limiter.generalStore := Limiter.generalStore s;
     Limiter.freeTierStore := Limiter.freeTierStore s;
     Limiter.premiumTierStore := Limiter.premiumTierStore s;
     Limiter.app := w |}.

(** [router.use(authenticateToken); router.use(aiRateLimiter);] and then the
    route: the answer the caller gets and the process afterwards. *)
Definition handle (a : arrival) (s : Limiter.server) : Res.t * Limiter.server :=
  let '(outcome, w) :=
    Auth.authenticateToken k (authorization a) (set_now (time a) (Limiter.app s)) in
  match outcome with
  | Return (Auth.Answered res) => (res, after w s)
  | Return (Auth.Next user) =>
      Limiter.serve h e (route a) (time a) (as_user user (request a)) (after w s)
  | Throw err => (Limiter.uncaught err, after w s)
  end.

Fixpoint handle_all (arrivals : list arrival) (s : Limiter.server)
    : list Res.t * Limiter.server :=
  match arrivals with
  | [] => ([], s)
  | a :: rest =>
      let '(res, s') := handle a s in
      let '(more, s'') := handle_all rest s' in
      (res :: more, s'')
  end.

End Mounted.
End App.

(** ** The HTTP client of the pages ([frontend/src/services/api.js]) *)

Module Client.

(** What the interceptors touch in the browser: the [token] entry of
    [localStorage] ([getItem] gives a string or [null]) and
    [window.location.href]. *)
Record browser := {
  token : option jsstring;
  href : jsstring
}.

(** Request interceptor to add auth token: what it leaves in
    [config.headers.Authorization], which the server reads back as
    [req.headers['authorization']]; nothing is set for a missing or empty
    token. *)
Definition Authorization (b : browser) : value :=
  match token b with
  | Some (c :: s) => VStr (u "Bearer " ++ c :: s)
  | _ => VUndefined
  end.

(** The rejection axios builds from an answer whose status is outside
    2xx: [error.response] carries the status and the body. *)
Definition http_error (res : Res.t) : value :=
  VObj [(u "response",
         VObj [(u "status", vint (Res.status res));
               (u "data", match Res.sent res with
                          | Res.Json v => v
                          | Res.Report _ => VUndefined
                          end)])].

(** Response interceptor to handle errors: the browser it leaves behind;
    the promise is rejected with the same error in every case. *)
Definition on_rejected (error : value) (b : browser) : completion browser :=
  andThen (get error "response") (fun response =>
  if is_int (oprop response "status") 401 then
    (* Token expired or invalid *)
    Return {| token := None; href := u "/login" |}
  else Return b).

End Client.

(** ** The AI actions of the editor *)

Module Toolbar.

(** [s.startsWith(t)] *)
Definition startsWith (s t : jsstring) : bool := is_prefix t s.

(** [s.replace(pattern, replacement)] for a string pattern and a
    replacement without [$]: the first occurrence only. *)
Fixpoint replace (s pattern replacement : jsstring) : jsstring :=
  if is_prefix pattern s then replacement ++ drop (length pattern) s
  else match s with
       | [] => []
       | c :: rest => c :: replace rest pattern replacement
       end.

(** The ids of the buttons ([components/AIToolbar.jsx]). *)
Definition actions : list jsstring :=
  map u ["grammar"; "enhance_improve"; "enhance_expand"; "enhance_simplify";
         "enhance_summarize"]%string.

(** [handleAction(actionId)]: the arguments it hands to [onAction]. *)
Definition handleAction (actionId : jsstring) : jsstring * value :=
  if startsWith actionId (u "enhance_") then
    let type := replace actionId (u "enhance_") [] in
    (u "enhance", VObj [(u "type", VStr type)])
  else (actionId, VUndefined).

End Toolbar.

Module Editor.

Section Suggestions.
Context (h : host).

(** [titles.map((t, i) => `${i + 1}. ${t}`).join('\n')] *)
Definition numbered (titles : list value) : jsstring :=
  join LF (imap (fun i t => u (pretty (Z.of_nat i + 1)) ++ u ". " ++ ToString h t) titles).

Definition question (titles : list value) : jsstring :=
  u "Choose a title:" ++ [LF; LF] ++ numbered titles ++ [LF; LF]
    ++ u "Enter 1-" ++ u (pretty (Z.of_nat (length titles))).

(** [showTitleSuggestions(titles)] of the editor page: [prompt] is
    [window.prompt], which gives the line typed or [null]; the result is the
    title the post gets, if it gets one. *)
Definition showTitleSuggestions (prompt : jsstring -> value) (titles : list value)
    : option value :=
  let pick := prompt (question titles) in
  if truthy pick then
    match parseInt (ToString h pick) None with
    | Some n =>
        let i := n - 1 in
        if (0 <=? i) && (i <? Z.of_nat (length titles))
        then titles !! Z.to_nat i else None
    | None => None
    end
  else None.

End Suggestions.
End Editor.

(** * Vocabulary of the statements *)

(** ** Calls and what they leave behind *)

(** Whatever the provider answers, a [_callModel] is entered once, and
    reaches the SDK once when a client exists. *)
Definition sent (this : GenAI.service) (c : call) (w : world) : world :=
  let entered := set_model_calls (model_calls w ++ [c]) w in
  if GenAI.client this then set_client_calls (client_calls w ++ [c]) entered
  else entered.

(** The call [_callModel] makes of its arguments, parameter defaults applied. *)
Definition the_call (model : jsstring) (contents temperature maxOutputTokens : value) : call :=
  Call model contents (default_to temperature (VNum (Fin (7 # 10))))
       (default_to maxOutputTokens (vint 600)).

(** How [_callModel] ends for a call, from a given world. *)
Definition attempt h this (c : call) (w : world) : completion GenAI.Response.t :=
  fst (GenAI._callModel h this (model c) (contents c) (temperature c)
                        (maxOutputTokens c) w).

(** A response came out of some [_callModel]. *)
Definition attempt_source h this (resp : GenAI.Response.t) : Prop :=
  exists c w, attempt h this c w = Return resp.

(** [res] is an answer the provider gave to some call. *)
Definition answered (h : host) (res : value) : Prop :=
  exists history c, upstream h history c = Return res.

(** The same call against the fallback model. *)
Definition on_fallback (this : GenAI.service) (c : call) : call :=
  Call (GenAI.fallbackModel this) (contents c) (temperature c) (maxOutputTokens c).

(** The first call each operation makes. *)
Definition generateContent_call h (this : GenAI.service) (prompt : value)
    (options : Options.t) : call :=
  Call (GenAI.defaultModel this)
       (VStr (GenAI.finalPrompt h prompt options))
       (default_to (Options.creativity options) (VNum (Fin (7 # 10))))
       (GenAI.getMaxTokens h (default_to (Options.length options) (vstr "medium"))).

Definition enhanceContent_call h (this : GenAI.service) (text type : value) : call :=
  Call (GenAI.defaultModel this) (GenAI.enhancePrompt h text type)
       (VNum (Fin (6 # 10))) (vint 900).

Definition correctGrammar_call (this : GenAI.service) (text : jsstring) : call :=
  Call (GenAI.defaultModel this) (VStr (GenAI.grammarPrompt text))
       (vint 0) (vint (GenAI.grammarMaxTokens text)).

Definition generateTitles_call h (this : GenAI.service) (content count : value) : call :=
  Call (GenAI.defaultModel this) (VStr (GenAI.titlesPrompt h content count))
       (VNum (Fin (8 # 10))) (vint 300).

Definition OpenAI_generateContent_call h (prompt : value) (options : Options.t)
    : chat_call :=
  let length := default_to (Options.length options) (vstr "medium") in
  Chat (u "gpt-4")
       (VStr (OpenAI.getSystemPrompt h
                (default_to (Options.tone options) (vstr "professional")) length))
       prompt
       (default_to (Options.creativity options) (VNum (Fin (7 # 10))))
       (OpenAI.getMaxTokens h length).

(** ** Results of the operations, from the response of a model *)

(** The objects the operations build from the response of a model. *)
Definition content_of (model : jsstring) (resp : GenAI.Response.t) (t : Z) : Content.t :=
  {| Content.content := VStr (GenAI.Response.text resp);
     Content.tokensUsed := GenAI.Response.tokensUsed resp;
     Content.model := VStr model;
     Content.timestamp := t |}.

Definition enhanced_of (resp : GenAI.Response.t) (t : Z) : Enhanced.t :=
  {| Enhanced.enhancedText := VStr (GenAI.Response.text resp);
     Enhanced.tokensUsed := GenAI.Response.tokensUsed resp;
     Enhanced.timestamp := t |}.

Definition titles_of h (resp : GenAI.Response.t) (count : value) (t : Z) : Titles.t :=
  {| Titles.titles := GenAI.title_lines h (GenAI.Response.text resp) count;
     Titles.tokensUsed := GenAI.Response.tokensUsed resp;
     Titles.timestamp := t |}.

(** The error of [generateContent] once the fallback has failed with [err2]. *)
Definition generation_failed h (err2 : value) : value :=
  new_Error h (vstr "Failed to generate content (Gemini/GenAI)")
    [(u "status", or (prop err2 (u "status")) (vint 500))].

(** The answer of [correctGrammar] to a blank text. *)
Definition empty_correction (t : Z) : Grammar.t :=
  {| Grammar.correctedText := VStr [];
     Grammar.changes := VArr [];
     Grammar.tokensUsed := vint 0;
     Grammar.timestamp := t |}.

(** The world in which the fallback of [generateContent] starts: the primary
    call was sent and its failure logged. *)
Definition after_primary h this prompt options (err : value) (w : world) : world :=
  let w1 := sent this (generateContent_call h this prompt options) w in
  set_logs (logs w1 ++ [Log Warn (u "Primary model failed")
                            [VStr (GenAI.defaultModel this); prop err (u "message")]]) w1.

(** What C3 says of one operation: [primary] is its first call, [run] the
    whole operation from world [w], [next] the world in which the fallback
    starts, and [finish] what the operation makes of the fallback's outcome. *)
Definition falls_back_once {A} h this (w : world) (primary : call)
    (run : completion A * world) (next : world)
    (finish : completion GenAI.Response.t -> completion A) : Prop :=
  exists fallback,
    model fallback = GenAI.fallbackModel this
    /\ contents fallback = contents primary
    /\ temperature fallback = temperature primary
    /\ maxOutputTokens fallback = maxOutputTokens primary
    /\ model_calls (snd run) = model_calls w ++ [primary; fallback]
    /\ (GenAI.client this = true ->
        client_calls (snd run) = client_calls w ++ [primary; fallback])
    /\ fst run = finish (attempt h this fallback next).

(** ** Lengths and ceilings *)

(** The three lengths the route validator lets through. *)
Inductive supported_length := Short | Medium | Long.

(** Their names in a request, and the ceilings the spec gives them. *)
Definition length_name (l : supported_length) : value :=
  match l with
  | Short => vstr "short"
  | Medium => vstr "medium"
  | Long => vstr "long"
  end.

Definition ceiling (l : supported_length) : Z :=
  match l with
  | Short => 300
  | Medium => 600
  | Long => 1200
  end.

(** The property key of a length is one of the three names, or one of the
    names every object literal inherits. *)
Definition recognised (key : jsstring) : bool :=
  existsb (key_eqb key) (map u ["short"; "medium"; "long"]%string).

Definition on_prototype (key : jsstring) : bool :=
  existsb (key_eqb key) object_prototype_keys.

(** ** Texts and token counts *)

Definition whitespace_only (s : jsstring) : bool := forallb is_space s.

(** The three places [_callModel] looks for a count. *)
Definition usage_fields (res : value) : list value :=
  [oprop (oprop res "metadata") "tokenCount";
   oprop (oprop res "usage") "totalTokens";
   oprop (oprop res "usage") "total_tokens"].

Definition unreported (res : value) : bool := forallb nullish (usage_fields res).

(** What the amended C7 says of a token cost computed from the answer [res]
    of the provider. *)
Definition is_token_cost h (res cost : value) : Prop :=
  cost = GenAI.response_tokens h res
  /\ (exists n, cost = VNum n /\ n <> NaN)
  /\ nullish cost = false
  /\ (unreported res = true -> cost = vint 0)
  /\ (forall n, GenAI.reported_tokens res = VNum n ->
                is_nonneg_integer (VNum n) = true ->
                is_nonneg_integer cost = true).

(** ** Answers of the routes *)

Definition generate_options (body : value) : Options.t :=
  {| Options.tone := prop body (u "tone");
     Options.length := prop body (u "length");
     Options.creativity := prop body (u "creativity") |}.

Definition generated (r : Content.t) : Res.t :=
  Router.ok [(u "content", Content.content r);
             (u "tokensUsed", or (Content.tokensUsed r) (vint 0));
             (u "timestamp", vint (Content.timestamp r))].

Definition corrected (r : Grammar.t) : Res.t :=
  Router.ok [(u "correctedText", Grammar.correctedText r);
             (u "changes", Grammar.changes r);
             (u "tokensUsed", or (Grammar.tokensUsed r) (vint 0));
             (u "timestamp", vint (Grammar.timestamp r))].

Definition enhanced (r : Enhanced.t) : Res.t :=
  Router.ok [(u "enhancedText", Enhanced.enhancedText r);
             (u "tokensUsed", or (Enhanced.tokensUsed r) (vint 0));
             (u "timestamp", vint (Enhanced.timestamp r))].

Definition titled (r : Titles.t) : Res.t :=
  Router.ok [(u "titles", VArr (map VStr (Titles.titles r)));
             (u "tokensUsed", or (Titles.tokensUsed r) (vint 0));
             (u "timestamp", vint (Titles.timestamp r))].

Definition logged_failure (err : value) (w : world) : world :=
  set_logs (logs w ++ [Log Error (u "Failed to log AI usage:") [err]]) w.

(** What C8 says of one route: [run] is the route, [w1] the world the
    generation left behind, [insert] the insert of the usage row from [w1]
    and [answer] the 200 answer built from the generation's result. *)
Definition swallows (run : completion Res.t * world) (answer : Res.t)
    (insert : completion unit * world) (w1 : world) : Prop :=
  fst run = Return answer
  /\ match fst insert with
     | Return _ => snd run = snd insert
     | Throw err =>
         snd run = logged_failure err w1
         /\ ledger (snd run) = ledger w1
         /\ client_calls (snd run) = client_calls w1
         /\ model_calls (snd run) = model_calls w1
     end.

(** ** Sums over the usage series *)

Fixpoint sumZ (l : list Z) : Z :=
  match l with [] => 0 | x :: rest => x + sumZ rest end.

Definition group_sizes {K} (groups : list (K * list usage_row)) : Z :=
  sumZ (map (fun g => Z.of_nat (length (snd g))) groups).

(** ** The routes behind the limiter *)

Definition answer_of (a : completion Res.t) : Res.t :=
  match a with Return res => res | Throw err => Limiter.uncaught err end.

(** The routes alone, as if no limiter stood before them. *)
Fixpoint run_all (arrivals : list Limiter.arrival) (w : world) : list Res.t * world :=
  match arrivals with
  | [] => ([], w)
  | a :: rest =>
      let '(answer, w') := Limiter.route a (Limiter.request a) (set_now (Limiter.time a) w) in
      let '(more, w'') := run_all rest w' in
      (answer_of answer :: more, w'')
  end.

Definition user_key h (user : value) : jsstring :=
  u "user:" ++ ToString h (prop user (u "user_id")).

Definition ai_limit_exceeded : Res.t :=
  Limiter.too_many "AI_RATE_LIMIT_EXCEEDED"
           "AI request limit exceeded. Upgrade your plan for more requests.".

Definition warned (req : Req.t) (w : world) : world :=
  set_logs (logs w ++ [Log Warn (u "AI rate limit exceeded")
                          [oprop (Req.user req) "user_id"; VStr (Req.ip req);
                           VStr (Req.url req)]]) w.

(** ** Hosts, requests and rows of the closed examples *)

(** A host that answers nothing useful, for closed examples; its [users]
    table holds the ids 7 and 8. *)
Definition quiet : host :=
  {| StringToNumber := fun _ => NaN;
     ObjectToNumber := fun _ => NaN;
     NumberToString := fun _ => [];
     ObjectToString := fun _ => [];
     JSON_parse := fun _ => Return VUndefined;
     upstream := fun _ _ => Return VUndefined;
     chat_upstream := fun _ _ => Return VUndefined;
     query_fault := fun _ => None;
     user_exists := fun id => (id =? 7) || (id =? 8);
     post_exists := fun _ => false;
     validationResult := fun _ => [] |}.

Definition blank : world := World 0 [] [] [] [] [].

Definition gemini : GenAI.service :=
  GenAI.constructor true None None None None.

Definition with_upstream (answer : list call -> call -> completion value) : host :=
  {| StringToNumber := StringToNumber quiet;
     ObjectToNumber := ObjectToNumber quiet;
     NumberToString := NumberToString quiet;
     ObjectToString := ObjectToString quiet;
     JSON_parse := JSON_parse quiet;
     upstream := answer;
     chat_upstream := chat_upstream quiet;
     query_fault := query_fault quiet;
     user_exists := user_exists quiet;
     post_exists := post_exists quiet;
     validationResult := validationResult quiet |}.

Definition overloaded : value :=
  VObj [(u "message", vstr "model overloaded"); (u "status", vint 503)].

(** The primary model is down, the fallback model answers. *)
Definition primary_down : host :=
  with_upstream (fun _ c =>
    if key_eqb (model c) (u "gemini-flash-latest") then Throw overloaded
    else Return (VObj [(u "text", vstr "Hello, world.")])).

(** Both models are down. *)
Definition all_down : host := with_upstream (fun _ _ => Throw overloaded).

(** The provider reports a negative count. *)
Definition negative_count : host :=
  with_upstream (fun _ _ =>
    Return (VObj [(u "text", vstr "Cats sleep a lot.");
                  (u "usage", VObj [(u "total_tokens", vint (-4))])])).



(** The provider answers, the database refuses every statement. *)
Definition connection_lost : value :=
  VObj [(u "message", vstr "Connection terminated unexpectedly")].

Definition db_down : host :=
  {| StringToNumber := StringToNumber quiet;
     ObjectToNumber := ObjectToNumber quiet;
     NumberToString := NumberToString quiet;
     ObjectToString := ObjectToString quiet;
     JSON_parse := JSON_parse quiet;
     upstream := fun _ _ =>
       Return (VObj [(u "text", vstr "Cats sleep a lot.");
                     (u "usage", VObj [(u "total_tokens", vint 42)])]);
     chat_upstream := chat_upstream quiet;
     query_fault := fun _ => Some connection_lost;
     user_exists := user_exists quiet;
     post_exists := post_exists quiet;
     validationResult := validationResult quiet |}.

Definition about_cats : value := vstr "write about cats".

Definition no_options : Options.t :=
  {| Options.tone := VUndefined; Options.length := VUndefined;
     Options.creativity := VUndefined |}.

Definition cat_request : Req.t :=
  {| Req.user := VObj [(u "user_id", vint 7)];
     Req.ip := u "203.0.113.9";
     Req.url := u "/generate";
     Req.body := VObj [(u "prompt", about_cats)];
     Req.query := VObj [] |}.

Definition today : Z := 1700000000000.

(** Three calls of user 7: today, ten days ago and forty days ago. *)
Definition three_rows : list usage_row :=
  [Row 7 None (u "generate") 100 today;
   Row 7 None (u "grammar") 200 (today - 10 * Ledger.DAY);
   Row 7 None (u "generate") 400 (today - 40 * Ledger.DAY)].

Definition usage_request : Req.t :=
  {| Req.user := VObj [(u "user_id", vint 7)];
     Req.ip := u "203.0.113.9";
     Req.url := u "/usage";
     Req.body := VUndefined;
     Req.query := VObj [(u "period", vstr "30")] |}.

(** A free tier of two requests a day, an idle process, and one caller. *)
Definition two_a_day : Limiter.env :=
  {| Limiter.RATE_LIMIT_WINDOW_MS := None;
     Limiter.RATE_LIMIT_MAX_REQUESTS := None;
     Limiter.AI_RATE_LIMIT_FREE_TIER := Some (u "2");
     Limiter.AI_RATE_LIMIT_PREMIUM_TIER := None |}.

Definition idle : Limiter.server :=
  {| Limiter.generalStore := ∅; Limiter.freeTierStore := ∅;
     Limiter.premiumTierStore := ∅; Limiter.app := blank |}.

Definition asks_at (t : Z) : Limiter.arrival :=
  {| Limiter.time := t;
     Limiter.route := Router.generate db_down (GenAI.exports db_down gemini);
     Limiter.request := cat_request |}.

(** ** Answers of a route, whatever the service does *)

(** The route ends with an answer whose status is among [statuses]. *)
Definition answers (run : completion Res.t * world) (statuses : list Z) : Prop :=
  exists res, fst run = Return res /\ In (Res.status res) statuses.

Definition usage_error_logged (err : value) (w : world) : world :=
  set_logs (logs w ++ [Log Error (u "AI usage error:") [err]]) w.

(** ** Printed numbers *)

(** A decimal digit, as a code unit. *)
Definition is_digit (c : jschar) : Prop := (48 <= c <= 57)%N.

(** ** The period of a usage request *)

(** [parseInt(period, 10)] for [const { period = '30' } = req.query]. *)
Definition period_of h (req : Req.t) : option Z :=
  parseInt (ToString h (default_to (prop (Req.query req) (u "period")) (vstr "30")))
           (Some 10).

Definition in_range (days : option Z) : bool :=
  match days with
  | Some d => (1 <=? d) && (d <=? 365)
  | None => false
  end.


Definition asks_usage (period : value) : Req.t :=
  {| Req.user := VObj [(u "user_id", vint 7)];
     Req.ip := u "203.0.113.9";
     Req.url := u "/usage";
     Req.body := VUndefined;
     Req.query := VObj [(u "period", period)] |}.

(** ** Order of the usage series *)

(** Every element is strictly below the ones before it. *)
Fixpoint descending (l : list Z) : Prop :=
  match l with
  | [] => True
  | x :: rest => Forall (fun y => y < x) rest /\ descending rest
  end.

(** No element is above one before it. *)
Fixpoint non_increasing (l : list Z) : Prop :=
  match l with
  | [] => True
  | x :: rest => Forall (fun y => y <= x) rest /\ non_increasing rest
  end.

(** ** The environment of the governor *)

Definition with_premium_tier (e : Limiter.env) (premium : option jsstring) : Limiter.env :=
  {| Limiter.RATE_LIMIT_WINDOW_MS := Limiter.RATE_LIMIT_WINDOW_MS e;
     Limiter.RATE_LIMIT_MAX_REQUESTS := Limiter.RATE_LIMIT_MAX_REQUESTS e;
     Limiter.AI_RATE_LIMIT_FREE_TIER := Limiter.AI_RATE_LIMIT_FREE_TIER e;
     Limiter.AI_RATE_LIMIT_PREMIUM_TIER := premium |}.

Definition with_free_tier (free : option jsstring) : Limiter.env :=
  {| Limiter.RATE_LIMIT_WINDOW_MS := None;
     Limiter.RATE_LIMIT_MAX_REQUESTS := None;
     Limiter.AI_RATE_LIMIT_FREE_TIER := free;
     Limiter.AI_RATE_LIMIT_PREMIUM_TIER := None |}.

(** ** Identities *)

(** What [authenticateToken] leaves in [req.user]. *)
Definition identity (id username email created_at : value) : value :=
  VObj [(u "id", id); (u "username", username); (u "email", email);
        (u "created_at", created_at)].

(** [user] is an identity that some run of [authenticateToken] let through. *)
Definition authenticated (k : Auth.keys) (user : value) : Prop :=
  exists authorization w, fst (Auth.authenticateToken k authorization w) = Return (Auth.Next user).

(** The word after the first space of a header, if there is one. *)
Definition second_word (s : jsstring) : jsstring :=
  match split 32 s with
  | _ :: word :: _ => word
  | _ => []
  end.

(** Closed examples: a verifier that knows one token, and a table with one
    user. *)
Definition alice_row : value :=
  VObj [(u "user_id", vint 7); (u "username", vstr "alice");
        (u "email", vstr "alice@example.org"); (u "created_at", vstr "2024-01-01")].

Definition one_user : Auth.keys :=
  {| Auth.jwt_verify := fun token =>
       if GenAI.is_str token "good" then Return (VObj [(u "id", vint 7)])
       else if GenAI.is_str token "old" then
         Throw (VObj [(u "name", vstr "TokenExpiredError")])
       else Throw (VObj [(u "name", vstr "JsonWebTokenError")]);
     Auth.select_user := fun id => if is_int id 7 then Return [alice_row] else Return [] |}.

Definition alice : value :=
  identity (vint 7) (vstr "alice") (vstr "alice@example.org") (vstr "2024-01-01").

Definition signed_in (token : string) : Client.browser :=
  {| Client.token := Some (u token); Client.href := u "/editor" |}.

(** The usage answer without a single row. *)
Definition empty_report (days : Z) (t : Z) : Res.t :=
  {| Res.status := 200;
     Res.sent := Res.Report
       {| Usage.period := u (pretty days) ++ u " days";
          Usage.total_requests := 0;
          Usage.total_tokens := 0;
          Usage.byFeature := [];
          Usage.dailyUsage := [];
          Usage.timestamp := t |} |}.

(** ** More closed examples *)

(** The provider answers and reports 42 tokens; the database is up. *)
Definition metered : host :=
  with_upstream (fun _ _ =>
    Return (VObj [(u "text", vstr "Cats sleep a lot.");
                  (u "usage", VObj [(u "total_tokens", vint 42)])])).

Definition improve_request : Req.t :=
  {| Req.user := VObj [(u "user_id", vint 7)];
     Req.ip := u "203.0.113.9";
     Req.url := u "/enhance";
     Req.body := VObj [(u "text", vstr "cats sleeps alot"); (u "type", vstr "improve")];
     Req.query := VObj [] |}.

Definition three_titles : list value :=
  [vstr "Cats at Home"; vstr "Why Cats Purr"; vstr "Cat Naps"].

(** ** Requests on their way through the mounted router *)

(** A verifier that knows the tokens of two users, and the table with both. *)
Definition bob_row : value :=
  VObj [(u "user_id", vint 8); (u "username", vstr "bob");
        (u "email", vstr "bob@example.org"); (u "created_at", vstr "2024-02-02")].

Definition two_users : Auth.keys :=
  {| Auth.jwt_verify := fun token =>
       if GenAI.is_str token "good" then Return (VObj [(u "id", vint 7)])
       else if GenAI.is_str token "bobs" then Return (VObj [(u "id", vint 8)])
       else Throw (VObj [(u "name", vstr "JsonWebTokenError")]);
     Auth.select_user := fun id =>
       if is_int id 7 then Return [alice_row]
       else if is_int id 8 then Return [bob_row] else Return [] |}.

Definition bob : value :=
  identity (vint 8) (vstr "bob") (vstr "bob@example.org") (vstr "2024-02-02").

(** The request of a page for the usage of the last [period] days. *)
Definition usage_of (token period : string) (t : Z) : App.arrival :=
  {| App.time := t;
     App.authorization := VStr (u "Bearer " ++ u token);
     App.route := Router.usage quiet;
     App.request := {| Req.user := VUndefined;
                       Req.ip := u "203.0.113.9";
                       Req.url := u "/usage";
                       Req.body := VUndefined;
                       Req.query := VObj [(u "period", vstr period)] |} |}.

(** The request of a page for a generation, against a provider that
    answers. *)
Definition generation_of (token : string) (t : Z) : App.arrival :=
  {| App.time := t;
     App.authorization := VStr (u "Bearer " ++ u token);
     App.route := Router.generate metered (GenAI.exports metered gemini);
     App.request := {| Req.user := VUndefined;
                       Req.ip := u "203.0.113.9";
                       Req.url := u "/generate";
                       Req.body := VObj [(u "prompt", about_cats)];
                       Req.query := VObj [] |} |}.

(** A process that has served nothing yet, with a usage table. *)
Definition idle_with (t : Z) (rows : list usage_row) : Limiter.server :=
  {| Limiter.generalStore := ∅; Limiter.freeTierStore := ∅;
     Limiter.premiumTierStore := ∅; Limiter.app := World t [] [] [] [] rows |}.

(** The window of the AI limiter: 24 hours. *)
Definition AI_WINDOW : Z := 24 * 60 * 60 * 1000.

(** An OpenAI provider that answers with a correction in JSON and reports
    12 tokens; the JSON it sends parses to an object without changes. *)
Definition proofreader : host :=
  {| StringToNumber := StringToNumber quiet;
     ObjectToNumber := ObjectToNumber quiet;
     NumberToString := NumberToString quiet;
     ObjectToString := ObjectToString quiet;
     JSON_parse := fun _ =>
       Return (VObj [(u "correctedText", VStr []); (u "changes", VArr [])]);
     upstream := upstream quiet;
     chat_upstream := fun _ _ =>
       Return (VObj [(u "choices",
                      VArr [VObj [(u "message",
                                   VObj [(u "content", vstr "{...}")])]]);
                     (u "usage", VObj [(u "total_tokens", vint 12)])]);
     query_fault := query_fault quiet;
     user_exists := user_exists quiet;
     post_exists := post_exists quiet;
     validationResult := validationResult quiet |}.

(** An OpenAI provider whose answer has a [usage] object without
    [total_tokens]. *)
Definition uncounted : host :=
  {| StringToNumber := StringToNumber quiet;
     ObjectToNumber := ObjectToNumber quiet;
     NumberToString := NumberToString quiet;
     ObjectToString := ObjectToString quiet;
     JSON_parse := JSON_parse quiet;
     upstream := upstream quiet;
     chat_upstream := fun _ _ =>
       Return (VObj [(u "choices",
                      VArr [VObj [(u "message",
                                   VObj [(u "content", vstr "Cats sleep a lot.")])]]);
                     (u "usage", VObj [(u "prompt_tokens", vint 9)])]);
     query_fault := query_fault quiet;
     user_exists := user_exists quiet;
     post_exists := post_exists quiet;
     validationResult := validationResult quiet |}.

(** [response] is an answer the OpenAI provider gave to some call. *)
Definition chat_answered (h : host) (response : value) : Prop :=
  exists history c, chat_upstream h history c = Return response.

(** * Properties *)

(** ** One call of the model *)

Lemma callModel_world h this model contents t m w :
  snd (GenAI._callModel h this model contents t m w)
  = sent this (the_call model contents t m) w.
Proof.
  unfold GenAI._callModel, sent, the_call.
  destruct (GenAI.client this); simpl; [|reflexivity].
  destruct (upstream _ _ _); reflexivity.
Qed.

Lemma callModel_eq h this model contents t m w :
  GenAI._callModel h this model contents t m w
  = (fst (GenAI._callModel h this model contents t m w),
     sent this (the_call model contents t m) w).
Proof. rewrite <- (callModel_world h). apply surjective_pairing. Qed.

Lemma sent_model_calls this c w :
  model_calls (sent this c w) = model_calls w ++ [c].
Proof. unfold sent. destruct (GenAI.client this); reflexivity. Qed.

Lemma sent_client_calls this c w :
  client_calls (sent this c w)
  = if GenAI.client this then client_calls w ++ [c] else client_calls w.
Proof. unfold sent. destruct (GenAI.client this); reflexivity. Qed.

Lemma sent_rest this c w :
  now (sent this c w) = now w /\ logs (sent this c w) = logs w
  /\ ledger (sent this c w) = ledger w /\ chat_calls (sent this c w) = chat_calls w.
Proof. unfold sent. destruct (GenAI.client this); repeat split. Qed.

(** Names one [_callModel] of the goal, and replaces the world it leaves by
    [sent]. *)
Ltac run_call r E :=
  match goal with
  | |- context [GenAI._callModel ?h ?this ?m ?c ?t ?k ?w] =>
      let w1 := fresh "w" in
      let H := fresh "H" in
      pose proof (callModel_world h this m c t k w) as H;
      destruct (GenAI._callModel h this m c t k w) as [r w1] eqn:E;
      simpl in H; subst w1
  end.

Lemma attempt_returns h this c w resp :
  attempt h this c w = Return resp ->
  answered h (GenAI.Response.raw resp)
  /\ GenAI.Response.tokensUsed resp = GenAI.response_tokens h (GenAI.Response.raw resp)
  /\ GenAI.Response.text resp
     = ToString h (GenAI.response_text (GenAI.Response.raw resp)).
Proof.
  unfold attempt, GenAI._callModel.
  destruct (GenAI.client this); simpl; [|discriminate].
  destruct (upstream h _ _) as [res|err] eqn:E; simpl; [|discriminate].
  intros [= <-]. simpl. split; [|done]. by eexists _, _.
Qed.

(** ** Primary and fallback *)

Lemma getMaxTokens_defined h length :
  default_to (GenAI.getMaxTokens h length) (vint 600) = GenAI.getMaxTokens h length.
Proof.
  unfold GenAI.getMaxTokens, or.
  destruct (truthy _) eqn:E; [|reflexivity].
  destruct (prop _ _); try reflexivity. discriminate.
Qed.

Lemma creativity_defined v d : d <> VUndefined ->
  default_to (default_to v d) (VNum (Fin (7 # 10))) = default_to v d.
Proof. intros. destruct v; try reflexivity. destruct d; simpl; congruence. Qed.

Lemma generateContent_calls h this prompt options :
  the_call (GenAI.defaultModel this)
    (VStr (GenAI.finalPrompt h prompt options))
    (default_to (Options.creativity options) (VNum (Fin (7 # 10))))
    (GenAI.getMaxTokens h (default_to (Options.length options) (vstr "medium")))
  = generateContent_call h this prompt options
  /\ the_call (GenAI.fallbackModel this)
       (VStr (GenAI.finalPrompt h prompt options))
       (default_to (Options.creativity options) (VNum (Fin (7 # 10))))
       (GenAI.getMaxTokens h (default_to (Options.length options) (vstr "medium")))
     = on_fallback this (generateContent_call h this prompt options).
Proof.
  unfold the_call, on_fallback, generateContent_call. simpl.
  rewrite getMaxTokens_defined, creativity_defined by discriminate. done.
Qed.

Lemma generateContent_primary h this prompt options w resp :
  attempt h this (generateContent_call h this prompt options) w = Return resp ->
  let run := GenAI.generateContent h this prompt options w in
  fst run = Return (content_of (GenAI.defaultModel this) resp (now w))
  /\ model_calls (snd run)
     = model_calls w ++ [generateContent_call h this prompt options].
Proof.
  intros Hok run. subst run.
  unfold attempt, generateContent_call in Hok. simpl in Hok.
  unfold GenAI.generateContent, try_catch, bind.
  run_call r E. simpl in Hok. subst r. simpl.
  destruct (generateContent_calls h this prompt options) as [-> _].
  rewrite sent_model_calls.
  by destruct (sent_rest this (generateContent_call h this prompt options) w) as [-> _].
Qed.

Lemma generateContent_primary_clients h this prompt options w resp :
  attempt h this (generateContent_call h this prompt options) w = Return resp ->
  client_calls (snd (GenAI.generateContent h this prompt options w))
  = client_calls w
      ++ (if GenAI.client this then [generateContent_call h this prompt options] else []).
Proof.
  intros Hok.
  unfold attempt, generateContent_call in Hok. simpl in Hok.
  unfold GenAI.generateContent, try_catch, bind.
  run_call r E. simpl in Hok. subst r. simpl.
  destruct (generateContent_calls h this prompt options) as [-> _].
  rewrite sent_client_calls. destruct (GenAI.client this); [done|by rewrite app_nil_r].
Qed.

Lemma generateContent_fallback h this prompt options w err :
  attempt h this (generateContent_call h this prompt options) w = Throw err ->
  let primary := generateContent_call h this prompt options in
  let fallback := on_fallback this primary in
  let run := GenAI.generateContent h this prompt options w in
  model_calls (snd run) = model_calls w ++ [primary; fallback]
  /\ client_calls (snd run)
     = (if GenAI.client this then client_calls w ++ [primary; fallback]
        else client_calls w)
  /\ fst run
     = match attempt h this fallback (after_primary h this prompt options err w) with
       | Return resp2 => Return (content_of (GenAI.fallbackModel this) resp2 (now w))
       | Throw err2 => Throw (generation_failed h err2)
       end.
Proof.
  intros Hfail primary fallback run. subst run.
  unfold attempt at 1, generateContent_call in Hfail. simpl in Hfail.
  unfold GenAI.generateContent, try_catch, bind.
  run_call r E. simpl in Hfail. subst r. simpl.
  destruct (generateContent_calls h this prompt options) as [Hc Hc2].
  fold primary in Hc, Hc2. fold fallback in Hc2.
  unfold attempt, after_primary. fold primary. rewrite Hc. simpl.
  run_call r2 E2. rewrite Hc2.
  destruct (sent_rest this primary w) as (Hnow & _).
  destruct r2 as [resp2|err2]; simpl;
    rewrite ?sent_model_calls, ?sent_client_calls; simpl;
    rewrite ?sent_model_calls, ?sent_client_calls;
    (split; [by rewrite <- app_assoc|]);
    (split; [destruct (GenAI.client this); [by rewrite <- app_assoc | reflexivity]|]).
  - destruct (sent_rest this fallback
               (set_logs (logs (sent this primary w) ++
                  [Log Warn (u "Primary model failed")
                     [VStr (GenAI.defaultModel this); prop err (u "message")]])
                  (sent this primary w))) as (-> & _).
    simpl. by rewrite Hnow.
  - reflexivity.
Qed.

(** Every run of [generateContent] sends the primary call, and after it at
    most the same call on the fallback model. *)
Lemma generateContent_trace h this prompt options w :
  let primary := generateContent_call h this prompt options in
  let run := GenAI.generateContent h this prompt options w in
  exists new,
    (new = [primary] \/ new = [primary; on_fallback this primary])
    /\ model_calls (snd run) = model_calls w ++ new
    /\ client_calls (snd run)
       = client_calls w ++ (if GenAI.client this then new else []).
Proof.
  intros primary run.
  destruct (attempt h this primary w) as [resp|err] eqn:E.
  - exists [primary]. split; [by left|]. split.
    + by destruct (generateContent_primary h this prompt options w resp E).
    + by apply generateContent_primary_clients with resp.
  - exists [primary; on_fallback this primary]. split; [by right|].
    destruct (generateContent_fallback h this prompt options w err E) as (H1 & H2 & _).
    split; [exact H1|]. subst run. rewrite H2.
    destruct (GenAI.client this); [done|by rewrite app_nil_r].
Qed.

Lemma enhanceContent_fallback h this text type w err :
  attempt h this (enhanceContent_call h this text type) w = Throw err ->
  let primary := enhanceContent_call h this text type in
  let fallback := on_fallback this primary in
  let run := GenAI.enhanceContent h this text type w in
  model_calls (snd run) = model_calls w ++ [primary; fallback]
  /\ client_calls (snd run)
     = (if GenAI.client this then client_calls w ++ [primary; fallback]
        else client_calls w)
  /\ fst run
     = match attempt h this fallback (sent this primary w) with
       | Return resp2 => Return (enhanced_of resp2 (now w))
       | Throw err2 => Throw err2
       end.
Proof.
  intros Hfail primary fallback run. subst run.
  unfold attempt at 1, enhanceContent_call in Hfail. simpl in Hfail.
  unfold GenAI.enhanceContent, try_catch, bind.
  run_call r E. simpl in Hfail. subst r. simpl.
  unfold attempt. simpl.
  change (the_call (GenAI.defaultModel this) (GenAI.enhancePrompt h text type)
            (VNum (Fin (6 # 10))) (vint 900)) with primary.
  run_call r2 E2.
  change (the_call (GenAI.fallbackModel this) (GenAI.enhancePrompt h text type)
            (VNum (Fin (6 # 10))) (vint 900)) with fallback.
  destruct (sent_rest this primary w) as (Hnow & _).
  destruct r2 as [resp2|err2]; simpl;
    rewrite ?sent_model_calls, ?sent_client_calls; simpl;
    rewrite ?sent_model_calls, ?sent_client_calls;
    (split; [by rewrite <- app_assoc|]);
    (split; [destruct (GenAI.client this); [by rewrite <- app_assoc | reflexivity]|]).
  - destruct (sent_rest this fallback (sent this primary w)) as (-> & _).
    by rewrite Hnow.
  - reflexivity.
Qed.

Lemma generateTitles_fallback h this content count w err :
  let n := default_to count (vint 5) in
  attempt h this (generateTitles_call h this content n) w = Throw err ->
  let primary := generateTitles_call h this content n in
  let fallback := on_fallback this primary in
  let run := GenAI.generateTitles h this content count w in
  model_calls (snd run) = model_calls w ++ [primary; fallback]
  /\ client_calls (snd run)
     = (if GenAI.client this then client_calls w ++ [primary; fallback]
        else client_calls w)
  /\ fst run
     = match attempt h this fallback (sent this primary w) with
       | Return resp2 => Return (titles_of h resp2 n (now w))
       | Throw err2 => Throw err2
       end.
Proof.
  intros n Hfail primary fallback run. subst run.
  unfold attempt at 1, generateTitles_call in Hfail. simpl in Hfail.
  unfold GenAI.generateTitles, try_catch, bind. fold n.
  run_call r E. simpl in Hfail. subst r. simpl.
  unfold attempt. simpl.
  change (the_call (GenAI.defaultModel this) (VStr (GenAI.titlesPrompt h content n))
            (VNum (Fin (8 # 10))) (vint 300)) with primary.
  run_call r2 E2.
  change (the_call (GenAI.fallbackModel this) (VStr (GenAI.titlesPrompt h content n))
            (VNum (Fin (8 # 10))) (vint 300)) with fallback.
  destruct (sent_rest this primary w) as (Hnow & _).
  destruct r2 as [resp2|err2]; simpl;
    rewrite ?sent_model_calls, ?sent_client_calls; simpl;
    rewrite ?sent_model_calls, ?sent_client_calls;
    (split; [by rewrite <- app_assoc|]);
    (split; [destruct (GenAI.client this); [by rewrite <- app_assoc | reflexivity]|]).
  - destruct (sent_rest this fallback (sent this primary w)) as (-> & _).
    by rewrite Hnow.
  - reflexivity.
Qed.

(** When the primary call of [generateContent], [enhanceContent] or
    [generateTitles] fails, whatever the error, the facade calls the fallback
    model exactly once, with the prompt, the temperature and the ceiling of
    the primary call.  The caller gets the fallback's result, or a single
    error when the fallback fails too; no third call is made. *)
Lemma fallback_of_the_three_operations h this w :
  (forall prompt options err,
     let primary := generateContent_call h this prompt options in
     attempt h this primary w = Throw err ->
     falls_back_once h this w primary
       (GenAI.generateContent h this prompt options w)
       (after_primary h this prompt options err w)
       (fun outcome =>
          match outcome with
          | Return resp2 => Return (content_of (GenAI.fallbackModel this) resp2 (now w))
          | Throw err2 => Throw (generation_failed h err2)
          end))
  /\ (forall text type err,
        let primary := enhanceContent_call h this text type in
        attempt h this primary w = Throw err ->
        falls_back_once h this w primary
          (GenAI.enhanceContent h this text type w)
          (sent this primary w)
          (fun outcome =>
             match outcome with
             | Return resp2 => Return (enhanced_of resp2 (now w))
             | Throw err2 => Throw err2
             end))
  /\ (forall content count err,
        let n := default_to count (vint 5) in
        let primary := generateTitles_call h this content n in
        attempt h this primary w = Throw err ->
        falls_back_once h this w primary
          (GenAI.generateTitles h this content count w)
          (sent this primary w)
          (fun outcome =>
             match outcome with
             | Return resp2 => Return (titles_of h resp2 n (now w))
             | Throw err2 => Throw err2
             end)).
Proof.
  split; [|split].
  - intros prompt options err primary Hfail.
    destruct (generateContent_fallback h this prompt options w err Hfail)
      as (Hm & Hc & Hr).
    exists (on_fallback this primary). repeat (split; [done|]).
    split; [|exact Hr]. intros Hclient. rewrite Hc. by rewrite Hclient.
  - intros text type err primary Hfail.
    destruct (enhanceContent_fallback h this text type w err Hfail)
      as (Hm & Hc & Hr).
    exists (on_fallback this primary). repeat (split; [done|]).
    split; [|exact Hr]. intros Hclient. rewrite Hc. by rewrite Hclient.
  - intros content count err n primary Hfail.
    destruct (generateTitles_fallback h this content count w err Hfail)
      as (Hm & Hc & Hr).
    exists (on_fallback this primary). repeat (split; [done|]).
    split; [|exact Hr]. intros Hclient. rewrite Hc. by rewrite Hclient.
Qed.

(** ** Grammar correction *)

Lemma trim_whitespace_only s : whitespace_only s = true -> trim s = [].
Proof.
  unfold trim. induction s as [|c s IH]; simpl; [done|].
  intros [Hc Hs]%andb_prop. rewrite Hc. by apply IH.
Qed.

(** C4, amended. For a text that is empty or made of white space only,
    [correctGrammar] of the GenAI facade answers [{correctedText: '',
    changes: [], tokensUsed: 0}] and leaves the world as it found it: no
    [_callModel], no SDK call. *)
Theorem blank_text_skips_the_provider h this s w :
  whitespace_only s = true ->
  GenAI.correctGrammar h this (VStr s) w = (Return (empty_correction (now w)), w).
Proof.
  intros Hs. unfold GenAI.correctGrammar.
  rewrite (trim_whitespace_only s Hs). simpl.
  by rewrite orb_true_r.
Qed.

Lemma blank_text_skips_the_provider_witness :
  whitespace_only [32; 9; 10; 160]%N = true
  /\ client_calls (snd (GenAI.correctGrammar primary_down gemini
                          (VStr [32; 9; 10; 160]%N) blank)) = [].
Proof.
  split; [reflexivity|].
  by rewrite (blank_text_skips_the_provider primary_down gemini [32; 9; 10; 160]%N blank eq_refl).
Defined.

(** The OpenAI service has no such guard: with a client it sends the chat
    call for a blank text too. *)
Lemma OpenAI_correctGrammar_calls_on_blank h w :
  exists c,
    chat_calls (snd (OpenAI.correctGrammar h {| OpenAI.client := true |} (VStr []) w))
    = chat_calls w ++ [c].
Proof.
  unfold OpenAI.correctGrammar. simpl.
  unfold try_catch, bind, OpenAI.create, lift, clock, ret, throw. simpl.
  eexists.
  repeat (match goal with
          | |- context [match ?x with Return _ => _ | Throw _ => _ end] => destruct x
          end; simpl); reflexivity.
Qed.

(** C4, as stated, fails for the second implementation it cites: the
    OpenAI service sends a text of blanks to the provider like any other.
    Here the provider finds nothing to correct; the operation has made one
    call and reports its 12 tokens. *)
Lemma OpenAI_correctGrammar_sends_blank_text :
  let run := OpenAI.correctGrammar proofreader (OpenAI.constructor (Some (u "sk-test")))
               (VStr [32; 9; 10; 160]%N) blank in
  whitespace_only [32; 9; 10; 160]%N = true
  /\ fst run = Return {| Grammar.correctedText := VStr [];
                         Grammar.changes := VArr [];
                         Grammar.tokensUsed := vint 12;
                         Grammar.timestamp := 0 |}
  /\ fst run <> Return (empty_correction 0)
  /\ length (chat_calls (snd run)) = 1%nat.
Proof. cbv zeta. split; [reflexivity|]. split; [reflexivity|]. split; [discriminate|reflexivity]. Qed.

(** When the only call of [correctGrammar] fails, its error goes to the
    caller as it is: nothing is sent to the fallback model. *)
Lemma correctGrammar_no_fallback h this s w err :
  trim s <> [] ->
  attempt h this (correctGrammar_call this s) w = Throw err ->
  let run := GenAI.correctGrammar h this (VStr s) w in
  fst run = Throw err
  /\ model_calls (snd run) = model_calls w ++ [correctGrammar_call this s].
Proof.
  intros Hs Hfail run. subst run.
  unfold attempt, correctGrammar_call in Hfail. simpl in Hfail.
  unfold GenAI.correctGrammar.
  assert (Hguard : negb (truthy (VStr s)) || negb (truthy (VStr (trim s))) = false).
  { destruct s as [|c s]; [done|]. simpl. by destruct (trim (c :: s)). }
  rewrite Hguard. unfold try_catch, bind.
  run_call r E. simpl in Hfail. subst r. simpl.
  split; [done|]. by rewrite sent_model_calls.
Qed.

(** C2, at the failing input: the primary model rejects, the fallback model
    would answer.  [correctGrammar] sends one call, to the primary model, and
    throws; [generateContent] on the same host answers through the fallback
    model. *)
Theorem correctGrammar_does_not_fall_back :
  let run := GenAI.correctGrammar primary_down gemini (vstr "helo world") blank in
  fst run = Throw (GenAI.normalize_error primary_down overloaded)
  /\ model_calls (snd run) = [correctGrammar_call gemini (u "helo world")]
  /\ client_calls (snd run) = [correctGrammar_call gemini (u "helo world")]
  /\ exists r,
       fst (GenAI.generateContent primary_down gemini about_cats no_options blank)
       = Return r
       /\ Content.model r = VStr (GenAI.fallbackModel gemini)
       /\ Content.content r = vstr "Hello, world.".
Proof.
  repeat split. eexists. repeat split.
Qed.

(** C3. When the primary call of [generateContent], [enhanceContent] or
    [generateTitles] fails, whatever the error, the facade calls the fallback
    model exactly once, with the prompt, the temperature and the ceiling of
    the primary call, and the caller gets the fallback's result, or a single
    error when the fallback fails too; no third call is made.  The fourth
    generation call, [correctGrammar], breaks the rule: when its primary call
    fails, that error goes to the caller after one call, and nothing is sent
    to the fallback model. *)
Theorem fallback_once_except_for_grammar h this w :
  (forall prompt options err,
     let primary := generateContent_call h this prompt options in
     attempt h this primary w = Throw err ->
     falls_back_once h this w primary
       (GenAI.generateContent h this prompt options w)
       (after_primary h this prompt options err w)
       (fun outcome =>
          match outcome with
          | Return resp2 => Return (content_of (GenAI.fallbackModel this) resp2 (now w))
          | Throw err2 => Throw (generation_failed h err2)
          end))
  /\ (forall text type err,
        let primary := enhanceContent_call h this text type in
        attempt h this primary w = Throw err ->
        falls_back_once h this w primary
          (GenAI.enhanceContent h this text type w)
          (sent this primary w)
          (fun outcome =>
             match outcome with
             | Return resp2 => Return (enhanced_of resp2 (now w))
             | Throw err2 => Throw err2
             end))
  /\ (forall content count err,
        let n := default_to count (vint 5) in
        let primary := generateTitles_call h this content n in
        attempt h this primary w = Throw err ->
        falls_back_once h this w primary
          (GenAI.generateTitles h this content count w)
          (sent this primary w)
          (fun outcome =>
             match outcome with
             | Return resp2 => Return (titles_of h resp2 n (now w))
             | Throw err2 => Throw err2
             end))
  /\ (forall s err,
        let primary := correctGrammar_call this s in
        let run := GenAI.correctGrammar h this (VStr s) w in
        trim s <> [] ->
        attempt h this primary w = Throw err ->
        fst run = Throw err
        /\ model_calls (snd run) = model_calls w ++ [primary]
        /\ forall next (finish : completion GenAI.Response.t -> completion Grammar.t),
             ~ falls_back_once h this w primary run next finish).
Proof.
  destruct (fallback_of_the_three_operations h this w) as (Hg & He & Ht).
  repeat (split; [assumption|]).
  intros s err primary run Hs Hfail.
  destruct (correctGrammar_no_fallback h this s w err Hs Hfail) as [Hr Hcalls].
  split; [exact Hr|]. split; [exact Hcalls|].
  intros next finish (fallback & _ & _ & _ & _ & Hm & _).
  subst run primary. rewrite Hcalls in Hm. by apply app_inv_head in Hm.
Qed.

Lemma fallback_once_except_for_grammar_witness :
  (attempt all_down gemini (generateContent_call all_down gemini about_cats no_options)
     blank
   = Throw (GenAI.normalize_error all_down overloaded)
   /\ falls_back_once all_down gemini blank
        (generateContent_call all_down gemini about_cats no_options)
        (GenAI.generateContent all_down gemini about_cats no_options blank)
        (after_primary all_down gemini about_cats no_options
           (GenAI.normalize_error all_down overloaded) blank)
        (fun outcome =>
           match outcome with
           | Return resp2 =>
               Return (content_of (GenAI.fallbackModel gemini) resp2 (now blank))
           | Throw err2 => Throw (generation_failed all_down err2)
           end))
  /\ (let run := GenAI.correctGrammar primary_down gemini (vstr "helo world") blank in
      fst run = Throw (GenAI.normalize_error primary_down overloaded)
      /\ model_calls (snd run)
         = model_calls blank ++ [correctGrammar_call gemini (u "helo world")]
      /\ forall next (finish : completion GenAI.Response.t -> completion Grammar.t),
           ~ falls_back_once primary_down gemini blank
               (correctGrammar_call gemini (u "helo world")) run next finish).
Proof.
  split.
  - split; [reflexivity|].
    exact (proj1 (fallback_once_except_for_grammar all_down gemini blank)
             about_cats no_options (GenAI.normalize_error all_down overloaded) eq_refl).
  - exact (proj2 (proj2 (proj2 (fallback_once_except_for_grammar primary_down gemini blank)))
             (u "helo world") (GenAI.normalize_error primary_down overloaded)
             ltac:(discriminate) eq_refl).
Defined.

(** ** Token ceilings *)

Lemma getMaxTokens_supported h l :
  GenAI.getMaxTokens h (length_name l) = vint (ceiling l).
Proof. destruct l; reflexivity. Qed.

Lemma OpenAI_getMaxTokens_supported h l :
  OpenAI.getMaxTokens h (length_name l) = vint (ceiling l).
Proof. destruct l; reflexivity. Qed.

(** The OpenAI service sends one chat call, or none without a client. *)
Lemma OpenAI_generateContent_trace h this prompt options w :
  chat_calls (snd (OpenAI.generateContent h this prompt options w))
  = chat_calls w
      ++ (if OpenAI.client this then [OpenAI_generateContent_call h prompt options]
          else []).
Proof.
  unfold OpenAI.generateContent, OpenAI_generateContent_call.
  destruct (OpenAI.client this); simpl; [|by rewrite app_nil_r].
  unfold try_catch, bind, OpenAI.create, lift, clock, ret, throw. simpl.
  repeat (match goal with
          | |- context [match ?x with Return _ => _ | Throw _ => _ end] => destruct x
          end; simpl); reflexivity.
Qed.

(** C9. For the lengths short, medium and long the ceiling handed to the
    provider is 300, 600 and 1200: [getMaxTokens] returns exactly that value
    in both services, and every call a run of [generateContent] sends (the
    primary call and the fallback call, or the chat call of the OpenAI
    service) carries that ceiling and no other. *)
Theorem ceiling_is_fixed_per_length h l :
  GenAI.getMaxTokens h (length_name l) = vint (ceiling l)
  /\ OpenAI.getMaxTokens h (length_name l) = vint (ceiling l)
  /\ (forall this prompt tone creativity w,
        let run := GenAI.generateContent h this prompt
                     {| Options.tone := tone; Options.length := length_name l;
                        Options.creativity := creativity |} w in
        exists new,
          model_calls (snd run) = model_calls w ++ new
          /\ client_calls (snd run)
             = client_calls w ++ (if GenAI.client this then new else [])
          /\ Forall (fun c => maxOutputTokens c = vint (ceiling l)) new)
  /\ (forall this prompt tone creativity w,
        let run := OpenAI.generateContent h this prompt
                     {| Options.tone := tone; Options.length := length_name l;
                        Options.creativity := creativity |} w in
        exists new,
          chat_calls (snd run) = chat_calls w ++ new
          /\ Forall (fun c => max_tokens c = vint (ceiling l)) new).
Proof.
  split; [apply getMaxTokens_supported|].
  split; [apply OpenAI_getMaxTokens_supported|].
  split.
  - intros this prompt tone creativity w run.
    destruct (generateContent_trace h this prompt
                {| Options.tone := tone; Options.length := length_name l;
                   Options.creativity := creativity |} w)
      as (new & Hnew & Hm & Hc).
    exists new. split; [exact Hm|]. split; [exact Hc|].
    assert (Hl : default_to (length_name l) (vstr "medium") = length_name l)
      by (by destruct l).
    destruct Hnew as [-> | ->]; repeat constructor; simpl;
      rewrite Hl; apply getMaxTokens_supported.
  - intros this prompt tone creativity w run.
    exists (if OpenAI.client this
            then [OpenAI_generateContent_call h prompt
                    {| Options.tone := tone; Options.length := length_name l;
                       Options.creativity := creativity |}]
            else []).
    split; [apply OpenAI_generateContent_trace|].
    destruct (OpenAI.client this); repeat constructor. simpl.
    assert (Hl : default_to (length_name l) (vstr "medium") = length_name l)
      by (by destruct l).
    rewrite Hl. apply OpenAI_getMaxTokens_supported.
Qed.

Lemma key_eqb_sym a b : key_eqb a b = key_eqb b a.
Proof. unfold key_eqb. apply bool_decide_ext. split; congruence. Qed.

Lemma unrecognised_ceiling h length :
  recognised (ToString h length) = false ->
  on_prototype (ToString h length) = false ->
  GenAI.getMaxTokens h length = vint 600
  /\ OpenAI.getMaxTokens h length = vint 600.
Proof.
  intros Hk Hp.
  unfold GenAI.getMaxTokens, OpenAI.getMaxTokens, GenAI.limits, OpenAI.tokenLimits.
  unfold recognised in Hk. simpl in Hk.
  apply orb_false_elim in Hk as [H1 Hk].
  apply orb_false_elim in Hk as [H2 Hk].
  apply orb_false_elim in Hk as [H3 _].
  rewrite key_eqb_sym in H1, H2, H3.
  unfold prop, own. rewrite H1, H2, H3.
  unfold inherited. fold (on_prototype (ToString h length)). rewrite Hp.
  by split.
Qed.

(** C10, as stated, fails: [limits['constructor']] is the function inherited
    from [Object.prototype], which is truthy, so [getMaxTokens] hands it
    back in place of 600. *)
Lemma constructor_length_is_not_600 :
  recognised (ToString quiet (vstr "constructor")) = false
  /\ GenAI.getMaxTokens quiet (vstr "constructor") = VBuiltin (u "constructor")
  /\ OpenAI.getMaxTokens quiet (vstr "constructor") = VBuiltin (u "constructor")
  /\ GenAI.getMaxTokens quiet (vstr "constructor") <> vint 600.
Proof. repeat split. discriminate. Qed.

(** C10, amended. For every length value whose property key is none of
    short, medium, long and none of the names inherited from
    [Object.prototype], [getMaxTokens] returns 600 in both services; an
    absent ([undefined]) length is one of them; and [generateContent] called
    with such a length does send its calls, each with the ceiling 600. *)
Theorem unrecognised_length_uses_600 h length :
  recognised (ToString h length) = false ->
  on_prototype (ToString h length) = false ->
  GenAI.getMaxTokens h length = vint 600
  /\ OpenAI.getMaxTokens h length = vint 600
  /\ GenAI.getMaxTokens h VUndefined = vint 600
  /\ OpenAI.getMaxTokens h VUndefined = vint 600
  /\ forall this prompt tone creativity w,
       let run := GenAI.generateContent h this prompt
                    {| Options.tone := tone; Options.length := length;
                       Options.creativity := creativity |} w in
       exists first rest,
         model_calls (snd run) = model_calls w ++ first :: rest
         /\ Forall (fun c => maxOutputTokens c = vint 600) (first :: rest).
Proof.
  intros Hk Hp.
  destruct (unrecognised_ceiling h length Hk Hp) as [Hg Ho].
  repeat (split; [done|]).
  intros this prompt tone creativity w run.
  set (options := {| Options.tone := tone; Options.length := length;
                     Options.creativity := creativity |}).
  assert (Hceil : GenAI.getMaxTokens h (default_to length (vstr "medium")) = vint 600).
  { destruct length; exact Hg. }
  destruct (generateContent_trace h this prompt options w) as (new & Hnew & Hm & _).
  destruct Hnew as [-> | ->]; eexists _, _; (split; [exact Hm|]);
    repeat constructor; exact Hceil.
Qed.

Lemma unrecognised_length_uses_600_witness :
  recognised (ToString quiet (vstr "huge")) = false
  /\ on_prototype (ToString quiet (vstr "huge")) = false
  /\ GenAI.getMaxTokens quiet (vstr "huge") = vint 600.
Proof.
  split; [reflexivity|]. split; [reflexivity|].
  apply (unrecognised_length_uses_600 quiet (vstr "huge")); reflexivity.
Defined.

(** ** Token cost *)

Lemma response_tokens_number h res :
  exists n, GenAI.response_tokens h res = VNum n /\ n <> NaN.
Proof.
  unfold GenAI.response_tokens, or.
  destruct (truthy (VNum (ToNumber h (GenAI.reported_tokens res)))) eqn:E.
  - eexists. split; [reflexivity|]. intros Hn. rewrite Hn in E. discriminate.
  - exists (int 0). split; [reflexivity|discriminate].
Qed.

Lemma response_tokens_unreported h res :
  unreported res = true -> GenAI.response_tokens h res = vint 0.
Proof.
  unfold unreported, usage_fields. simpl.
  intros [H1 [H2 [H3 _]%andb_prop]%andb_prop]%andb_prop.
  unfold GenAI.response_tokens, GenAI.reported_tokens, coalesce.
  by rewrite H1, H2, H3.
Qed.

Lemma or_zero_nonneg n :
  is_nonneg_integer (VNum n) = true ->
  is_nonneg_integer (or (VNum n) (vint 0)) = true.
Proof. intros H. unfold or. by destruct (truthy (VNum n)). Qed.

Lemma response_tokens_nonneg h res n :
  GenAI.reported_tokens res = VNum n ->
  is_nonneg_integer (VNum n) = true ->
  is_nonneg_integer (GenAI.response_tokens h res) = true.
Proof.
  intros Hr Hn. unfold GenAI.response_tokens. rewrite Hr. simpl ToNumber.
  by apply or_zero_nonneg.
Qed.

Lemma response_tokens_cost h res : is_token_cost h res (GenAI.response_tokens h res).
Proof.
  split; [reflexivity|].
  destruct (response_tokens_number h res) as (n & Hn & Hnan).
  split; [by exists n|]. split; [by rewrite Hn|].
  split; [apply response_tokens_unreported|]. apply response_tokens_nonneg.
Qed.

Lemma generateContent_returns h this prompt options w r :
  fst (GenAI.generateContent h this prompt options w) = Return r ->
  exists model resp,
    r = content_of model resp (now w)
    /\ answered h (GenAI.Response.raw resp)
    /\ GenAI.Response.tokensUsed resp
       = GenAI.response_tokens h (GenAI.Response.raw resp).
Proof.
  intros Hr.
  destruct (attempt h this (generateContent_call h this prompt options) w)
    as [resp|err] eqn:E.
  - destruct (generateContent_primary h this prompt options w resp E) as [H1 _].
    rewrite Hr in H1. injection H1 as ->.
    destruct (attempt_returns _ _ _ _ _ E) as (Ha & Ht & _). by eexists _, _.
  - destruct (generateContent_fallback h this prompt options w err E) as (_ & _ & H1).
    rewrite Hr in H1.
    destruct (attempt h this _ (after_primary h this prompt options err w))
      as [resp2|err2] eqn:E2; [|discriminate].
    injection H1 as ->.
    destruct (attempt_returns _ _ _ _ _ E2) as (Ha & Ht & _). by eexists _, _.
Qed.

Ltac returned_by_a_call :=
  match goal with
  | |- context [GenAI._callModel ?h ?this ?m ?c ?t ?k ?w] =>
      let E := fresh "E" in
      destruct (GenAI._callModel h this m c t k w) as [[?resp|?err] ?w] eqn:E;
      cbn beta iota;
      [ intros [= <-]; eexists; split;
        [ exists (Call m c t k), w; unfold attempt; cbn [model contents temperature
                                                          maxOutputTokens];
          by rewrite E
        | reflexivity ]
      | ]
  end.

Lemma enhanceContent_returns h this text type w r :
  fst (GenAI.enhanceContent h this text type w) = Return r ->
  exists resp,
    attempt_source h this resp /\ Enhanced.tokensUsed r = GenAI.Response.tokensUsed resp.
Proof.
  unfold GenAI.enhanceContent, try_catch, bind, clock, ret.
  returned_by_a_call. returned_by_a_call. discriminate.
Qed.

Lemma generateTitles_returns h this content count w r :
  fst (GenAI.generateTitles h this content count w) = Return r ->
  exists resp,
    attempt_source h this resp /\ Titles.tokensUsed r = GenAI.Response.tokensUsed resp.
Proof.
  unfold GenAI.generateTitles, try_catch, bind, clock, ret.
  returned_by_a_call. returned_by_a_call. discriminate.
Qed.

Lemma correctGrammar_returns h this text w r :
  fst (GenAI.correctGrammar h this text w) = Return r ->
  Grammar.tokensUsed r = vint 0
  \/ exists resp,
       attempt_source h this resp
       /\ Grammar.tokensUsed r = or (GenAI.Response.tokensUsed resp) (vint 0).
Proof.
  unfold GenAI.correctGrammar, GenAI.emptyGrammar, try_catch, bind, clock, ret, throw.
  destruct text as [| | | |s| | |];
    try (destruct (negb _); cbn; [intros [= <-]; by left|discriminate]).
  destruct (negb _ || negb _); [cbn; intros [= <-]; by left|].
  intros Hr. right. revert Hr. returned_by_a_call. discriminate.
Qed.

Lemma or_response_tokens h res :
  or (GenAI.response_tokens h res) (vint 0) = GenAI.response_tokens h res.
Proof.
  unfold GenAI.response_tokens.
  set (x := VNum (ToNumber h (GenAI.reported_tokens res))).
  unfold or. destruct (truthy x) eqn:E; [by rewrite E|reflexivity].
Qed.

Lemma source_cost h this resp :
  attempt_source h this resp ->
  answered h (GenAI.Response.raw resp)
  /\ is_token_cost h (GenAI.Response.raw resp) (GenAI.Response.tokensUsed resp).
Proof.
  intros (c & w & Hr).
  destruct (attempt_returns h this c w resp Hr) as (Ha & -> & _).
  split; [exact Ha|]. apply response_tokens_cost.
Qed.

Lemma OpenAI_generateContent_returns h this prompt options w r :
  fst (OpenAI.generateContent h this prompt options w) = Return r ->
  exists response,
    chat_answered h response
    /\ OpenAI.total_tokens response = Return (Content.tokensUsed r).
Proof.
  unfold OpenAI.generateContent.
  destruct (negb (OpenAI.client this)); [discriminate|].
  unfold try_catch, bind, OpenAI.create, lift, clock, ret, logger.
  destruct (chat_upstream h _ _) as [response|] eqn:E; [|discriminate].
  destruct (OpenAI.message_content response); [|discriminate].
  destruct (OpenAI.total_tokens response) as [tokens|] eqn:Et; [|discriminate].
  destruct (length_of prompt); [|discriminate].
  destruct (length_of _); [|discriminate].
  cbn. intros [= <-]. exists response. split; [by eexists _, _|exact Et].
Qed.

(** C7, as stated, fails.  In the GenAI facade the count of the provider is
    passed through [Number(...) || 0] unchecked, so a negative count is the
    token cost of the result.  In the OpenAI service nothing stands in for a
    count the provider left out: the cost of the result is [undefined]. *)
Lemma token_cost_is_not_always_a_count :
  (exists r,
     fst (GenAI.generateContent negative_count gemini about_cats no_options blank)
     = Return r
     /\ Content.tokensUsed r = vint (-4)
     /\ is_nonneg_integer (Content.tokensUsed r) = false)
  /\ (exists r,
        fst (OpenAI.generateContent uncounted (OpenAI.constructor (Some (u "sk-test")))
               about_cats no_options blank) = Return r
        /\ Content.content r = vstr "Cats sleep a lot."
        /\ Content.tokensUsed r = VUndefined).
Proof. split; eexists; repeat split. Qed.

(** C7, amended. In the GenAI facade the token cost of every response
    [_callModel] returns, and so of every result of [generateContent],
    [enhanceContent], [generateTitles] and [correctGrammar], is computed from
    an answer of the provider and is a number, never [null], [undefined] or
    NaN; it is 0 when that answer carries no count (and for a blank text,
    which [correctGrammar] does not send); it is a non-negative integer
    whenever the count the provider reported is one.  What the route reports
    for it, [result.tokensUsed || 0], is a number as well.  In the OpenAI
    service the cost of a result of [generateContent] is
    [response.usage.total_tokens] of the provider's answer, as it is. *)
Theorem token_cost_is_a_number h this openai :
  (forall c w resp,
     attempt h this c w = Return resp ->
     answered h (GenAI.Response.raw resp)
     /\ is_token_cost h (GenAI.Response.raw resp) (GenAI.Response.tokensUsed resp))
  /\ (forall prompt options w r,
        fst (GenAI.generateContent h this prompt options w) = Return r ->
        exists res,
          answered h res
          /\ is_token_cost h res (Content.tokensUsed r)
          /\ exists n, or (Content.tokensUsed r) (vint 0) = VNum n /\ n <> NaN)
  /\ (forall text type w r,
        fst (GenAI.enhanceContent h this text type w) = Return r ->
        exists res, answered h res /\ is_token_cost h res (Enhanced.tokensUsed r))
  /\ (forall content count w r,
        fst (GenAI.generateTitles h this content count w) = Return r ->
        exists res, answered h res /\ is_token_cost h res (Titles.tokensUsed r))
  /\ (forall text w r,
        fst (GenAI.correctGrammar h this text w) = Return r ->
        Grammar.tokensUsed r = vint 0
        \/ exists res, answered h res /\ is_token_cost h res (Grammar.tokensUsed r))
  /\ (forall prompt options w r,
        fst (OpenAI.generateContent h openai prompt options w) = Return r ->
        exists response,
          chat_answered h response
          /\ OpenAI.total_tokens response = Return (Content.tokensUsed r)).
Proof.
  split; [|split; [|split; [|split; [|split]]]].
  - intros c w resp Hr.
    destruct (attempt_returns h this c w resp Hr) as (Ha & -> & _).
    split; [exact Ha|]. apply response_tokens_cost.
  - intros prompt options w r Hr.
    destruct (generateContent_returns h this prompt options w r Hr)
      as (model & resp & -> & Ha & Ht).
    exists (GenAI.Response.raw resp). simpl. rewrite Ht.
    split; [exact Ha|]. split; [apply response_tokens_cost|].
    destruct (response_tokens_number h (GenAI.Response.raw resp)) as (n & -> & Hnan).
    unfold or. destruct (truthy (VNum n)); [by exists n|].
    exists (int 0). by split.
  - intros text type w r Hr.
    destruct (enhanceContent_returns h this text type w r Hr) as (resp & Hs & ->).
    exists (GenAI.Response.raw resp). by apply source_cost with this.
  - intros content count w r Hr.
    destruct (generateTitles_returns h this content count w r Hr) as (resp & Hs & ->).
    exists (GenAI.Response.raw resp). by apply source_cost with this.
  - intros text w r Hr.
    destruct (correctGrammar_returns h this text w r Hr) as [H0|(resp & Hs & ->)];
      [by left|right].
    exists (GenAI.Response.raw resp).
    destruct (source_cost h this resp Hs) as [Ha Hc]. split; [exact Ha|].
    destruct Hc as [Heq Hrest]. rewrite Heq, or_response_tokens.
    apply response_tokens_cost.
  - apply OpenAI_generateContent_returns.
Qed.

Lemma token_cost_is_a_number_witness :
  exists r,
    fst (GenAI.generateContent primary_down gemini about_cats no_options blank)
    = Return r
    /\ exists res,
         answered primary_down res
         /\ is_token_cost primary_down res (Content.tokensUsed r)
         /\ exists n, or (Content.tokensUsed r) (vint 0) = VNum n /\ n <> NaN.
Proof.
  eexists. split; [reflexivity|].
  exact (proj1 (proj2 (token_cost_is_a_number primary_down gemini
                         (OpenAI.constructor None)))
           about_cats no_options blank _ eq_refl).
Defined.

(** ** Titles *)

Lemma split_line sep (l : jsstring) :
  sep ∉ l -> split sep l = [l].
Proof.
  induction l as [|c l IH]; [done|].
  intros Hc. apply not_elem_of_cons in Hc as [Hne Hl]. simpl.
  destruct (N.eqb_spec c sep) as [->|_]; [done|].
  by rewrite (IH Hl).
Qed.

Lemma split_app sep (l rest : jsstring) :
  sep ∉ l -> split sep (l ++ sep :: rest) = l :: split sep rest.
Proof.
  induction l as [|c l IH]; intros Hc; simpl.
  - by rewrite N.eqb_refl.
  - apply not_elem_of_cons in Hc as [Hne Hl].
    destruct (N.eqb_spec c sep) as [->|_]; [done|].
    by rewrite (IH Hl).
Qed.


Lemma trimEnd_idempotent s : trimEnd (trimEnd s) = trimEnd s.
Proof.
  induction s as [|c s IH]; [done|]. simpl.
  destruct (trimEnd s) as [|k ks] eqn:E.
  - destruct (is_space c) eqn:Hc; [done|]. simpl. by rewrite Hc.
  - change (trimEnd (c :: k :: ks))
      with (match trimEnd (k :: ks) with
            | [] => if is_space c then [] else [c]
            | kept => c :: kept
            end).
    by rewrite IH.
Qed.

Lemma trimEnd_keeps_head c s :
  is_space c = false -> exists rest, trimEnd (c :: s) = c :: rest.
Proof.
  intros Hc. simpl. destruct (trimEnd s); [rewrite Hc|]; by eexists.
Qed.

Lemma trimStart_head s :
  trimStart s = [] \/ exists c rest, trimStart s = c :: rest /\ is_space c = false.
Proof.
  induction s as [|c s IH]; [by left|]. simpl.
  destruct (is_space c) eqn:Hc; [exact IH|]. right. by exists c, s.
Qed.

(** A trimmed string is left alone by [trim]. *)
Lemma trim_idempotent s : trim (trim s) = trim s.
Proof.
  unfold trim.
  destruct (trimStart_head s) as [-> | (c & rest & -> & Hc)]; [done|].
  destruct (trimEnd_keeps_head c rest Hc) as (kept & Hk).
  assert (Hs : trimStart (trimEnd (c :: rest)) = trimEnd (c :: rest)).
  { rewrite Hk. simpl. by rewrite Hc. }
  rewrite Hs. apply trimEnd_idempotent.
Qed.








(** ** The usage ledger never fails a generation *)

Lemma logAIUsage_never_throws h userId postId featureType tokensUsed w :
  let insert := Ledger.insert h userId postId featureType tokensUsed w in
  Router.logAIUsage h userId postId featureType tokensUsed w
  = match fst insert with
    | Return _ => (Return tt, snd insert)
    | Throw err => (Return tt, logged_failure err w)
    end.
Proof.
  intros insert. subst insert.
  unfold Router.logAIUsage, try_catch.
  assert (Hw : forall err, fst (Ledger.insert h userId postId featureType tokensUsed w)
                           = Throw err ->
                           snd (Ledger.insert h userId postId featureType tokensUsed w) = w).
  { unfold Ledger.insert.
    repeat (match goal with
            | |- context [match ?x with _ => _ end] => destruct x
            end; simpl); congruence. }
  destruct (Ledger.insert h userId postId featureType tokensUsed w) as [[[]|err] w'];
    simpl in *; [done|].
  by rewrite (Hw err eq_refl).
Qed.

Section Swallowed.
Context (h : host) (aiService : AIService) (req : Req.t) (w w1 : world).
Hypothesis valid : validationResult h (Req.body req) = [].
Hypothesis has_body : nullish (Req.body req) = false.
Hypothesis has_user : nullish (Req.user req) = false.

Let user_id := prop (Req.user req) (u "user_id").
Let body := Req.body req.

Lemma generate_swallows r :
  generateContent aiService (prop body (u "prompt")) (generate_options body) w
  = (Return r, w1) ->
  swallows (Router.generate h aiService req w) (generated r)
    (Ledger.insert h user_id VNull (u "generate")
                   (or (Content.tokensUsed r) (vint 0)) w1) w1.
Proof.
  intros Hgen. subst user_id body.
  unfold swallows, Router.generate, try_catch, bind. rewrite valid.
  unfold lift, Router.destructure, get. rewrite has_body, has_user.
  fold (generate_options (Req.body req)). rewrite Hgen.
  rewrite logAIUsage_never_throws.
  destruct (fst (Ledger.insert _ _ _ _ _ _)) as [[]|err]; simpl; by repeat split.
Qed.

Lemma grammar_swallows r :
  correctGrammar aiService (prop body (u "text")) w = (Return r, w1) ->
  swallows (Router.grammar h aiService req w) (corrected r)
    (Ledger.insert h user_id VNull (u "grammar")
                   (or (Grammar.tokensUsed r) (vint 0)) w1) w1.
Proof.
  intros Hgen. subst user_id body.
  unfold swallows, Router.grammar, try_catch, bind. rewrite valid.
  unfold lift, get. rewrite has_body, has_user. rewrite Hgen.
  rewrite logAIUsage_never_throws.
  destruct (fst (Ledger.insert _ _ _ _ _ _)) as [[]|err]; simpl; by repeat split.
Qed.

Lemma enhance_swallows r :
  enhanceContent aiService (prop body (u "text")) (prop body (u "type")) w
  = (Return r, w1) ->
  swallows (Router.enhance h aiService req w) (enhanced r)
    (Ledger.insert h user_id VNull (u "enhance_" ++ ToString h (prop body (u "type")))
                   (or (Enhanced.tokensUsed r) (vint 0)) w1) w1.
Proof.
  intros Hgen. subst user_id body.
  unfold swallows, Router.enhance, try_catch, bind. rewrite valid.
  unfold lift, get. rewrite has_body, has_user. rewrite Hgen.
  rewrite logAIUsage_never_throws.
  destruct (fst (Ledger.insert _ _ _ _ _ _)) as [[]|err]; simpl; by repeat split.
Qed.

Lemma titles_swallows r :
  generateTitles aiService (prop body (u "content"))
                 (default_to (prop body (u "count")) (vint 5)) w = (Return r, w1) ->
  swallows (Router.titles h aiService req w) (titled r)
    (Ledger.insert h user_id VNull (u "titles")
                   (or (Titles.tokensUsed r) (vint 0)) w1) w1.
Proof.
  intros Hgen. subst user_id body.
  unfold swallows, Router.titles, try_catch, bind. rewrite valid.
  unfold lift, Router.destructure, get. rewrite has_body, has_user. rewrite Hgen.
  rewrite logAIUsage_never_throws.
  destruct (fst (Ledger.insert _ _ _ _ _ _)) as [[]|err]; simpl; by repeat split.
Qed.

End Swallowed.

(** C8. Once the service has completed a generation, each of the four
    routes answers 200 with that result whether or not the usage row could
    be inserted.  When the insert is refused, whatever the reason, the error
    is logged, the table is left as it was, the state the generation left
    behind is kept, and the answer is the same. *)
Theorem usage_insert_failure_is_swallowed h aiService req w w1 :
  validationResult h (Req.body req) = [] ->
  nullish (Req.body req) = false ->
  nullish (Req.user req) = false ->
  let body := Req.body req in
  let user_id := prop (Req.user req) (u "user_id") in
  (forall r,
     generateContent aiService (prop body (u "prompt")) (generate_options body) w
     = (Return r, w1) ->
     swallows (Router.generate h aiService req w) (generated r)
       (Ledger.insert h user_id VNull (u "generate")
                      (or (Content.tokensUsed r) (vint 0)) w1) w1)
  /\ (forall r,
        correctGrammar aiService (prop body (u "text")) w = (Return r, w1) ->
        swallows (Router.grammar h aiService req w) (corrected r)
          (Ledger.insert h user_id VNull (u "grammar")
                         (or (Grammar.tokensUsed r) (vint 0)) w1) w1)
  /\ (forall r,
        enhanceContent aiService (prop body (u "text")) (prop body (u "type")) w
        = (Return r, w1) ->
        swallows (Router.enhance h aiService req w) (enhanced r)
          (Ledger.insert h user_id VNull
                         (u "enhance_" ++ ToString h (prop body (u "type")))
                         (or (Enhanced.tokensUsed r) (vint 0)) w1) w1)
  /\ (forall r,
        generateTitles aiService (prop body (u "content"))
                       (default_to (prop body (u "count")) (vint 5)) w
        = (Return r, w1) ->
        swallows (Router.titles h aiService req w) (titled r)
          (Ledger.insert h user_id VNull (u "titles")
                         (or (Titles.tokensUsed r) (vint 0)) w1) w1).
Proof.
  intros Hvalid Hbody Huser body user_id.
  split; [|split; [|split]]; intros r Hgen.
  - by apply generate_swallows.
  - by apply grammar_swallows.
  - by apply enhance_swallows.
  - by apply titles_swallows.
Qed.

Lemma usage_insert_failure_is_swallowed_witness :
  exists r w1,
    GenAI.generateContent db_down gemini about_cats
      (generate_options (Req.body cat_request)) blank = (Return r, w1)
    /\ Content.tokensUsed r = vint 42
    /\ swallows (Router.generate db_down (GenAI.exports db_down gemini) cat_request blank)
         (generated r)
         (Ledger.insert db_down (vint 7) VNull (u "generate")
                        (or (Content.tokensUsed r) (vint 0)) w1) w1.
Proof.
  eexists _, _. split; [reflexivity|]. split; [reflexivity|].
  exact (proj1 (usage_insert_failure_is_swallowed db_down (GenAI.exports db_down gemini)
                  cat_request blank _ eq_refl eq_refl eq_refl) _ eq_refl).
Defined.

(** ** Usage summary *)

(** The two windowed queries leave out every row older than the window. *)
Lemma windowed_rows_are_recent now days uid rows r :
  r ∈ Ledger.in_window now days (Ledger.of_user uid rows) ->
  user_id r = uid /\ now - days * Ledger.DAY <= timestamp r.
Proof.
  unfold Ledger.in_window, Ledger.of_user.
  intros [[Hin Hu]%filter_In Hw]%list_elem_of_In%filter_In.
  split; lia.
Qed.

(** The total query has no window: it counts every row of the user. *)
Lemma total_query_counts_old_rows uid rows :
  fst (Ledger.total_query uid rows)
  = Z.of_nat (length (List.filter (fun r => user_id r =? uid) rows)).
Proof. reflexivity. Qed.


Lemma add_to_group_sizes {K} (eqb : K -> K -> bool) k r groups :
  group_sizes (Ledger.add_to_group eqb k r groups) = group_sizes groups + 1.
Proof.
  unfold group_sizes. induction groups as [|[k' rs] rest IH]; [done|].
  cbn [Ledger.add_to_group]. destruct (eqb k' k); cbn [map sumZ snd].
  - rewrite length_app. cbn [length]. lia.
  - rewrite IH. lia.
Qed.

Lemma group_by_sizes {K} (eqb : K -> K -> bool) key rows :
  group_sizes (Ledger.group_by eqb key rows) = Z.of_nat (length rows).
Proof.
  unfold Ledger.group_by.
  assert (Hacc : forall acc,
             group_sizes (fold_left (fun groups r =>
                                       Ledger.add_to_group eqb (key r) r groups) rows acc)
             = group_sizes acc + Z.of_nat (length rows)).
  { induction rows as [|r rows IH]; intros acc; cbn [fold_left length]; [lia|].
    rewrite IH, add_to_group_sizes. lia. }
  by rewrite Hacc.
Qed.

Lemma insert_desc_sum {A} (rank f : A -> Z) x l :
  sumZ (map f (Ledger.insert_desc rank x l)) = f x + sumZ (map f l).
Proof.
  induction l as [|y l IH]; [done|]. cbn [Ledger.insert_desc].
  destruct (rank y <? rank x); cbn [map sumZ]; [done|]. rewrite IH. lia.
Qed.

Lemma order_desc_sum {A} (rank f : A -> Z) l :
  sumZ (map f (Ledger.order_desc rank l)) = sumZ (map f l).
Proof.
  unfold Ledger.order_desc. induction l as [|x l IH]; [done|].
  cbn [fold_right map sumZ]. by rewrite insert_desc_sum, IH.
Qed.

(** The requests of the daily series, and those of the breakdown, add up to
    the number of rows inside the window. *)
Lemma windowed_series_count_the_window now days uid rows :
  sumZ (map Ledger.requests (Ledger.daily_query now days uid rows))
  = Z.of_nat (length (Ledger.in_window now days (Ledger.of_user uid rows)))
  /\ sumZ (map Ledger.request_count (Ledger.usage_query now days uid rows))
     = Z.of_nat (length (Ledger.in_window now days (Ledger.of_user uid rows))).
Proof.
  unfold Ledger.daily_query, Ledger.usage_query.
  rewrite !order_desc_sum, !map_map. cbn [Ledger.requests Ledger.request_count].
  split; apply group_by_sizes.
Qed.

(** So the total of the answer exceeds what its own series add up to as soon
    as the user has one row older than the window. *)
Lemma total_exceeds_the_window now days uid rows old :
  old ∈ Ledger.of_user uid rows ->
  timestamp old < now - days * Ledger.DAY ->
  sumZ (map Ledger.requests (Ledger.daily_query now days uid rows))
  < fst (Ledger.total_query uid rows).
Proof.
  intros Hin Hold.
  destruct (windowed_series_count_the_window now days uid rows) as [-> _].
  unfold Ledger.total_query, Ledger.in_window. cbn [fst].
  induction (Ledger.of_user uid rows) as [|r l IH]; [by apply elem_of_nil in Hin|].
  assert (Hle : forall l : list usage_row,
             Z.of_nat (length (List.filter
                                 (fun r => now - days * Ledger.DAY <=? timestamp r) l))
             <= Z.of_nat (length l)).
  { clear. induction l as [|r l IH]; cbn [List.filter]; [done|].
    destruct (_ <=? _); cbn [length]; lia. }
  cbn [List.filter].
  apply elem_of_cons in Hin as [<- | Hin].
  - destruct (Z.leb_spec (now - days * Ledger.DAY) (timestamp old)); [lia|].
    specialize (Hle l). cbn [length]. lia.
  - specialize (IH Hin). destruct (_ <=? _); cbn [length]; lia.
Qed.

(** The handler alone, handed the identity it is written for
    ([{user_id: 7}]): with rows dated today, 10 days ago and 40 days ago, the
    answer for a period of 30 days has two dates in its daily series and two
    requests in its breakdown, but its total counts all three rows and their
    700 tokens. *)
Lemma handler_total_is_not_windowed :
  exists report,
    fst (Router.usage quiet usage_request (World today [] [] [] [] three_rows))
    = Return {| Res.status := 200; Res.sent := Res.Report report |}
    /\ Usage.period report = u "30 days"
    /\ Usage.total_requests report = 3
    /\ Usage.total_tokens report = 700
    /\ map Ledger.date (Usage.dailyUsage report)
       = [today / Ledger.DAY; today / Ledger.DAY - 10]
    /\ map Ledger.requests (Usage.dailyUsage report) = [1; 1]
    /\ map Ledger.tokens (Usage.dailyUsage report) = [100; 200]
    /\ map Ledger.request_count (Usage.byFeature report) = [1; 1].
Proof. eexists. repeat split. Qed.

(** C1, at the failing input: the table holds three rows of user 7, dated
    today, 10 days ago and 40 days ago; user 7 signs in and asks for the
    usage of the last 30 days.  [authenticateToken] lets the request through
    with the identity [{id: 7, ...}], the limiter admits it, and the route
    answers 200 with no request, no token and no date at all: its three
    statements are given [req.user.user_id], which is [undefined]. *)
Theorem usage_of_a_signed_in_user_is_empty :
  let start := idle_with today three_rows in
  fst (Auth.authenticateToken one_user (App.authorization (usage_of "good" "30" today))
         (Limiter.app start))
  = Return (Auth.Next alice)
  /\ Forall (fun r => user_id r = 7) (ledger (Limiter.app start))
  /\ exists report,
       fst (App.handle one_user quiet (with_free_tier None)
              (usage_of "good" "30" today) start)
       = {| Res.status := 200; Res.sent := Res.Report report |}
       /\ Usage.period report = u "30 days"
       /\ Usage.total_requests report = 0
       /\ Usage.total_tokens report = 0
       /\ Usage.dailyUsage report = []
       /\ Usage.byFeature report = [].
Proof.
  split; [reflexivity|]. split; [by repeat constructor|].
  eexists. split; [vm_compute; reflexivity|]. by repeat split.
Qed.

(** ** The governor *)

Import Limiter.

Opaque u.

(** [serve] for a request with a user: the free-tier limiter counts it, and
    either the route runs or the limiter answers. *)
Lemma serve_user h e rt t req s :
  truthy (Req.user req) = true ->
  let key := user_key h (Req.user req) in
  let lim := freeTierLimiter h e in
  let b := hit (windowMs lim) t (freeTierStore s !! key) in
  serve h e rt t req s
  = if count b <=? max lim then
      (answer_of (fst (rt req (set_now t (app s)))),
       {| generalStore := generalStore s;
          freeTierStore := <[key := b]> (freeTierStore s);
          premiumTierStore := premiumTierStore s;
          app := snd (rt req (set_now t (app s))) |})
    else
      (ai_limit_exceeded,
       {| generalStore := generalStore s;
          freeTierStore := <[key := b]> (freeTierStore s);
          premiumTierStore := premiumTierStore s;
          app := warned req (set_now t (app s)) |}).
Proof.
  intros Huser key lim b. subst b lim key.
  unfold serve, aiRateLimiter. simpl. rewrite Huser. simpl.
  unfold rateLimit. simpl. rewrite Huser. simpl.
  fold (user_key h (Req.user req)). unfold warned, ai_limit_exceeded.
  destruct (count _ <=? _); simpl; [|reflexivity].
  by destruct (rt req (set_now t (app s))) as [[res|err] w'].
Qed.

Lemma hit_live W t start n :
  t < start + W ->
  hit W t (Some {| windowStart := start; count := n |})
  = {| windowStart := start; count := n + 1 |}.
Proof. intros. unfold hit. simpl. destruct (Z.leb_spec (start + W) t); [lia|done]. Qed.

Lemma hit_fresh W t (b : option bucket) :
  match b with Some b => windowStart b + W <= t | None => True end ->
  hit W t b = {| windowStart := t; count := 1 |}.
Proof.
  destruct b as [b|]; [|done]. intros. unfold hit.
  destruct (Z.leb_spec (windowStart b + W) t); [done|lia].
Qed.

(** While the count stays within the ceiling, the limiter lets every request
    of the window through and counts it. *)
Lemma serve_all_in_window h e user arrivals :
  forall s start n,
    truthy user = true ->
    freeTierStore s !! user_key h user = Some {| windowStart := start; count := n |} ->
    Forall (fun a => Req.user (request a) = user
                     /\ time a < start + windowMs (freeTierLimiter h e)) arrivals ->
    n + Z.of_nat (length arrivals) <= max (freeTierLimiter h e) ->
    let run := serve_all h e arrivals s in
    (fst run, app (snd run)) = run_all arrivals (app s)
    /\ freeTierStore (snd run) !! user_key h user
       = Some {| windowStart := start; count := n + Z.of_nat (length arrivals) |}.
Proof.
  induction arrivals as [|a rest IH]; intros s start n Huser Hb Hall Hn run; subst run.
  - simpl. split; [done|]. by rewrite Z.add_0_r.
  - apply Forall_cons in Hall as [[Hu Ht] Hall].
    cbn [serve_all run_all].
    rewrite serve_user by (by rewrite Hu).
    rewrite Hu, Hb, hit_live by exact Ht. cbn [count].
    cbn [length] in Hn.
    destruct (Z.leb_spec (n + 1) (max (freeTierLimiter h e))) as [_|Hlt]; [|lia].
    destruct (route a (request a) (set_now (time a) (app s))) as [answer w'] eqn:Ea.
    cbn [fst snd].
    set (s1 := {| generalStore := generalStore s;
                  freeTierStore := <[user_key h user :=
                                       {| windowStart := start; count := n + 1 |}]>
                                     (freeTierStore s);
                  premiumTierStore := premiumTierStore s;
                  app := w' |}).
    destruct (IH s1 start (n + 1) Huser) as [Hrun Hstore].
    + subst s1. cbn [freeTierStore]. apply lookup_insert_eq.
    + exact Hall.
    + lia.
    + destruct (serve_all h e rest s1) as [more s2].
      cbn [fst snd] in *. subst s1. cbn [app] in Hrun.
      destruct (run_all rest w') as [more' w2].
      injection Hrun as -> ->. split; [done|].
      rewrite Hstore. cbn [length]. do 2 f_equal. lia.
Qed.

(** From no live window, the first request opens one and the requests that
    follow within the ceiling all go through. *)
Lemma serve_all_opens_window h e user first others s :
  let lim := freeTierLimiter h e in
  let run := serve_all h e (first :: others) s in
  truthy user = true ->
  Forall (fun a => Req.user (request a) = user) (first :: others) ->
  match freeTierStore s !! user_key h user with
  | Some b => windowStart b + windowMs lim <= time first
  | None => True
  end ->
  Z.of_nat (length (first :: others)) <= max lim ->
  Forall (fun a => time a < time first + windowMs lim) others ->
  (fst run, app (snd run)) = run_all (first :: others) (app s)
  /\ freeTierStore (snd run) !! user_key h user
     = Some {| windowStart := time first;
               count := Z.of_nat (length (first :: others)) |}.
Proof.
  intros lim run Huser Hsame Hfresh Hlen Hwin. subst run.
  apply Forall_cons in Hsame as [Hfirst Hothers].
  cbn [serve_all run_all].
  rewrite serve_user by (by rewrite Hfirst).
  rewrite Hfirst, hit_fresh by exact Hfresh. cbn [count].
  fold lim. cbn [length] in Hlen.
  destruct (Z.leb_spec 1 (max lim)) as [_|]; [|lia].
  destruct (route first (request first) (set_now (time first) (app s)))
    as [answer w1] eqn:E1.
  cbn [fst snd].
  set (s1 := {| generalStore := generalStore s;
                freeTierStore := <[user_key h user :=
                                     {| windowStart := time first; count := 1 |}]>
                                   (freeTierStore s);
                premiumTierStore := premiumTierStore s;
                app := w1 |}).
  destruct (serve_all_in_window h e user others s1 (time first) 1 Huser) as [Hrun Hstore].
  { subst s1. cbn [freeTierStore]. apply lookup_insert_eq. }
  { apply Forall_forall. intros a Ha. split.
    - by apply (proj1 (Forall_forall _ _) Hothers).
    - by apply (proj1 (Forall_forall _ _) Hwin). }
  { fold lim. lia. }
  destruct (serve_all h e others s1) as [more sN] eqn:EN.
  cbn [fst snd] in *. subst s1. cbn [app] in Hrun.
  destruct (run_all others w1) as [more' wN].
  injection Hrun as -> ->. split; [done|].
  rewrite Hstore. cbn [length]. do 2 f_equal. lia.
Qed.

(** The requests of other callers, with or without a user, leave the
    caller's bucket alone. *)
Lemma other_callers_do_not_count h e rt t req s user :
  (truthy (Req.user req) = true -> user_key h (Req.user req) <> user_key h user) ->
  freeTierStore (snd (serve h e rt t req s)) !! user_key h user
  = freeTierStore s !! user_key h user.
Proof.
  intros Hother. destruct (truthy (Req.user req)) eqn:Huser.
  - rewrite serve_user by exact Huser.
    destruct (count _ <=? _); cbn [snd freeTierStore];
      by rewrite lookup_insert_ne by (by apply Hother).
  - unfold serve, aiRateLimiter. cbn [app generalStore freeTierStore premiumTierStore].
    rewrite Huser. cbn [negb]. unfold rateLimit.
    destruct (count _ <=? _); cbn [handler generalLimiter].
    + by destruct (rt req _) as [answer w'].
    + reflexivity.
Qed.

(** A caller whose requests all carry the same user, and whose key nobody
    else is counted under, is held to the free-tier ceiling N.  Starting
    from no live window for that key, the first N requests within 24 hours
    of the first run their routes as if there were no limiter; the next
    request within those 24 hours is answered 429, AI_RATE_LIMIT_EXCEEDED,
    and its route is not run: no call to a model or to the SDK and no usage
    row, only the warning in the log.  The first request after the window
    has elapsed runs its route again. *)
Lemma over_the_ceiling_until_the_window_elapses h e s user first others last next :
  let lim := freeTierLimiter h e in
  let run1 := serve_all h e (first :: others) s in
  let run2 := serve h e (route last) (time last) (request last) (snd run1) in
  let run3 := serve h e (route next) (time next) (request next) (snd run2) in
  1 <= max lim ->
  truthy user = true ->
  Forall (fun a => Req.user (request a) = user) (first :: others ++ [last; next]) ->
  match freeTierStore s !! user_key h user with
  | Some b => windowStart b + windowMs lim <= time first
  | None => True
  end ->
  Z.of_nat (length (first :: others)) = max lim ->
  Forall (fun a => time a < time first + windowMs lim) (others ++ [last]) ->
  time first + windowMs lim <= time next ->
  (fst run1, app (snd run1)) = run_all (first :: others) (app s)
  /\ fst run2 = ai_limit_exceeded
  /\ Res.status (fst run2) = 429
  /\ app (snd run2) = warned (request last) (set_now (time last) (app (snd run1)))
  /\ client_calls (app (snd run2)) = client_calls (app (snd run1))
  /\ model_calls (app (snd run2)) = model_calls (app (snd run1))
  /\ chat_calls (app (snd run2)) = chat_calls (app (snd run1))
  /\ ledger (app (snd run2)) = ledger (app (snd run1))
  /\ ([fst run3], app (snd run3)) = run_all [next] (app (snd run2)).
Proof.
  intros lim run1 run2 run3 Hmax Huser Hsame Hfresh Hlen Hwin Hnext.
  subst run3 run2 run1.
  assert (Hfo : Forall (fun a => Req.user (request a) = user) (first :: others)).
  { apply Forall_cons in Hsame as [Hfirst Hsame].
    apply Forall_app in Hsame as [Hothers _]. by constructor. }
  apply Forall_cons in Hsame as [_ Hsame].
  apply Forall_app in Hsame as [_ Hsame].
  apply Forall_cons in Hsame as [Hlast Hsame].
  apply Forall_cons in Hsame as [Hnextu _].
  apply Forall_app in Hwin as [Hwin Hlastt].
  apply Forall_cons in Hlastt as [Hlastt _].
  destruct (serve_all_opens_window h e user first others s Huser Hfo Hfresh
              ltac:(fold lim; lia) Hwin) as [Hrun Hstore].
  destruct (serve_all h e (first :: others) s) as [answers sN].
  cbn [fst snd] in *.
  split; [exact Hrun|].
  (* the request over the ceiling *)
  rewrite (serve_user h e (route last)) by (by rewrite Hlast).
  rewrite Hlast, Hstore, hit_live by exact Hlastt. cbn [count].
  fold lim. rewrite Hlen.
  destruct (Z.leb_spec (max lim + 1) (max lim)) as [Hle|_]; [lia|].
  cbn [fst snd app].
  repeat (split; [reflexivity|]).
  (* after the window *)
  rewrite serve_user by (by rewrite Hnextu).
  cbn [freeTierStore app]. rewrite Hnextu, lookup_insert_eq.
  rewrite hit_fresh by (cbn [windowStart]; fold lim; lia).
  cbn [count]. fold lim.
  destruct (Z.leb_spec 1 (max lim)) as [_|]; [|lia].
  cbn [run_all fst snd app].
  by destruct (route next (request next) _) as [a3 w3].
Qed.

Transparent u.

Lemma over_the_ceiling_until_the_window_elapses_witness :
  max (freeTierLimiter db_down two_a_day) = 2
  /\ let run1 := serve_all db_down two_a_day [asks_at 0; asks_at 1000] idle in
     let run2 := serve db_down two_a_day (route (asks_at 2000)) 2000 cat_request (snd run1) in
     Res.status (fst run2) = 429
     /\ client_calls (app (snd run2)) = client_calls (app (snd run1)).
Proof.
  split; [reflexivity|].
  destruct (over_the_ceiling_until_the_window_elapses db_down two_a_day idle
              (Req.user cat_request) (asks_at 0) [asks_at 1000] (asks_at 2000)
              (asks_at 86400000))
    as (_ & _ & Hstatus & _ & Hcalls & _).
  - vm_compute. discriminate.
  - reflexivity.
  - repeat constructor.
  - vm_compute. exact I.
  - reflexivity.
  - repeat constructor.
  - vm_compute. discriminate.
  - split; [exact Hstatus|exact Hcalls].
Defined.

(** C5, at the failing input: the ceiling of the free tier is 2, and two
    users are signed in.  Alice sends three requests within three
    milliseconds: two are served and the third is refused 429, as the claim
    says.  But Bob's first request, a millisecond later, is refused as well,
    although he has sent none before; and once Bob has sent two requests in
    the next window, Alice is refused again, although the window of her own
    three requests has elapsed.  The limiter counts every signed-in caller
    under the one key [user:undefined].  The refused requests consume no
    generation call: four calls of the model for seven requests. *)
Theorem signed_in_callers_share_one_quota :
  let arrivals :=
    [generation_of "good" 0; generation_of "good" 1; generation_of "good" 2;
     generation_of "bobs" 3;
     generation_of "bobs" AI_WINDOW; generation_of "bobs" (AI_WINDOW + 1);
     generation_of "good" (AI_WINDOW + 2)] in
  let run := App.handle_all two_users metered two_a_day arrivals idle in
  max (freeTierLimiter metered two_a_day) = 2
  /\ windowMs (freeTierLimiter metered two_a_day) = AI_WINDOW
  /\ map Res.status (fst run) = [200; 200; 429; 429; 200; 200; 429]
  /\ fst run !! 3%nat = Some ai_limit_exceeded
  /\ fst run !! 6%nat = Some ai_limit_exceeded
  /\ size (freeTierStore (snd run)) = 1%nat
  /\ freeTierStore (snd run) !! u "user:undefined"
     = Some {| windowStart := AI_WINDOW; count := 3 |}
  /\ length (model_calls (app (snd run))) = 4%nat.
Proof.
  cbv zeta. split; [reflexivity|]. split; [reflexivity|].
  assert (Hrun : exists answers s,
             App.handle_all two_users metered two_a_day
               [generation_of "good" 0; generation_of "good" 1; generation_of "good" 2;
                generation_of "bobs" 3;
                generation_of "bobs" AI_WINDOW; generation_of "bobs" (AI_WINDOW + 1);
                generation_of "good" (AI_WINDOW + 2)] idle = (answers, s)
             /\ map Res.status answers = [200; 200; 429; 429; 200; 200; 429]
             /\ answers !! 3%nat = Some ai_limit_exceeded
             /\ answers !! 6%nat = Some ai_limit_exceeded
             /\ size (freeTierStore s) = 1%nat
             /\ freeTierStore s !! u "user:undefined"
                = Some {| windowStart := AI_WINDOW; count := 3 |}
             /\ length (model_calls (app s)) = 4%nat).
  { eexists _, _. split; [vm_compute; reflexivity|]. vm_compute. by repeat split. }
  by destruct Hrun as (answers & s & -> & Hrest).
Qed.

(** * Further properties of the routes, the services and their callers *)

(** ** The routes: validation and errors *)

(** X1. A request that fails validation is answered 400 VALIDATION_ERROR
    with the validator's findings by each of the four generation routes, and
    nothing else happens: the service is not called, no usage row is written
    and nothing is logged. *)
Theorem validation_failure_costs_nothing h aiService req w :
  validationResult h (Req.body req) <> [] ->
  let refused :=
    (Return (Router.validation_error (validationResult h (Req.body req))), w) in
  Router.generate h aiService req w = refused
  /\ Router.grammar h aiService req w = refused
  /\ Router.enhance h aiService req w = refused
  /\ Router.titles h aiService req w = refused.
Proof.
  intros Hbad refused. subst refused.
  unfold Router.generate, Router.grammar, Router.enhance, Router.titles, try_catch.
  destruct (validationResult h (Req.body req)) as [|e errors]; [done|].
  by repeat split.
Qed.

Lemma validation_failure_costs_nothing_witness :
  let strict :=
    {| StringToNumber := StringToNumber quiet;
       ObjectToNumber := ObjectToNumber quiet;
       NumberToString := NumberToString quiet;
       ObjectToString := ObjectToString quiet;
       JSON_parse := JSON_parse quiet;
       upstream := upstream quiet;
       chat_upstream := chat_upstream quiet;
       query_fault := query_fault quiet;
       user_exists := user_exists quiet;
       post_exists := post_exists quiet;
       validationResult := fun _ => [vstr "Prompt must be between 10 and 2000 characters"] |} in
  Router.generate strict (GenAI.exports strict gemini) cat_request blank
  = (Return (Router.validation_error
               [vstr "Prompt must be between 10 and 2000 characters"]), blank).
Proof.
  intros strict.
  apply (validation_failure_costs_nothing strict (GenAI.exports strict gemini)
           cat_request blank).
  discriminate.
Defined.

Ltac answered_by_catch :=
  unfold bind, logger, ret; cbn beta iota;
  repeat match goal with
         | |- context [if ?b then _ else _] => destruct b
         end;
  eexists; (split; [reflexivity|]); simpl; tauto.

(** X2. No route lets an error escape: whatever the service does, and
    whatever the request and the state are, every route of the router ends
    with an answer.  Its status is 200, 400, 429 or 500; only the generation
    route can answer 503, and the usage route never answers 429. *)
Theorem every_route_answers h aiService req w :
  answers (Router.generate h aiService req w) [200; 400; 429; 500; 503]
  /\ answers (Router.grammar h aiService req w) [200; 400; 429; 500]
  /\ answers (Router.enhance h aiService req w) [200; 400; 429; 500]
  /\ answers (Router.titles h aiService req w) [200; 400; 429; 500]
  /\ answers (Router.usage h req w) [200; 400; 500].
Proof.
  unfold answers.
  split; [|split; [|split; [|split]]].
  - unfold Router.generate, try_catch.
    destruct (validationResult h (Req.body req));
      [|eexists; split; [reflexivity|]; simpl; tauto].
    unfold bind at 1, lift at 1.
    destruct (Router.destructure _); [|answered_by_catch].
    unfold bind at 1.
    destruct (generateContent aiService _ _ w) as [[r|e] w1]; [|answered_by_catch].
    unfold bind at 1, lift at 1.
    destruct (get (Req.user req) "user_id"); [|answered_by_catch].
    unfold bind at 1. rewrite logAIUsage_never_throws.
    destruct (fst (Ledger.insert _ _ _ _ _ _)); simpl;
      eexists; (split; [reflexivity|]); simpl; tauto.
  - unfold Router.grammar, try_catch.
    destruct (validationResult h (Req.body req));
      [|eexists; split; [reflexivity|]; simpl; tauto].
    unfold bind at 1, lift at 1.
    destruct (get (Req.body req) "text"); [|answered_by_catch].
    unfold bind at 1.
    destruct (correctGrammar aiService _ w) as [[r|e] w1]; [|answered_by_catch].
    unfold bind at 1, lift at 1.
    destruct (get (Req.user req) "user_id"); [|answered_by_catch].
    unfold bind at 1. rewrite logAIUsage_never_throws.
    destruct (fst (Ledger.insert _ _ _ _ _ _)); simpl;
      eexists; (split; [reflexivity|]); simpl; tauto.
  - unfold Router.enhance, try_catch.
    destruct (validationResult h (Req.body req));
      [|eexists; split; [reflexivity|]; simpl; tauto].
    unfold bind at 1, lift at 1.
    destruct (get (Req.body req) "text"); [|answered_by_catch].
    unfold bind at 1.
    destruct (enhanceContent aiService _ _ w) as [[r|e] w1]; [|answered_by_catch].
    unfold bind at 1, lift at 1.
    destruct (get (Req.user req) "user_id"); [|answered_by_catch].
    unfold bind at 1. rewrite logAIUsage_never_throws.
    destruct (fst (Ledger.insert _ _ _ _ _ _)); simpl;
      eexists; (split; [reflexivity|]); simpl; tauto.
  - unfold Router.titles, try_catch.
    destruct (validationResult h (Req.body req));
      [|eexists; split; [reflexivity|]; simpl; tauto].
    unfold bind at 1, lift at 1.
    destruct (Router.destructure _); [|answered_by_catch].
    unfold bind at 1.
    destruct (generateTitles aiService _ _ w) as [[r|e] w1]; [|answered_by_catch].
    unfold bind at 1, lift at 1.
    destruct (get (Req.user req) "user_id"); [|answered_by_catch].
    unfold bind at 1. rewrite logAIUsage_never_throws.
    destruct (fst (Ledger.insert _ _ _ _ _ _)); simpl;
      eexists; (split; [reflexivity|]); simpl; tauto.
  - unfold Router.usage, try_catch.
    unfold bind at 1, lift at 1.
    destruct (Router.destructure _); [|answered_by_catch].
    destruct (parseInt _ _); [|eexists; split; [reflexivity|]; simpl; tauto].
    destruct (_ || _); [eexists; split; [reflexivity|]; simpl; tauto|].
    unfold bind, lift, clock, Router.query, ret.
    destruct (get (Req.user req) "user_id"); [|answered_by_catch].
    destruct (query_fault h (ledger w)) eqn:E; [answered_by_catch|].
    destruct (Ledger.sql_integer _); cbn beta iota; rewrite ?E; cbn beta iota;
      try answered_by_catch; eexists; (split; [reflexivity|]); simpl; tauto.
Qed.

(** ** Reading back a printed number *)

Lemma digit_of_char (d : N) :
  (d < 10)%N ->
  is_digit (N_of_ascii (pretty_N_char d))
  /\ digit 10 (N_of_ascii (pretty_N_char d)) = Some (Z.of_N d).
Proof.
  intros Hd.
  assert (d = 0 \/ d = 1 \/ d = 2 \/ d = 3 \/ d = 4 \/ d = 5 \/ d = 6 \/ d = 7
          \/ d = 8 \/ d = 9)%N as H by lia.
  unfold is_digit.
  repeat (destruct H as [->|H]; [vm_compute; split; [split; discriminate|reflexivity]|]).
  subst d. vm_compute. split; [split; discriminate|reflexivity].
Qed.

Lemma u_String c s : u (String c s) = N_of_ascii c :: u s.
Proof. reflexivity. Qed.

Lemma printed_digits (x : N) (s : string) (rest : jsstring) :
  (0 < x)%N ->
  (exists c tail, u (pretty_N_go x s) = c :: tail /\ is_digit c)
  /\ (Forall is_digit (u s) -> Forall is_digit (u (pretty_N_go x s)))
  /\ digits 10 (u (pretty_N_go x s) ++ rest) None
     = digits 10 (u s ++ rest) (Some (Z.of_N x)).
Proof.
  revert s. induction (N.lt_wf_0 x) as [x _ IH]; intros s Hx.
  rewrite pretty_N_go_step by done.
  destruct (digit_of_char (x `mod` 10)) as [Hc Hd]; [by apply N.mod_lt|].
  destruct (N.eq_0_gt_0_cases (x `div` 10)) as [H0|Hpos].
  - rewrite H0, pretty_N_go_0, u_String.
    split; [by eexists _, _|]. split; [by constructor|].
    rewrite <- app_comm_cons. cbn [digits]. rewrite Hd. cbn [default]. do 2 f_equal.
    pose proof (N.div_mod x 10 ltac:(done)) as Hx10. rewrite H0 in Hx10.
    rewrite Hx10 at 2. lia.
  - destruct (IH (x `div` 10)%N) with (s := String (pretty_N_char (x `mod` 10)) s)
      as (Hhead & Hall & Hrun); [by apply N.div_lt|done|].
    split; [done|]. split.
    + intros Hs. apply Hall. rewrite u_String. by constructor.
    + rewrite Hrun, u_String, <- app_comm_cons. cbn [digits]. rewrite Hd. cbn [default].
      do 2 f_equal. pose proof (N.div_mod x 10 ltac:(done)) as Hx10.
      unfold id. rewrite Hx10 at 3. rewrite N2Z.inj_add, N2Z.inj_mul.
      change (Z.of_N 10) with 10. reflexivity.
Qed.

(** What [String(n)] gives for a non-negative integer: a digit, then digits
    only, and [digits] reads the number back, stopping where they end. *)
Lemma printed (z : Z) (rest : jsstring) :
  0 <= z ->
  (exists c tail, u (pretty z) = c :: tail /\ is_digit c /\ Forall is_digit tail)
  /\ digits 10 (u (pretty z) ++ rest) None = digits 10 rest (Some z).
Proof.
  intros Hz. destruct z as [|p|p]; [| |lia].
  { split; [|reflexivity].
    exists 48%N, []. split; [reflexivity|]. split; [|constructor].
    unfold is_digit. lia. }
  change (pretty (Z.pos p)) with (pretty_N_go (N.pos p) EmptyString).
  destruct (printed_digits (N.pos p) EmptyString rest) as ((c & tail & Hu & Hc) & Hall & Hrun);
    [done|].
  split.
  - exists c, tail. split; [done|]. split; [done|].
    specialize (Hall (Forall_nil_2 _)). rewrite Hu in Hall.
    by apply Forall_cons in Hall as [_ ?].
  - by rewrite Hrun.
Qed.


Ltac digit_cases c H :=
  let E := fresh in
  assert (c = 48 \/ c = 49 \/ c = 50 \/ c = 51 \/ c = 52 \/ c = 53 \/ c = 54
          \/ c = 55 \/ c = 56 \/ c = 57)%N as E by (unfold is_digit in H; lia);
  repeat (destruct E as [->|E]); [..|subst c].


Lemma parseInt_digits_no_radix (c : jschar) (tail : jsstring) :
  is_digit c ->
  match tail with [] => True | c2 :: _ => is_digit c2 end ->
  parseInt (c :: tail) None = digits 10 (c :: tail) None.
Proof.
  intros Hc Htail. unfold parseInt.
  destruct tail as [|c2 tail].
  - digit_cases c Hc; reflexivity.
  - digit_cases c Hc; cbn [trimStart is_space]; cbn -[digits];
      try (by destruct (digits _ _ _)).
    digit_cases c2 Htail; cbn -[digits]; by destruct (digits _ _ _).
Qed.


(** [parseInt(String(n))], without a radix. *)
Lemma parseInt_printed_no_radix (z : Z) :
  0 <= z -> parseInt (u (pretty z)) None = Some z.
Proof.
  intros Hz.
  destruct (printed z [] Hz) as ((c & tail & Hu & Hc & Htail) & Hrun).
  rewrite app_nil_r in Hrun. cbn [digits] in Hrun.
  rewrite Hu in *. rewrite parseInt_digits_no_radix; [done..|].
  destruct tail; [done|]. by apply Forall_cons in Htail as [? _].
Qed.

(** ** The usage route: the period *)

(** X3. The usage route answers 400 INVALID_PERIOD exactly when the period
    does not parse as a number or lies outside 1..365, and then it touches
    nothing: no statement is sent to the database and nothing is logged. *)
Theorem period_outside_1_to_365_is_refused h req w :
  nullish (Req.query req) = false ->
  (in_range (period_of h req) = false ->
   Router.usage h req w = (Return Router.invalid_period, w))
  /\ (in_range (period_of h req) = true ->
      fst (Router.usage h req w) <> Return Router.invalid_period).
Proof.
  intros Hq. unfold in_range, Router.usage, try_catch.
  unfold bind, lift, Router.destructure, clock, Router.query, ret.
  rewrite Hq. cbn beta iota zeta. fold (period_of h req).
  destruct (period_of h req) as [d|]; [|by split].
  assert (Hd : (1 <=? d) && (d <=? 365) = negb ((d <? 1) || (365 <? d))).
  { destruct (Z.leb_spec 1 d), (Z.leb_spec d 365), (Z.ltb_spec d 1),
      (Z.ltb_spec 365 d); try lia; reflexivity. }
  rewrite Hd. destruct ((d <? 1) || (365 <? d)); [by split|].
  split; [done|intros _].
  unfold Router.invalid_period, Router.failure, logger.
  destruct (get (Req.user req) "user_id"); [|by intros [=]].
  destruct (query_fault h (ledger w)) eqn:E; [by intros [=]|].
  destruct (Ledger.sql_integer _); cbn beta iota; rewrite ?E; cbn beta iota;
    by intros [=].
Qed.

Lemma period_outside_1_to_365_is_refused_witness :
  Router.usage quiet (asks_usage (vstr "0")) blank = (Return Router.invalid_period, blank)
  /\ Router.usage quiet (asks_usage (vstr "366")) blank
     = (Return Router.invalid_period, blank)
  /\ Router.usage quiet (asks_usage (vstr "soon")) blank
     = (Return Router.invalid_period, blank)
  /\ fst (Router.usage quiet (asks_usage (vstr "365")) blank)
     <> Return Router.invalid_period.
Proof.
  split; [|split; [|split]].
  - exact (proj1 (period_outside_1_to_365_is_refused quiet (asks_usage (vstr "0")) blank
                    eq_refl) eq_refl).
  - exact (proj1 (period_outside_1_to_365_is_refused quiet (asks_usage (vstr "366")) blank
                    eq_refl) eq_refl).
  - exact (proj1 (period_outside_1_to_365_is_refused quiet (asks_usage (vstr "soon")) blank
                    eq_refl) eq_refl).
  - exact (proj2 (period_outside_1_to_365_is_refused quiet (asks_usage (vstr "365")) blank
                    eq_refl) eq_refl).
Defined.



(** X5. When the database refuses a statement of the usage route, the
    caller gets 500 AI_USAGE_ERROR, the error is logged once and the table
    is as it was. *)
Theorem usage_database_fault_answers_500 h req w err :
  nullish (Req.query req) = false ->
  in_range (period_of h req) = true ->
  nullish (Req.user req) = false ->
  query_fault h (ledger w) = Some err ->
  Router.usage h req w
  = (Return (Router.failure 500 "AI_USAGE_ERROR" (vstr "Failed to fetch AI usage data")),
     usage_error_logged err w).
Proof.
  intros Hq Hp Hu Hf. unfold period_of, in_range in Hp.
  unfold Router.usage, try_catch.
  unfold bind at 1, lift at 1, Router.destructure. rewrite Hq. cbn beta iota zeta.
  destruct (parseInt _ _) as [d|]; [|done].
  destruct (Z.leb_spec 1 d), (Z.leb_spec d 365), (Z.ltb_spec d 1), (Z.ltb_spec 365 d);
    try lia; try done; cbn [orb].
  unfold bind, lift, clock, Router.query, ret, get. rewrite Hu, Hf. reflexivity.
Qed.

Lemma usage_database_fault_answers_500_witness :
  Router.usage db_down usage_request blank
  = (Return (Router.failure 500 "AI_USAGE_ERROR" (vstr "Failed to fetch AI usage data")),
     usage_error_logged connection_lost blank).
Proof.
  exact (usage_database_fault_answers_500 db_down usage_request blank connection_lost
           eq_refl eq_refl eq_refl eq_refl).
Defined.

(** ** The usage route: whose rows, and which *)



Lemma Qred_inject_Z z : Qred (inject_Z z) = inject_Z z.
Proof.
  unfold Qred, inject_Z.
  pose proof (Z.ggcd_gcd z 1) as Hg. pose proof (Z.ggcd_correct_divisors z 1) as Hd.
  destruct (Z.ggcd z 1) as [g [a b]]. cbn [fst snd] in *.
  rewrite Z.gcd_1_r in Hg. subst g. destruct Hd as [Ha Hb].
  assert (a = z) as -> by lia. assert (b = 1) as -> by lia. reflexivity.
Qed.

Lemma sql_integer_vint z :
  - 2147483648 <= z <= 2147483647 -> Ledger.sql_integer (vint z) = Ledger.SqlInt z.
Proof.
  intros Hz. unfold Ledger.sql_integer, Ledger.in_int4, vint, int.
  rewrite Qred_inject_Z. cbn [inject_Z Qnum Qden].
  destruct (Z.leb_spec (- 2147483648) z), (Z.leb_spec z 2147483647); try lia.
  reflexivity.
Qed.

Lemma or_zero_vint z : or (vint z) (vint 0) = vint z.
Proof.
  unfold or, vint, int, truthy, number_truthy, inject_Z. cbn [Qnum].
  destruct (Z.eqb_spec z 0) as [->|]; reflexivity.
Qed.


Lemma sum_tokens_app l1 l2 :
  Ledger.sum_tokens (l1 ++ l2) = Ledger.sum_tokens l1 + Ledger.sum_tokens l2.
Proof.
  unfold Ledger.sum_tokens. induction l1 as [|r l1 IH]; [done|].
  rewrite <- app_comm_cons. cbn [fold_right]. lia.
Qed.



(** ** The usage series *)

Lemma insert_desc_perm {A} (rank : A -> Z) x l :
  Ledger.insert_desc rank x l ≡ₚ x :: l.
Proof.
  induction l as [|y l IH]; [done|]. cbn [Ledger.insert_desc].
  destruct (rank y <? rank x); [done|]. rewrite IH. apply Permutation_swap.
Qed.

Lemma order_desc_perm {A} (rank : A -> Z) l : Ledger.order_desc rank l ≡ₚ l.
Proof.
  unfold Ledger.order_desc. induction l as [|x l IH]; [done|].
  cbn [fold_right]. by rewrite insert_desc_perm, IH.
Qed.

Lemma insert_desc_sorted {A} (rank : A -> Z) x l :
  non_increasing (map rank l) -> non_increasing (map rank (Ledger.insert_desc rank x l)).
Proof.
  induction l as [|y l IH]; [by repeat constructor|].
  cbn [map non_increasing Ledger.insert_desc]. intros [Hall Hl].
  destruct (Z.ltb_spec (rank y) (rank x)); cbn [map non_increasing].
  - repeat split; [|done..]. constructor; [lia|].
    eapply Forall_impl; [exact Hall|]. cbn. lia.
  - split; [|by apply IH].
    rewrite insert_desc_perm. cbn [map]. by constructor.
Qed.

Lemma order_desc_sorted {A} (rank : A -> Z) l :
  non_increasing (map rank (Ledger.order_desc rank l)).
Proof.
  unfold Ledger.order_desc. induction l as [|x l IH]; [done|].
  cbn [fold_right]. by apply insert_desc_sorted.
Qed.

Lemma non_increasing_NoDup l : non_increasing l -> NoDup l -> descending l.
Proof.
  induction l as [|x l IH]; [done|]. cbn [non_increasing descending].
  intros [Hall Hl] [Hx Hnd]%NoDup_cons. split; [|by apply IH].
  rewrite Forall_forall in *. intros y Hy. specialize (Hall y Hy).
  assert (y <> x) by (intros ->; by apply Hx, list_elem_of_In). lia.
Qed.

Section Groups.
Context {K : Type} (eqb : K -> K -> bool).
Hypothesis eqb_eq : forall a b, eqb a b = true <-> a = b.

Lemma add_to_group_keys k r groups x :
  x ∈ map fst (Ledger.add_to_group eqb k r groups) -> x = k \/ x ∈ map fst groups.
Proof.
  induction groups as [|[k' rs] rest IH]; cbn [Ledger.add_to_group map fst].
  - intros ->%list_elem_of_singleton. by left.
  - destruct (eqb k' k); cbn [map fst]; [by right|].
    intros [->|Hin]%elem_of_cons; [right; by left|].
    destruct (IH Hin); [by left|right; by right].
Qed.

Lemma add_to_group_NoDup k r groups :
  NoDup (map fst groups) -> NoDup (map fst (Ledger.add_to_group eqb k r groups)).
Proof.
  induction groups as [|[k' rs] rest IH]; cbn [Ledger.add_to_group map fst].
  - intros _. apply NoDup_singleton.
  - intros [Hk' Hrest]%NoDup_cons.
    destruct (eqb k' k) eqn:E; cbn [map fst]; [by apply NoDup_cons|].
    apply NoDup_cons. split; [|by apply IH].
    intros [->|Hin]%add_to_group_keys; [|done].
    assert (eqb k k = true) by by apply eqb_eq. congruence.
Qed.

Lemma add_to_group_nonempty k r groups :
  Forall (fun g => snd g <> []) groups ->
  Forall (fun g : K * list usage_row => snd g <> []) (Ledger.add_to_group eqb k r groups).
Proof.
  induction groups as [|[k' rs] rest IH]; cbn [Ledger.add_to_group].
  - intros _. by repeat constructor.
  - intros [Hrs Hrest]%Forall_cons. destruct (eqb k' k).
    + constructor; [|done]. cbn. by destruct rs.
    + constructor; [done|by apply IH].
Qed.

Lemma add_to_group_tokens k r groups :
  sumZ (map (fun g => Ledger.sum_tokens (snd g)) (Ledger.add_to_group eqb k r groups))
  = sumZ (map (fun g => Ledger.sum_tokens (snd g)) groups) + tokens_used r.
Proof.
  induction groups as [|[k' rs] rest IH]; cbn [Ledger.add_to_group map sumZ snd].
  - cbn. lia.
  - destruct (eqb k' k); cbn [map sumZ snd].
    + rewrite sum_tokens_app. cbn. lia.
    + rewrite IH. lia.
Qed.

Lemma group_by_facts key rows :
  let groups := Ledger.group_by eqb key rows in
  NoDup (map fst groups)
  /\ Forall (fun g => snd g <> []) groups
  /\ sumZ (map (fun g => Ledger.sum_tokens (snd g)) groups) = Ledger.sum_tokens rows.
Proof.
  unfold Ledger.group_by.
  assert (Hacc : forall acc,
             NoDup (map fst acc) -> Forall (fun g => snd g <> []) acc ->
             let groups := fold_left (fun groups r =>
                                        Ledger.add_to_group eqb (key r) r groups) rows acc in
             NoDup (map fst groups)
             /\ Forall (fun g => snd g <> []) groups
             /\ sumZ (map (fun g => Ledger.sum_tokens (snd g)) groups)
                = sumZ (map (fun g => Ledger.sum_tokens (snd g)) acc)
                  + Ledger.sum_tokens rows).
  { induction rows as [|r rows IH]; intros acc Hnd Hne; cbn [fold_left].
    - repeat split; [done..|]. cbn. lia.
    - destruct (IH (Ledger.add_to_group eqb (key r) r acc)) as (H1 & H2 & H3);
        [by apply add_to_group_NoDup|by apply add_to_group_nonempty|].
      repeat split; [done..|]. cbn zeta in H3. rewrite H3, add_to_group_tokens.
      cbn [Ledger.sum_tokens fold_right]. unfold Ledger.sum_tokens. lia. }
  destruct (Hacc []) as (H1 & H2 & H3); [constructor|constructor|].
  by repeat split.
Qed.

End Groups.

Lemma length_nonempty {A} (l : list A) : l <> [] -> 1 <= Z.of_nat (length l).
Proof. destruct l; [done|]. cbn [length]. lia. Qed.

(** X8. The daily series has one entry per day, newest first, and the
    breakdown has one entry per feature, busiest first; no entry of either
    stands for zero requests. *)
Theorem usage_series_are_ordered now days uid rows :
  let daily := Ledger.daily_query now days uid rows in
  let byFeature := Ledger.usage_query now days uid rows in
  descending (map Ledger.date daily)
  /\ Forall (fun d => 1 <= Ledger.requests d) daily
  /\ non_increasing (map Ledger.request_count byFeature)
  /\ NoDup (map Ledger.feature byFeature)
  /\ Forall (fun f => 1 <= Ledger.request_count f) byFeature.
Proof.
  intros daily byFeature. subst daily byFeature.
  unfold Ledger.daily_query, Ledger.usage_query.
  set (window := Ledger.in_window now days (Ledger.of_user uid rows)).
  destruct (group_by_facts Z.eqb Z.eqb_eq (fun r => timestamp r / Ledger.DAY) window)
    as (Hdays & Hsome & _).
  destruct (group_by_facts key_eqb (fun a b => bool_decide_eq_true (a = b))
              feature_type window) as (Hfeatures & Hsome' & _).
  cbn zeta in *.
  split; [|split; [|split; [|split]]].
  - apply non_increasing_NoDup; [apply order_desc_sorted|].
    rewrite order_desc_perm, map_map. exact Hdays.
  - rewrite order_desc_perm, Forall_map.
    eapply Forall_impl; [exact Hsome|]. intros g. cbn. apply length_nonempty.
  - apply order_desc_sorted.
  - rewrite order_desc_perm, map_map. exact Hfeatures.
  - rewrite order_desc_perm, Forall_map.
    eapply Forall_impl; [exact Hsome'|]. intros g. cbn. apply length_nonempty.
Qed.


(** ** The GenAI service behind the routes *)

(** X10. Without a configured client no route reaches the provider: the
    generation route answers 503 AI_SERVICE_UNAVAILABLE, the other three
    answer 500 (they have no 503 branch), the SDK is never called and no
    usage row is written. *)
Theorem unconfigured_client_is_answered_without_a_call h this req w :
  GenAI.client this = false ->
  validationResult h (Req.body req) = [] ->
  nullish (Req.body req) = false ->
  let service := GenAI.exports h this in
  let untouched (run : completion Res.t * world) (answer : Res.t) :=
    fst run = Return answer
    /\ client_calls (snd run) = client_calls w
    /\ ledger (snd run) = ledger w in
  untouched (Router.generate h service req w)
    (Router.failure 503 "AI_SERVICE_UNAVAILABLE"
       (vstr "Failed to generate content (Gemini/GenAI)"))
  /\ untouched (Router.enhance h service req w)
       (Router.failure 500 "AI_ENHANCE_ERROR" (vstr "Failed to enhance content"))
  /\ untouched (Router.titles h service req w)
       (Router.failure 500 "AI_TITLES_ERROR" (vstr "Failed to generate titles"))
  /\ (forall s, prop (Req.body req) (u "text") = VStr s -> trim s <> [] ->
      untouched (Router.grammar h service req w)
        (Router.failure 500 "AI_GRAMMAR_ERROR" (vstr "Failed to correct grammar"))).
Proof.
  intros Hclient Hvalid Hbody service untouched. subst service untouched.
  cbv beta.
  split; [|split; [|split]].
  - unfold Router.generate, try_catch, bind, lift, Router.destructure.
    rewrite Hvalid, Hbody. cbn [generateContent GenAI.exports].
    unfold GenAI.generateContent, try_catch, bind, GenAI._callModel.
    rewrite Hclient. cbn. repeat split.
  - unfold Router.enhance, try_catch, bind, lift, get.
    rewrite Hvalid, Hbody. cbn [enhanceContent GenAI.exports].
    unfold GenAI.enhanceContent, try_catch, bind, GenAI._callModel.
    rewrite Hclient. cbn. repeat split.
  - unfold Router.titles, try_catch, bind, lift, Router.destructure.
    rewrite Hvalid, Hbody. cbn [generateTitles GenAI.exports].
    unfold GenAI.generateTitles, try_catch, bind, GenAI._callModel.
    rewrite Hclient. cbn. repeat split.
  - intros s Htext Hs.
    unfold Router.grammar, try_catch, bind, lift, get.
    rewrite Hvalid, Hbody, Htext. cbn [correctGrammar GenAI.exports].
    unfold GenAI.correctGrammar, try_catch, bind, GenAI._callModel.
    rewrite Hclient.
    destruct s as [|c s]; [done|]. destruct (trim (c :: s)) eqn:E; [done|].
    cbn. repeat split.
Qed.

Lemma unconfigured_client_is_answered_without_a_call_witness :
  fst (Router.generate quiet
         (GenAI.exports quiet (GenAI.constructor false None None None None))
         cat_request blank)
  = Return (Router.failure 503 "AI_SERVICE_UNAVAILABLE"
              (vstr "Failed to generate content (Gemini/GenAI)")).
Proof.
  exact (proj1 (proj1 (unconfigured_client_is_answered_without_a_call quiet
                         (GenAI.constructor false None None None None)
                         cat_request blank eq_refl eq_refl eq_refl))).
Defined.

(** The service never touches the usage table or the clock. *)
Lemma callModel_frame h this model contents t m w :
  ledger (snd (GenAI._callModel h this model contents t m w)) = ledger w
  /\ now (snd (GenAI._callModel h this model contents t m w)) = now w.
Proof.
  rewrite callModel_world.
  by destruct (sent_rest this (the_call model contents t m) w) as (-> & _ & -> & _).
Qed.

Ltac frame_call :=
  match goal with
  | |- context [GenAI._callModel ?h ?this ?m ?c ?t ?k ?w] =>
      let H := fresh "Hframe" in
      pose proof (callModel_frame h this m c t k w) as H;
      destruct (GenAI._callModel h this m c t k w) as [[?|?] ?];
      cbn [fst snd] in H; destruct H
  end;
  repeat match goal with
         | H : context [ledger (set_logs _ _)] |- _ => cbn [ledger set_logs] in H
         end.

Lemma GenAI_frame h this :
  (forall prompt options w,
     ledger (snd (GenAI.generateContent h this prompt options w)) = ledger w)
  /\ (forall text w, ledger (snd (GenAI.correctGrammar h this text w)) = ledger w)
  /\ (forall text type w,
        ledger (snd (GenAI.enhanceContent h this text type w)) = ledger w)
  /\ (forall content count w,
        ledger (snd (GenAI.generateTitles h this content count w)) = ledger w).
Proof.
  split; [|split; [|split]].
  - intros. unfold GenAI.generateContent, try_catch, bind.
    frame_call; cbn; [congruence|]. frame_call; cbn; congruence.
  - intros txt w. unfold GenAI.correctGrammar, GenAI.emptyGrammar, try_catch, bind.
    destruct txt;
      repeat match goal with
             | |- context [if ?b then _ else _] => destruct b
             end; try reflexivity.
    frame_call; cbn; congruence.
  - intros. unfold GenAI.enhanceContent, try_catch, bind.
    frame_call; cbn; [congruence|]. frame_call; cbn; congruence.
  - intros. unfold GenAI.generateTitles, try_catch, bind.
    frame_call; cbn; [congruence|]. frame_call; cbn; congruence.
Qed.

Lemma attempt_rejected h this c w err :
  GenAI.client this = true ->
  (forall history c, upstream h history c = Throw err) ->
  attempt h this c w = Throw (GenAI.normalize_error h err).
Proof.
  intros Hclient Hup. unfold attempt, GenAI._callModel.
  rewrite Hclient. cbn [negb]. by rewrite Hup.
Qed.

Lemma normalize_quota h err s :
  truthy (oprop err "status") = false ->
  truthy (oprop err "code") = false ->
  oprop err "message" = VStr s ->
  includes s (u "quota") = true ->
  GenAI.normalize_error h err
  = new_Error h (VStr s) [(u "status", vint 429); (u "raw", err)].
Proof.
  intros Hs Hc Hm Hq. unfold GenAI.normalize_error.
  rewrite Hs, Hc, Hm. cbn [GenAI.message_includes_quota]. rewrite Hq.
  destruct s as [|c s]; [done|]. reflexivity.
Qed.

(** X11. When the provider refuses every call with an error that carries
    no status and no code but mentions [quota], the caller is answered 429
    AI_QUOTA_EXCEEDED by the generation, enhancement and title routes (with
    the provider's own message except for generation), and no usage row is
    written. *)
Theorem quota_refusal_is_answered_429 h this req w err s :
  GenAI.client this = true ->
  validationResult h (Req.body req) = [] ->
  nullish (Req.body req) = false ->
  (forall history c, upstream h history c = Throw err) ->
  truthy (oprop err "status") = false ->
  truthy (oprop err "code") = false ->
  oprop err "message" = VStr s ->
  includes s (u "quota") = true ->
  let service := GenAI.exports h this in
  let refused (run : completion Res.t * world) (message : value) :=
    fst run = Return (Router.failure 429 "AI_QUOTA_EXCEEDED" message)
    /\ ledger (snd run) = ledger w in
  refused (Router.generate h service req w)
          (vstr "Failed to generate content (Gemini/GenAI)")
  /\ refused (Router.enhance h service req w) (VStr s)
  /\ refused (Router.titles h service req w) (VStr s).
Proof.
  intros Hclient Hvalid Hbody Hup Hs Hc Hm Hq service refused.
  subst service refused. cbv beta.
  pose proof (normalize_quota h err s Hs Hc Hm Hq) as Hn.
  assert (Hne : exists c s', s = c :: s').
  { destruct s as [|c s']; [done|]. by eexists _, _. }
  destruct Hne as (c & s' & ->).
  destruct (GenAI_frame h this) as (Fg & _ & Fe & Ft).
  split; [|split].
  - unfold Router.generate, try_catch, bind, lift, Router.destructure.
    rewrite Hvalid, Hbody. cbn [generateContent GenAI.exports].
    match goal with
    | |- context [GenAI.generateContent h this ?p ?o w] =>
        destruct (generateContent_fallback h this p o w _
                    (attempt_rejected h this _ w err Hclient Hup)) as (_ & _ & Hrun);
        specialize (Fg p o w);
        destruct (GenAI.generateContent h this p o w) as [r w1]
    end.
    cbn [fst snd] in *. rewrite (attempt_rejected h this _ _ err Hclient Hup) in Hrun.
    subst r. rewrite Hn. split; [reflexivity|exact Fg].
  - unfold Router.enhance, try_catch, bind, lift, get.
    rewrite Hvalid, Hbody. cbn [enhanceContent GenAI.exports].
    match goal with
    | |- context [GenAI.enhanceContent h this ?p ?o w] =>
        destruct (enhanceContent_fallback h this p o w _
                    (attempt_rejected h this _ w err Hclient Hup)) as (_ & _ & Hrun);
        specialize (Fe p o w);
        destruct (GenAI.enhanceContent h this p o w) as [r w1]
    end.
    cbn [fst snd] in *. rewrite (attempt_rejected h this _ _ err Hclient Hup) in Hrun.
    subst r. rewrite Hn. split; [reflexivity|exact Fe].
  - unfold Router.titles, try_catch, bind, lift, Router.destructure.
    rewrite Hvalid, Hbody. cbn [generateTitles GenAI.exports].
    match goal with
    | |- context [GenAI.generateTitles h this ?p ?o w] =>
        destruct (generateTitles_fallback h this p o w _
                    (attempt_rejected h this _ w err Hclient Hup)) as (_ & _ & Hrun);
        specialize (Ft p o w);
        destruct (GenAI.generateTitles h this p o w) as [r w1]
    end.
    cbn [fst snd] in *. rewrite (attempt_rejected h this _ _ err Hclient Hup) in Hrun.
    subst r. rewrite Hn. split; [reflexivity|exact Ft].
Qed.

Lemma quota_refusal_is_answered_429_witness :
  let err := VObj [(u "message", vstr "You exceeded your current quota")] in
  let provider := with_upstream (fun _ _ => Throw err) in
  fst (Router.generate provider (GenAI.exports provider gemini) cat_request blank)
  = Return (Router.failure 429 "AI_QUOTA_EXCEEDED"
              (vstr "Failed to generate content (Gemini/GenAI)")).
Proof.
  intros err provider.
  exact (proj1 (proj1 (quota_refusal_is_answered_429 provider gemini cat_request blank
                         err (u "You exceeded your current quota")
                         eq_refl eq_refl eq_refl (fun _ _ => eq_refl)
                         eq_refl eq_refl eq_refl eq_refl))).
Defined.

Lemma callModel_answered h this model contents t m w res :
  GenAI.client this = true ->
  upstream h (client_calls w) (the_call model contents t m) = Return res ->
  GenAI._callModel h this model contents t m w
  = (Return {| GenAI.Response.text := ToString h (GenAI.response_text res);
               GenAI.Response.tokensUsed := GenAI.response_tokens h res;
               GenAI.Response.raw := res |},
     sent this (the_call model contents t m) w).
Proof.
  intros Hclient Hup. rewrite callModel_eq. f_equal.
  unfold GenAI._callModel. rewrite Hclient. cbn [negb].
  fold (the_call model contents t m). by rewrite Hup.
Qed.

(** X12. A correction of a text that is not blank makes one call, at
    temperature 0 and with a ceiling between 300 and 1200 tokens (half the
    length of the text, rounded up, when that lies in between); what comes
    back is trimmed, and the list of changes is always empty. *)
Theorem correction_is_trimmed_and_lists_no_changes h this s w res :
  GenAI.client this = true ->
  trim s <> [] ->
  upstream h (client_calls w) (correctGrammar_call this s) = Return res ->
  let run := GenAI.correctGrammar h this (VStr s) w in
  exists r corrected ceiling,
    fst run = Return r
    /\ Grammar.changes r = VArr []
    /\ Grammar.correctedText r = VStr corrected
    /\ trim corrected = corrected
    /\ model_calls (snd run)
       = model_calls w
           ++ [Call (GenAI.defaultModel this) (VStr (GenAI.grammarPrompt s))
                    (vint 0) (vint ceiling)]
    /\ 300 <= ceiling <= 1200
    /\ (600 <= Z.of_nat (length s) <= 2400 ->
        ceiling = (Z.of_nat (length s) + 1) / 2).
Proof.
  intros Hclient Hs Hup run. subst run.
  unfold GenAI.correctGrammar.
  destruct s as [|c s]; [done|]. destruct (trim (c :: s)) eqn:E; [done|].
  cbn [truthy negb orb]. unfold try_catch, bind.
  rewrite (callModel_answered h this _ _ _ _ _ res) by done.
  unfold clock, ret. cbn beta iota.
  eexists _, _, (GenAI.grammarMaxTokens (c :: s)).
  split; [reflexivity|]. split; [reflexivity|]. split; [reflexivity|].
  split; [apply trim_idempotent|].
  split; [cbn [snd]; by rewrite sent_model_calls|].
  unfold GenAI.grammarMaxTokens. split; [lia|].
  intros Hlen.
  pose proof (Z.div_mod (Z.of_nat (length (c :: s)) + 1) 2 ltac:(lia)) as Hd.
  pose proof (Z.mod_pos_bound (Z.of_nat (length (c :: s)) + 1) 2 ltac:(lia)) as Hm.
  lia.
Qed.

Lemma correction_is_trimmed_and_lists_no_changes_witness :
  let provider :=
    with_upstream (fun _ _ => Return (VObj [(u "text", vstr "  Cats sleep a lot. ")])) in
  let run := GenAI.correctGrammar provider gemini (vstr "cats sleeps alot") blank in
  exists r corrected ceiling,
    fst run = Return r
    /\ Grammar.changes r = VArr []
    /\ Grammar.correctedText r = VStr corrected
    /\ trim corrected = corrected
    /\ model_calls (snd run)
       = [Call (GenAI.defaultModel gemini)
               (VStr (GenAI.grammarPrompt (u "cats sleeps alot"))) (vint 0) (vint ceiling)]
    /\ 300 <= ceiling <= 1200
    /\ (600 <= 16 <= 2400 -> ceiling = (16 + 1) / 2).
Proof.
  intros provider.
  exact (correction_is_trimmed_and_lists_no_changes provider gemini
           (u "cats sleeps alot") blank _ eq_refl ltac:(discriminate) eq_refl).
Defined.

(** ** The governor's wiring *)

(** X13. The premium tier is never applied: whatever
    AI_RATE_LIMIT_PREMIUM_TIER is set to, every request is served the same
    way, and the counters of the premium limiter are never touched. *)
Theorem premium_tier_is_never_applied h e premium rt t req s :
  serve h (with_premium_tier e premium) rt t req s = serve h e rt t req s
  /\ premiumTierStore (snd (serve h e rt t req s)) = premiumTierStore s.
Proof.
  split; [reflexivity|].
  unfold serve, aiRateLimiter.
  destruct (truthy (Req.user req)); cbn [negb].
  - destruct (rateLimit _ _ _ _) as [[[a|] | err] [store w]]; cbn;
      try destruct (rt req _) as [[]]; reflexivity.
  - destruct (rateLimit _ _ _ _) as [[[a|] | err] [store w]]; cbn;
      try destruct (rt req _) as [[]]; reflexivity.
Qed.

(** X14. The ceiling of the free tier is the number in
    AI_RATE_LIMIT_FREE_TIER, for a number up to 2^53 (which a double holds
    exactly), except that 0 cannot be configured: 0, like a missing or
    unreadable value, gives 50. *)
Theorem free_tier_ceiling_is_never_zero h e :
  (forall n, 0 <= n <= 9007199254740992 ->
     AI_RATE_LIMIT_FREE_TIER e = Some (u (pretty n)) ->
     max (freeTierLimiter h e) = if n =? 0 then 50 else n)
  /\ (forall s, AI_RATE_LIMIT_FREE_TIER e = Some s -> parseInt s None = None ->
      max (freeTierLimiter h e) = 50)
  /\ (AI_RATE_LIMIT_FREE_TIER e = None -> max (freeTierLimiter h e) = 50)
  /\ max (freeTierLimiter h e) <> 0.
Proof.
  unfold freeTierLimiter, createAIRateLimiter, env_int. cbn [max].
  split; [|split; [|split]].
  - intros n Hn ->. rewrite parseInt_printed_no_radix by lia.
    destruct n; [done..|lia].
  - by intros s -> ->.
  - by intros ->.
  - destruct (AI_RATE_LIMIT_FREE_TIER e) as [s|]; [|done].
    destruct (parseInt s None) as [[| |]|]; done.
Qed.

Lemma free_tier_ceiling_is_never_zero_witness :
  max (freeTierLimiter quiet (with_free_tier (Some (u "0")))) = 50
  /\ max (freeTierLimiter quiet (with_free_tier (Some (u "20")))) = 20
  /\ max (freeTierLimiter quiet (with_free_tier (Some (u "unlimited")))) = 50.
Proof.
  split; [|split].
  - exact (proj1 (free_tier_ceiling_is_never_zero quiet (with_free_tier (Some (u "0"))))
             0 ltac:(lia) eq_refl).
  - exact (proj1 (free_tier_ceiling_is_never_zero quiet (with_free_tier (Some (u "20"))))
             20 ltac:(lia) eq_refl).
  - exact (proj1 (proj2 (free_tier_ceiling_is_never_zero quiet
                           (with_free_tier (Some (u "unlimited")))))
             _ eq_refl eq_refl).
Defined.

(** ** The OpenAI service behind the routes *)

Lemma try_catch_throws {A} (m : M A) handler w e :
  fst (try_catch m handler w) = Throw e ->
  exists e1 w1, m w = (Throw e1, w1) /\ fst (handler e1 w1) = Throw e.
Proof.
  unfold try_catch. destruct (m w) as [[a|e1] w1]; [done|]. by exists e1, w1.
Qed.

(** Every error the OpenAI service throws is a bare [Error]: it has a
    message and no [status]. *)
Lemma OpenAI_errors_have_no_status h this :
  let bare (e : value) := exists message, e = new_Error h (vstr message) [] in
  (forall prompt options w e,
     fst (OpenAI.generateContent h this prompt options w) = Throw e -> bare e)
  /\ (forall text w e, fst (OpenAI.correctGrammar h this text w) = Throw e -> bare e)
  /\ (forall text type w e,
        fst (OpenAI.enhanceContent h this text type w) = Throw e -> bare e)
  /\ (forall content count w e,
        fst (OpenAI.generateTitles h this content count w) = Throw e -> bare e).
Proof.
  intros bare. subst bare. cbv beta.
  split; [|split; [|split]]; intros.
  - unfold OpenAI.generateContent in *.
    destruct (OpenAI.client this); cbn [negb] in *;
      [|injection H as <-; by eexists].
    apply try_catch_throws in H as (e1 & w1 & _ & He). injection He as <-. by eexists.
  - unfold OpenAI.correctGrammar in *.
    destruct (OpenAI.client this); cbn [negb] in *;
      [|injection H as <-; by eexists].
    apply try_catch_throws in H as (e1 & w1 & _ & He). injection He as <-. by eexists.
  - unfold OpenAI.enhanceContent in *.
    destruct (OpenAI.client this); cbn [negb] in *;
      [|injection H as <-; by eexists].
    apply try_catch_throws in H as (e1 & w1 & _ & He). injection He as <-. by eexists.
  - unfold OpenAI.generateTitles in *.
    destruct (OpenAI.client this); cbn [negb] in *;
      [|injection H as <-; by eexists].
    apply try_catch_throws in H as (e1 & w1 & _ & He). injection He as <-. by eexists.
Qed.

Ltac answered_500 :=
  unfold bind, logger, ret; cbn beta iota;
  eexists; (split; [reflexivity|]); simpl; tauto.

(** X15. Behind the OpenAI service a route answers 200, 400 or 500 and
    nothing else: every failure of that service, a missing key and an
    exhausted quota included, reaches the caller as 500, never as 429 or
    503. *)
Theorem OpenAI_failures_are_answered_500 h this req w :
  let service := OpenAI.exports h this in
  answers (Router.generate h service req w) [200; 400; 500]
  /\ answers (Router.grammar h service req w) [200; 400; 500]
  /\ answers (Router.enhance h service req w) [200; 400; 500]
  /\ answers (Router.titles h service req w) [200; 400; 500].
Proof.
  intros service. subst service.
  destruct (OpenAI_errors_have_no_status h this) as (Hg & Hc & He & Ht).
  unfold answers.
  split; [|split; [|split]].
  - unfold Router.generate, try_catch.
    destruct (validationResult h (Req.body req));
      [|eexists; split; [reflexivity|]; simpl; tauto].
    unfold bind at 1, lift at 1, Router.destructure.
    destruct (nullish (Req.body req)); [answered_500|].
    unfold bind at 1. cbn [generateContent OpenAI.exports].
    match goal with
    | |- context [OpenAI.generateContent h this ?p ?o w] =>
        specialize (Hg p o w); destruct (OpenAI.generateContent h this p o w) as [[r|e] w1]
    end.
    2:{ destruct (Hg e eq_refl) as [message ->]. answered_500. }
    unfold bind at 1, lift at 1, get.
    destruct (nullish (Req.user req)); [answered_500|].
    unfold bind at 1. rewrite logAIUsage_never_throws.
    destruct (fst (Ledger.insert _ _ _ _ _ _)); simpl;
      eexists; (split; [reflexivity|]); simpl; tauto.
  - unfold Router.grammar, try_catch.
    destruct (validationResult h (Req.body req));
      [|eexists; split; [reflexivity|]; simpl; tauto].
    unfold bind at 1, lift at 1, get.
    destruct (nullish (Req.body req)); [answered_500|].
    unfold bind at 1. cbn [correctGrammar OpenAI.exports].
    match goal with
    | |- context [OpenAI.correctGrammar h this ?p w] =>
        specialize (Hc p w); destruct (OpenAI.correctGrammar h this p w) as [[r|e] w1]
    end.
    2:{ destruct (Hc e eq_refl) as [message ->]. answered_500. }
    unfold bind at 1, lift at 1.
    destruct (nullish (Req.user req)); [answered_500|].
    unfold bind at 1. rewrite logAIUsage_never_throws.
    destruct (fst (Ledger.insert _ _ _ _ _ _)); simpl;
      eexists; (split; [reflexivity|]); simpl; tauto.
  - unfold Router.enhance, try_catch.
    destruct (validationResult h (Req.body req));
      [|eexists; split; [reflexivity|]; simpl; tauto].
    unfold bind at 1, lift at 1, get.
    destruct (nullish (Req.body req)); [answered_500|].
    unfold bind at 1. cbn [enhanceContent OpenAI.exports].
    match goal with
    | |- context [OpenAI.enhanceContent h this ?p ?o w] =>
        specialize (He p o w); destruct (OpenAI.enhanceContent h this p o w) as [[r|e] w1]
    end.
    2:{ destruct (He e eq_refl) as [message ->]. answered_500. }
    unfold bind at 1, lift at 1.
    destruct (nullish (Req.user req)); [answered_500|].
    unfold bind at 1. rewrite logAIUsage_never_throws.
    destruct (fst (Ledger.insert _ _ _ _ _ _)); simpl;
      eexists; (split; [reflexivity|]); simpl; tauto.
  - unfold Router.titles, try_catch.
    destruct (validationResult h (Req.body req));
      [|eexists; split; [reflexivity|]; simpl; tauto].
    unfold bind at 1, lift at 1, Router.destructure.
    destruct (nullish (Req.body req)); [answered_500|].
    unfold bind at 1. cbn [generateTitles OpenAI.exports].
    match goal with
    | |- context [OpenAI.generateTitles h this ?p ?o w] =>
        specialize (Ht p o w); destruct (OpenAI.generateTitles h this p o w) as [[r|e] w1]
    end.
    2:{ destruct (Ht e eq_refl) as [message ->]. answered_500. }
    unfold bind at 1, lift at 1, get.
    destruct (nullish (Req.user req)); [answered_500|].
    unfold bind at 1. rewrite logAIUsage_never_throws.
    destruct (fst (Ledger.insert _ _ _ _ _ _)); simpl;
      eexists; (split; [reflexivity|]); simpl; tauto.
Qed.

(** X16. The OpenAI service cannot do without the token count: when the
    provider's answer has no [usage], each of the four operations fails with
    its generic error, however good the text of the answer is. *)
Theorem OpenAI_answer_without_usage_is_a_failure h this w response :
  OpenAI.client this = true ->
  (forall history c, chat_upstream h history c = Return response) ->
  nullish (oprop response "usage") = true ->
  (forall prompt options,
     fst (OpenAI.generateContent h this prompt options w)
     = Throw (new_Error h (vstr "Failed to generate content") []))
  /\ (forall text,
        fst (OpenAI.correctGrammar h this text w)
        = Throw (new_Error h (vstr "Failed to correct grammar") []))
  /\ (forall text type,
        fst (OpenAI.enhanceContent h this text type w)
        = Throw (new_Error h (vstr "Failed to enhance content") []))
  /\ (forall content count,
        fst (OpenAI.generateTitles h this content count w)
        = Throw (new_Error h (vstr "Failed to generate titles") [])).
Proof.
  intros Hclient Hup Husage.
  assert (Htokens : exists e, OpenAI.total_tokens response = Throw e).
  { unfold OpenAI.total_tokens, get, andThen. unfold oprop in Husage.
    destruct (nullish response); [by eexists|]. rewrite Husage. by eexists. }
  destruct Htokens as [e Htokens].
  split; [|split; [|split]]; intros.
  - unfold OpenAI.generateContent. rewrite Hclient. cbn [negb].
    unfold try_catch, bind, OpenAI.create, lift. rewrite Hup, Htokens.
    destruct (OpenAI.message_content response); reflexivity.
  - unfold OpenAI.correctGrammar. rewrite Hclient. cbn [negb].
    unfold try_catch, bind, OpenAI.create, lift. rewrite Hup, Htokens.
    destruct (OpenAI.message_content response); [|reflexivity].
    destruct (JSON_parse h _); reflexivity.
  - unfold OpenAI.enhanceContent. rewrite Hclient. cbn [negb].
    unfold try_catch, bind, OpenAI.create, lift. rewrite Hup, Htokens.
    destruct (OpenAI.message_content response); reflexivity.
  - unfold OpenAI.generateTitles. rewrite Hclient. cbn [negb].
    unfold try_catch, bind, OpenAI.create, lift. rewrite Hup, Htokens.
    destruct (OpenAI.message_content response); [|reflexivity].
    destruct (OpenAI.title_lines h _ _); reflexivity.
Qed.

Lemma OpenAI_answer_without_usage_is_a_failure_witness :
  let response :=
    VObj [(u "choices",
           VArr [VObj [(u "message", VObj [(u "content", vstr "Cats sleep a lot.")])]])] in
  let provider :=
    {| StringToNumber := StringToNumber quiet;
       ObjectToNumber := ObjectToNumber quiet;
       NumberToString := NumberToString quiet;
       ObjectToString := ObjectToString quiet;
       JSON_parse := JSON_parse quiet;
       upstream := upstream quiet;
       chat_upstream := fun _ _ => Return response;
       query_fault := query_fault quiet;
       user_exists := user_exists quiet;
       post_exists := post_exists quiet;
       validationResult := validationResult quiet |} in
  fst (OpenAI.generateContent provider (OpenAI.constructor (Some (u "sk-test")))
         about_cats no_options blank)
  = Throw (new_Error provider (vstr "Failed to generate content") []).
Proof.
  intros response provider.
  exact (proj1 (OpenAI_answer_without_usage_is_a_failure provider
                  (OpenAI.constructor (Some (u "sk-test"))) blank response
                  eq_refl (fun _ _ => eq_refl) eq_refl) about_cats no_options).
Defined.

(** ** Authentication *)

Ltac decide_outcome :=
  repeat match goal with
         | |- context [match ?x with _ => _ end] =>
             match x with
             | context [match _ with _ => _ end] => fail 1
             | _ => destruct x eqn:?
             end
         end.

(** X17. The authentication middleware always decides: it never throws; it
    either refuses with 401, 403, 404 or 500, or lets the request through
    with an identity of exactly four fields, [id], [username], [email] and
    [created_at]. *)
Theorem authentication_always_decides k authorization w :
  exists outcome,
    fst (Auth.authenticateToken k authorization w) = Return outcome
    /\ match outcome with
       | Auth.Answered res => In (Res.status res) [401; 403; 404; 500]
       | Auth.Next user =>
           exists id username email created_at,
             user = identity id username email created_at
       end.
Proof.
  unfold Auth.authenticateToken, try_catch, bind, lift, ret, logger, Auth.rejected.
  decide_outcome; eexists; (split; [reflexivity|]); cbn; try tauto.
  by eexists _, _, _, _.
Qed.

Lemma authenticated_identity k user :
  authenticated k user ->
  exists id username email created_at, user = identity id username email created_at.
Proof.
  intros (a & w & Hrun). revert Hrun.
  unfold Auth.authenticateToken, try_catch, bind, lift, ret, logger, Auth.rejected.
  decide_outcome; cbn; intros [=]. subst. by eexists _, _, _, _.
Qed.

(** X18. A request without a usable token is refused 401 NO_TOKEN before
    anything is verified or logged: that is the case when the header is
    missing or empty, and when no word follows its first space, as in
    [Bearer] alone or with two spaces before the token. *)
Theorem missing_token_is_refused_first k authorization w :
  (truthy authorization = false
   \/ exists s, authorization = VStr s /\ second_word s = []) ->
  Auth.authenticateToken k authorization w
  = (Return (Auth.rejected 401 "NO_TOKEN" "Access token is required"), w).
Proof.
  unfold Auth.authenticateToken, try_catch, bind, lift, Auth.token_of.
  intros [Hfalsy | (s & -> & Hword)].
  - rewrite Hfalsy. cbn [negb]. by rewrite Hfalsy.
  - unfold second_word in Hword. destruct s as [|c s]; [reflexivity|].
    cbn [truthy negb].
    destruct (split 32 (c :: s)) as [|first [|word rest]]; try reflexivity.
    by subst word.
Qed.

Lemma missing_token_is_refused_first_witness :
  let refused header :=
    Auth.authenticateToken one_user header blank
    = (Return (Auth.rejected 401 "NO_TOKEN" "Access token is required"), blank) in
  refused VUndefined /\ refused (VStr []) /\ refused (vstr "Bearer")
  /\ refused (vstr "Bearer ") /\ refused (vstr "Bearer  good").
Proof.
  cbv zeta. split; [|split; [|split; [|split]]].
  - apply (missing_token_is_refused_first one_user VUndefined blank). by left.
  - apply (missing_token_is_refused_first one_user (VStr []) blank). by left.
  - apply (missing_token_is_refused_first one_user (vstr "Bearer") blank).
    right. by eexists.
  - apply (missing_token_is_refused_first one_user (vstr "Bearer ") blank).
    right. by eexists.
  - apply (missing_token_is_refused_first one_user (vstr "Bearer  good") blank).
    right. by eexists.
Defined.

Lemma split_two (first word : jsstring) :
  32%N ∉ first -> 32%N ∉ word -> split 32 (first ++ 32%N :: word) = [first; word].
Proof. intros H1 H2. by rewrite split_app, split_line. Qed.

Lemma no_space_in_Bearer : 32%N ∉ u "Bearer".
Proof. vm_compute. intros H. by repeat (apply elem_of_cons in H as [H|H]; [done|]); apply elem_of_nil in H. Qed.

(** The token of a header of two words is the second. *)
Lemma token_of_two_words (first token : jsstring) :
  32%N ∉ first -> 32%N ∉ token ->
  Auth.token_of (VStr (first ++ 32%N :: token)) = Return (VStr token).
Proof.
  intros Hf Ht. unfold Auth.token_of. rewrite split_two by done. by destruct first.
Qed.

(** X19. The token the page stores comes back unchanged on the server: the
    header the request interceptor builds from a stored token without spaces
    is read by the middleware as that very token. *)
Theorem stored_token_reaches_the_verifier b token :
  Client.token b = Some token ->
  token <> [] ->
  32%N ∉ token ->
  Auth.token_of (Client.Authorization b) = Return (VStr token).
Proof.
  intros Hb Hne Hsp. unfold Client.Authorization. rewrite Hb.
  destruct token as [|c token]; [done|].
  change (u "Bearer " ++ c :: token) with (u "Bearer" ++ 32%N :: c :: token).
  apply token_of_two_words; [exact no_space_in_Bearer|done].
Qed.

Lemma stored_token_reaches_the_verifier_witness :
  Auth.token_of (Client.Authorization (signed_in "good")) = Return (vstr "good").
Proof.
  apply (stored_token_reaches_the_verifier (signed_in "good") (u "good"));
    [reflexivity|discriminate|].
  vm_compute. intros H.
  by repeat (apply elem_of_cons in H as [H|H]; [done|]); apply elem_of_nil in H.
Defined.

(** X20. The scheme of the header is never looked at: whatever word stands
    before the token, [Basic] or anything else, the request is treated as if
    it read [Bearer]. *)
Theorem scheme_is_never_checked k scheme token w :
  32%N ∉ scheme ->
  32%N ∉ token ->
  Auth.authenticateToken k (VStr (scheme ++ 32%N :: token)) w
  = Auth.authenticateToken k (VStr (u "Bearer" ++ 32%N :: token)) w.
Proof.
  intros Hs Ht. unfold Auth.authenticateToken, try_catch, bind, lift.
  by rewrite (token_of_two_words scheme token Hs Ht),
       (token_of_two_words (u "Bearer") token no_space_in_Bearer Ht).
Qed.

Lemma scheme_is_never_checked_witness :
  Auth.authenticateToken one_user (vstr "Basic good") blank
  = Auth.authenticateToken one_user (vstr "Bearer good") blank.
Proof.
  apply (scheme_is_never_checked one_user (u "Basic") (u "good") blank);
    vm_compute; intros H;
    by repeat (apply elem_of_cons in H as [H|H]; [done|]); apply elem_of_nil in H.
Defined.

(** ** What the routes make of an authenticated identity *)

Lemma identity_has_no_user_id id username email created_at :
  prop (identity id username email created_at) (u "user_id") = VUndefined
  /\ prop (identity id username email created_at) (u "role") = VUndefined
  /\ truthy (identity id username email created_at) = true.
Proof. by repeat split. Qed.

(** X21. Every authenticated caller is counted under one and the same key:
    the limiter reads [req.user.user_id], the middleware stores the id as
    [req.user.id], so the key is [user:undefined] whoever calls. *)
Theorem authenticated_callers_share_one_key k h e user req :
  authenticated k user ->
  keyGenerator (freeTierLimiter h e) (as_user user req) = u "user:undefined".
Proof.
  intros (id & name & email & created & ->)%authenticated_identity.
  reflexivity.
Qed.

Lemma authenticated_callers_share_one_key_witness :
  keyGenerator (freeTierLimiter quiet two_a_day) (as_user alice cat_request)
  = u "user:undefined".
Proof.
  apply (authenticated_callers_share_one_key one_user).
  by exists (vstr "Bearer good"), blank.
Defined.

(** X22. No usage row is ever written for an authenticated caller: the
    routes pass [req.user.user_id], which the middleware never sets, the
    insert is refused, and the caller still gets the 200 answer. *)
Theorem authenticated_usage_is_never_recorded k h aiService user req w w1 :
  authenticated k user ->
  validationResult h (Req.body req) = [] ->
  nullish (Req.body req) = false ->
  let req := as_user user req in
  let body := Req.body req in
  let unrecorded (run : completion Res.t * world) (answer : Res.t) :=
    fst run = Return answer /\ ledger (snd run) = ledger w1 in
  (forall r,
     generateContent aiService (prop body (u "prompt")) (generate_options body) w
     = (Return r, w1) ->
     unrecorded (Router.generate h aiService req w) (generated r))
  /\ (forall r,
        correctGrammar aiService (prop body (u "text")) w = (Return r, w1) ->
        unrecorded (Router.grammar h aiService req w) (corrected r))
  /\ (forall r,
        enhanceContent aiService (prop body (u "text")) (prop body (u "type")) w
        = (Return r, w1) ->
        unrecorded (Router.enhance h aiService req w) (enhanced r))
  /\ (forall r,
        generateTitles aiService (prop body (u "content"))
                       (default_to (prop body (u "count")) (vint 5)) w
        = (Return r, w1) ->
        unrecorded (Router.titles h aiService req w) (titled r)).
Proof.
  intros (id & name & email & created & ->)%authenticated_identity Hvalid Hbody.
  intros req' body unrecorded. subst req' body unrecorded. cbv beta.
  assert (Hrefused : forall feature tokens,
            exists err, fst (Ledger.insert h VUndefined VNull feature tokens w1) = Throw err).
  { intros. unfold Ledger.insert. destruct (query_fault h (ledger w1)); [by eexists|].
    cbn. destruct (Ledger.sql_integer tokens); by eexists. }
  split; [|split; [|split]]; intros r Hrun.
  - destruct (generate_swallows h aiService (as_user (identity id name email created) req)
                w w1 Hvalid Hbody eq_refl r Hrun) as [Hanswer Hworld].
    split; [exact Hanswer|].
    destruct (Hrefused (u "generate") (or (Content.tokensUsed r) (vint 0))) as [err He].
    cbn [as_user Req.user] in Hworld.
    change (prop (identity id name email created) (u "user_id")) with VUndefined in Hworld.
    rewrite He in Hworld. by destruct Hworld as (_ & -> & _).
  - destruct (grammar_swallows h aiService (as_user (identity id name email created) req)
                w w1 Hvalid Hbody eq_refl r Hrun) as [Hanswer Hworld].
    split; [exact Hanswer|].
    destruct (Hrefused (u "grammar") (or (Grammar.tokensUsed r) (vint 0))) as [err He].
    cbn [as_user Req.user] in Hworld.
    change (prop (identity id name email created) (u "user_id")) with VUndefined in Hworld.
    rewrite He in Hworld. by destruct Hworld as (_ & -> & _).
  - destruct (enhance_swallows h aiService (as_user (identity id name email created) req)
                w w1 Hvalid Hbody eq_refl r Hrun) as [Hanswer Hworld].
    split; [exact Hanswer|].
    destruct (Hrefused (u "enhance_" ++ ToString h (prop (Req.body req) (u "type")))
                (or (Enhanced.tokensUsed r) (vint 0))) as [err He].
    cbn [as_user Req.user Req.body] in Hworld.
    change (prop (identity id name email created) (u "user_id")) with VUndefined in Hworld.
    rewrite He in Hworld. by destruct Hworld as (_ & -> & _).
  - destruct (titles_swallows h aiService (as_user (identity id name email created) req)
                w w1 Hvalid Hbody eq_refl r Hrun) as [Hanswer Hworld].
    split; [exact Hanswer|].
    destruct (Hrefused (u "titles") (or (Titles.tokensUsed r) (vint 0))) as [err He].
    cbn [as_user Req.user] in Hworld.
    change (prop (identity id name email created) (u "user_id")) with VUndefined in Hworld.
    rewrite He in Hworld. by destruct Hworld as (_ & -> & _).
Qed.

Lemma authenticated_usage_is_never_recorded_witness :
  exists r w1,
    GenAI.generateContent primary_down gemini about_cats
      (generate_options (Req.body cat_request)) blank = (Return r, w1)
    /\ fst (Router.generate primary_down (GenAI.exports primary_down gemini)
              (as_user alice cat_request) blank) = Return (generated r)
    /\ ledger (snd (Router.generate primary_down (GenAI.exports primary_down gemini)
                      (as_user alice cat_request) blank)) = ledger w1.
Proof.
  eexists _, _. split; [reflexivity|].
  exact (proj1 (authenticated_usage_is_never_recorded one_user primary_down
                  (GenAI.exports primary_down gemini) alice cat_request blank _
                  (ex_intro _ (vstr "Bearer good") (ex_intro _ blank eq_refl))
                  eq_refl eq_refl) _ eq_refl).
Defined.

(** X23. For an authenticated caller the usage route always reports
    nothing: whatever the table holds, the totals are 0 and both series are
    empty, because the statements are given [req.user.user_id], which is
    never set. *)
Theorem authenticated_usage_report_is_empty k h user req w days :
  authenticated k user ->
  nullish (Req.query req) = false ->
  period_of h req = Some days ->
  1 <= days <= 365 ->
  query_fault h (ledger w) = None ->
  Router.usage h (as_user user req) w = (Return (empty_report days (now w)), w).
Proof.
  intros (id & name & email & created & ->)%authenticated_identity Hq Hp Hd Hf.
  unfold Router.usage, try_catch, bind, lift, Router.destructure, clock, ret.
  cbn [as_user Req.query Req.user]. rewrite Hq. cbn beta iota zeta.
  fold (period_of h req). rewrite Hp.
  destruct (Z.ltb_spec days 1); [lia|]. destruct (Z.ltb_spec 365 days); [lia|].
  cbn [orb]. unfold get, Router.query.
  change (nullish (identity id name email created)) with false.
  change (prop (identity id name email created) (u "user_id")) with VUndefined.
  cbn [Ledger.sql_integer]. cbn beta iota. rewrite Hf. cbn beta iota.
  rewrite Hf. cbn beta iota. by rewrite Hf.
Qed.

Lemma authenticated_usage_report_is_empty_witness :
  Router.usage quiet (as_user alice usage_request) (World today [] [] [] [] three_rows)
  = (Return (empty_report 30 today), World today [] [] [] [] three_rows).
Proof.
  apply (authenticated_usage_report_is_empty one_user quiet alice usage_request
           (World today [] [] [] [] three_rows) 30);
    [by exists (vstr "Bearer good"), blank|reflexivity|reflexivity|lia|reflexivity].
Defined.

(** X24. Nobody passes [isAdmin] after [authenticateToken]: the identity
    it builds has no [role], so every authenticated caller is refused 403
    FORBIDDEN. *)
Theorem no_authenticated_caller_is_admin k user :
  authenticated k user ->
  Auth.isAdmin user = Auth.rejected 403 "FORBIDDEN" "Admin access required".
Proof.
  intros (id & name & email & created & ->)%authenticated_identity. reflexivity.
Qed.

Lemma no_authenticated_caller_is_admin_witness :
  Auth.isAdmin alice = Auth.rejected 403 "FORBIDDEN" "Admin access required".
Proof.
  apply (no_authenticated_caller_is_admin one_user).
  by exists (vstr "Bearer good"), blank.
Defined.

(** ** The page and the middleware *)

(** X25. The page forgets a refused token only when it has expired: for a
    stored token that the verifier rejects, the middleware answers 401 when
    the error is a TokenExpiredError and 403 otherwise, and the response
    interceptor clears the token and goes to the login page on 401 alone; a
    token refused as invalid stays in the store. *)
Theorem refused_token_is_kept_unless_expired k b token err w :
  Client.token b = Some token ->
  token <> [] ->
  32%N ∉ token ->
  Auth.jwt_verify k (VStr token) = Throw err ->
  let expired := GenAI.is_str (prop err (u "name")) "TokenExpiredError" in
  exists res,
    fst (Auth.authenticateToken k (Client.Authorization b) w) = Return (Auth.Answered res)
    /\ Res.status res = (if expired then 401 else 403)
    /\ Client.on_rejected (Client.http_error res) b
       = Return (if expired then {| Client.token := None; Client.href := u "/login" |}
                 else b).
Proof.
  intros Hb Hne Hsp Hverify expired. subst expired.
  unfold Auth.authenticateToken, try_catch, bind, lift, Client.Authorization.
  rewrite Hb. destruct token as [|c token]; [done|].
  change (u "Bearer " ++ c :: token) with (u "Bearer" ++ 32%N :: c :: token).
  rewrite (token_of_two_words (u "Bearer") (c :: token) no_space_in_Bearer Hsp).
  cbn [truthy negb]. rewrite Hverify.
  destruct (GenAI.is_str _ _); eexists; (split; [reflexivity|]); by split.
Qed.

Ltac no_space :=
  let H := fresh in
  vm_compute; intros H;
  repeat (apply elem_of_cons in H as [H|H]; [discriminate H|]);
  by apply elem_of_nil in H.

Lemma refused_token_is_kept_unless_expired_witness :
  (exists res,
     fst (Auth.authenticateToken one_user (Client.Authorization (signed_in "stolen")) blank)
     = Return (Auth.Answered res)
     /\ Res.status res = 403
     /\ Client.on_rejected (Client.http_error res) (signed_in "stolen")
        = Return (signed_in "stolen"))
  /\ (exists res,
        fst (Auth.authenticateToken one_user (Client.Authorization (signed_in "old")) blank)
        = Return (Auth.Answered res)
        /\ Res.status res = 401
        /\ Client.on_rejected (Client.http_error res) (signed_in "old")
           = Return {| Client.token := None; Client.href := u "/login" |}).
Proof.
  split.
  - apply (refused_token_is_kept_unless_expired one_user (signed_in "stolen") (u "stolen")
             (VObj [(u "name", vstr "JsonWebTokenError")]) blank);
      [reflexivity|discriminate|no_space|reflexivity].
  - apply (refused_token_is_kept_unless_expired one_user (signed_in "old") (u "old")
             (VObj [(u "name", vstr "TokenExpiredError")]) blank);
      [reflexivity|discriminate|no_space|reflexivity].
Defined.

(** ** The editor *)

Lemma is_prefix_drop (p s : jsstring) :
  is_prefix p s = true -> p ++ drop (length p) s = s.
Proof.
  revert s. induction p as [|a p IH]; intros s; [done|].
  destruct s as [|b s]; [done|]. cbn [is_prefix].
  intros [->%N.eqb_eq Hp]%andb_prop. simpl. f_equal. by apply IH.
Qed.

Lemma replace_prefix (s p : jsstring) :
  is_prefix p s = true -> Toolbar.replace s p [] = drop (length p) s.
Proof. intros Hp. destruct s; cbn [Toolbar.replace]; by rewrite Hp. Qed.

(** X26. A button of the toolbar names its own usage row: for an action id
    that starts with [enhance_], the toolbar asks for the action [enhance]
    with the rest of the id as type; the editor page sends that type on as
    the [type] of the body, and once the route has enhanced such a request
    for a caller whose [req.user.user_id] is the id of a row of [users], the
    row it writes carries the action id itself as feature. *)
Theorem toolbar_action_names_its_usage_row h aiService actionId req w w1 r uid spent :
  Toolbar.startsWith actionId (u "enhance_") = true ->
  Z.of_nat (length actionId) <= 50 ->
  prop (Req.body req) (u "type")
  = prop (snd (Toolbar.handleAction actionId)) (u "type") ->
  validationResult h (Req.body req) = [] ->
  nullish (Req.body req) = false ->
  Req.user req = VObj [(u "user_id", vint uid)] ->
  - 2147483648 <= uid <= 2147483647 ->
  user_exists h uid = true ->
  0 <= spent <= 2147483647 ->
  enhanceContent aiService (prop (Req.body req) (u "text"))
                 (prop (Req.body req) (u "type")) w = (Return r, w1) ->
  Enhanced.tokensUsed r = vint spent ->
  query_fault h (ledger w1) = None ->
  fst (Toolbar.handleAction actionId) = u "enhance"
  /\ ledger (snd (Router.enhance h aiService req w))
     = ledger w1 ++ [Row uid None actionId spent (now w1)].
Proof.
  intros Hstart Hlen Htype Hvalid Hbody Huser Huid Hexists Hspent Hrun Htokens Hdb.
  unfold Toolbar.handleAction in *. rewrite Hstart in *. cbn [fst snd] in *.
  split; [reflexivity|].
  assert (Hty : prop (Req.body req) (u "type")
                = VStr (drop (length (u "enhance_")) actionId)).
  { rewrite Htype. cbn [prop own].
    change (key_eqb (u "type") (u "type")) with true. cbn beta iota.
    by rewrite replace_prefix. }
  assert (Hnn : nullish (Req.user req) = false) by by rewrite Huser.
  destruct (enhance_swallows h aiService req w w1 Hvalid Hbody Hnn r Hrun) as [_ Hw].
  rewrite Huser, Htokens, or_zero_vint, Hty in Hw. cbn [ToString] in Hw.
  rewrite (is_prefix_drop _ _ Hstart) in Hw.
  change (prop (VObj [(u "user_id", vint uid)]) (u "user_id")) with (vint uid) in Hw.
  unfold Ledger.insert in Hw. rewrite Hdb, !sql_integer_vint in Hw by lia.
  cbn [Ledger.sql_integer] in Hw.
  destruct (Z.leb_spec (Z.of_nat (length actionId)) 50); [|lia].
  rewrite Hexists in Hw. cbn [negb fst snd] in Hw. by rewrite Hw.
Qed.

Lemma toolbar_action_names_its_usage_row_witness :
  fst (Toolbar.handleAction (u "enhance_improve")) = u "enhance"
  /\ ledger (snd (Router.enhance metered (GenAI.exports metered gemini)
                    improve_request (World today [] [] [] [] three_rows)))
     = three_rows ++ [Row 7 None (u "enhance_improve") 42 today].
Proof.
  exact (toolbar_action_names_its_usage_row metered (GenAI.exports metered gemini)
           (u "enhance_improve") improve_request (World today [] [] [] [] three_rows)
           _ _ 7 42 eq_refl ltac:(vm_compute; discriminate) eq_refl eq_refl eq_refl
           eq_refl ltac:(lia) eq_refl ltac:(lia) eq_refl eq_refl eq_refl).
Defined.

(** X27. The title of the post is only ever replaced by one of the
    suggestions: typing the number shown before a suggestion picks that
    suggestion, and any other answer, or none, leaves the title alone. *)
Theorem chosen_title_is_a_suggestion h prompt titles :
  (forall title, Editor.showTitleSuggestions h prompt titles = Some title ->
                 title ∈ titles)
  /\ (forall n, 1 <= n <= Z.of_nat (length titles) ->
        prompt (Editor.question h titles) = VStr (u (pretty n)) ->
        Editor.showTitleSuggestions h prompt titles = titles !! Z.to_nat (n - 1))
  /\ (forall n, n < 1 \/ Z.of_nat (length titles) < n ->
        parseInt (ToString h (prompt (Editor.question h titles))) None = Some n ->
        Editor.showTitleSuggestions h prompt titles = None)
  /\ (truthy (prompt (Editor.question h titles)) = false ->
      Editor.showTitleSuggestions h prompt titles = None).
Proof.
  unfold Editor.showTitleSuggestions.
  split; [|split; [|split]].
  - intros title. destruct (truthy _); [|done].
    destruct (parseInt _ _) as [n|]; [|done].
    destruct (_ && _); [|done]. apply list_elem_of_lookup_2.
  - intros n Hn ->. cbn [ToString].
    assert (Hne : u (pretty n) <> []).
    { destruct (printed n [] ltac:(lia)) as ((c & tail & -> & _) & _). done. }
    destruct (u (pretty n)) eqn:E; [done|]. cbn [truthy]. rewrite <- E.
    rewrite parseInt_printed_no_radix by lia.
    destruct (Z.leb_spec 0 (n - 1)), (Z.ltb_spec (n - 1) (Z.of_nat (length titles)));
      try lia. reflexivity.
  - intros n Hn ->. destruct (truthy _); [|done].
    destruct (Z.leb_spec 0 (n - 1)), (Z.ltb_spec (n - 1) (Z.of_nat (length titles)));
      try lia; reflexivity.
  - by intros ->.
Qed.

Lemma chosen_title_is_a_suggestion_witness :
  Editor.showTitleSuggestions quiet (fun _ => vstr "2") three_titles
  = Some (vstr "Why Cats Purr")
  /\ Editor.showTitleSuggestions quiet (fun _ => vstr "4") three_titles = None
  /\ Editor.showTitleSuggestions quiet (fun _ => VNull) three_titles = None.
Proof.
  split; [|split].
  - exact (proj1 (proj2 (chosen_title_is_a_suggestion quiet (fun _ => vstr "2")
                           three_titles)) 2 ltac:(cbn; lia) eq_refl).
  - exact (proj1 (proj2 (proj2 (chosen_title_is_a_suggestion quiet (fun _ => vstr "4")
                                  three_titles))) 4 ltac:(cbn; lia) eq_refl).
  - exact (proj2 (proj2 (proj2 (chosen_title_is_a_suggestion quiet (fun _ => VNull)
                                  three_titles))) eq_refl).
Defined.
